(* ===== verification/_CoqProject ===== *)
-Q . S2P
Prelude.v
PyStr.v
PosixPath.v
FileSystem.v
FileTree.v
BatchTransformer.v
WorkerSpec.v
Progress.v
WslBridge.v
Dispatcher.v
Panel.v
Registration.v
ModuleTest.v
