(* ===== verification/Prelude.v ===== *)
(** * Verification of the replaceAll Slicer module

    The repository is a 3D Slicer extension.  Its worker
    ([src/replaceAll/replaceAll_utils/replaceAll_WSL.py], [main]) copies
    the NIfTI images (re-encoded through SimpleITK) and the VTK meshes
    (byte for byte) of an input folder into an output folder, then renames
    the entries of the output folder by substring replacement, writing a
    log file once per entry.  The widget ([src/replaceAll/replaceAll.py],
    [replaceAllWidget]) dispatches the worker: off Windows through the CLI
    runner ([replaceAllLogic.process]), on Windows into the [replaceAll]
    conda environment of WSL ([process_wsl]), creating the environment on
    request ([creation_env_wsl]); it counts the input entries
    ([onProcessStarted]) and draws a progress bar from the log file's
    modification times ([onProcessUpdate] and the WSL polling loop).

    ** Files, in dependency order
    - [Prelude] (this file): the monad [io S E A] of computations on a
      state that return a value or raise an exception, the state reached
      being kept in both cases (a Python exception leaves its side effects
      in place); [for_each] is a [for] loop; loop lemmas with invariants
      indexed by the elements done ([for_each_ok_prefix]); [within R m],
      the relation [R] holds between the state before and after [m],
      closed under bind and loops; [raises_only P m], every exception [m]
      raises satisfies [P], closed likewise (hint database [raises]).
    - [PyStr] (Module [Str]): the [str] methods the code calls
      ([split], [split(sep, 1)], [join], [replace], [strip], [lower] on
      Latin-1 letters, [count], [in]); [split] and [replace] scan with
      fuel [len(s) + 1].
    - [PosixPath] (Module [Path]): [os.path.basename], [splitext],
      [join], [dirname] and the worker's [get_file_extension]; paths as lists of
      components ([path]), how a joined string resolves ([join_path]),
      ["../"] included.
    - [FileSystem] (Module [FS]): the file system as a [gmap] from paths
      to files (contents and modification time) and directories, with a
      write counter and the trace of writes; the modification time of the
      n-th write is [tick n], a clock function the file system carries,
      so two writes may get the same time (finite resolution); [os.listdir],
      [os.mkdir], [open], [os.rename], [shutil.copy2], SimpleITK's
      read/write, each raising what Python raises.  Interfaces: [Listing]
      (the order [os.listdir] returns: any duplicate-free enumeration) and
      [ImageIO] (SimpleITK: decoding what was encoded gives the image back).
    - [FileTree] (Module [Tree]): the well-formedness of the tree ([wf]:
      every path but the root has a directory as its parent), decidable,
      and kept by every operation on every path, as [within (preserves wf)]
      hints.
    - [BatchTransformer] (Module [Worker]): [main] as [copy_phase]
      (truncate the log, then [copy_pass] when [overwrite == "False"])
      followed by [rename_pass]; [copy_entry] and [rename_entry] are the
      loop bodies, [new_name] the name [rename_entry] computes.
    - [WorkerSpec] (Module [WorkerSpec]): what a worker run promises, as a
      predicate [dest_spec] on the final file system over the entries the
      copy guard keeps ([kept], lines 43-46), and the refinement of it by
      [main].
    - [Progress] (Module [Progress]): the widget's progress fields
      [pstate] (counter, bar, labels and their visibility),
      [onProcessStarted], the tick shared by [onProcessUpdate] and the WSL
      loop ([progress_tick]), the time label, [show_success]; the
      reachable widget states as an inductive relation.
    - [WslBridge] (Module [Bridge]): the environment manager
      [CondaSetUpCallWsl] (another extension) as the class [CondaWSL]; the
      widget's state [wstate] with the ordered trace of its external calls;
      [windows_to_linux_path], the PYTHONPATH probe and remediation,
      [process_wsl], [creation_env_wsl], [check_lib_wsl] with its
      UTF-16-LE/UTF-8 re-decoding ([decode_output], which raises
      [UnicodeDecodeError] on a character from 128 to 255); a scripted
      environment manager for concrete runs.
    - [Dispatcher] (Module [Dispatch]): [onApplyButton] with both branches,
      [_checkIO], [replaceAllLogic] and [process]; the worker's [argparse]
      (Python 3.9: positionals, the [-h] option, unknown options and
      ["--"], [classify], [scan_args], [parse_args], with its help and
      error exits); bash's removal of the double quotes [process_wsl] puts
      around each argument ([unquote], from the specification of the
      environment manager's command runner).
    - [Panel] (Module [Panel]): the rest of the widget as a record
      [panel]: [setup], [cleanup], [enter], [exit], the scene-close
      handlers, the parameter node ([setParameterNode], [_checkCanApply]),
      [openFinder] and the [overwrite] check box; the user's and Slicer's
      actions as an inductive [event] run by [handle], Apply through
      [onApplyButton]; the reachable panels as an inductive relation.
    - [Registration] (Module [Registration]): [replaceAll.__init__]
      (the module's descriptor and the [startupCompleted()] slot it
      connects, the slots run in connection order) and
      [registerSampleData] with its two sources; Slicer's SampleData
      registry as the class [SampleDataLogic], with a list instance.
    - [ModuleTest] (Module [ModuleTest]): [replaceAllTest]'s [setUp],
      [runTest] and [test_replaceAll1] over the scene, the registry and
      the widget state; a Python call binds its positional arguments
      before the body runs ([process_call]); SampleData's [downloadSample]
      as the class [SampleDownload].

    ** Theorems
    - The worker: the copy pass converts, copies and skips as the
      extension says and writes the log once per entry
      ([copy_pass_result]); the rename pass moves each entry to its new
      name when the new names are distinct and fresh ([rename_pass_result]);
      the new name replaces every occurrence of the word
      ([new_name_all_occurrences]); the log ends holding ["0"]
      ([copy_phase_log]); the failures: an empty input leaves the output
      folder missing ([main_empty_input_fails]), a new name taken by
      another file replaces it ([rename_entry_overwrites]), a new name
      ["../z"] moves the file out of the folder ([rename_entry_escapes]).
      The whole run refines the abstract contract: with overwrite off and
      new names that are proper, distinct and not the name of another kept
      entry, [main] completes and the output folder holds exactly the kept
      entries, converted, under their new names ([main_refines_spec]); it
      is built from the loop invariants of the two passes
      ([copy_phase_run], [rename_loop_run]).  With overwrite on, a run,
      even one that raises, touches nothing outside the output folder but
      the log, as long as the names it renames are single path components
      ([main_overwrite_confined], through the preorder [confined] and
      [within_for_each_in]).  Every run keeps the tree well formed
      ([main_wf]) and the write trace ordered ([main_clock_ext]).
    - The progress display: the counter and the bar stay in bounds in
      every reachable state ([progress_reachable_bounds]); polling after
      each write with a new modification time reaches 100%
      ([polls_reach_full]); the [ZeroDivisionError] of an empty input
      ([onProcessUpdate_zero_division]); the time label shows the whole
      seconds elapsed, as minutes and seconds below 60
      ([time_text_fields]).
    - Dispatch: the Linux branch's CLI parameters ([replaceAllLogic(param,)]
      binds the dictionary to the first field) and the form validation
      ([onApplyButton_checkIO_refuses]); on Windows every readiness check
      (WSL, the library check answering true, conda, the environment or
      the user's consent) guards the launch
      ([onApplyButton_windows_guarded]); once they pass, a run that
      returns always shows success whatever the creation, the probes and
      the worker did ([windows_run_reports_success]), and the worker is
      launched on the unvalidated form ([windows_launch_without_validation]);
      the probe is retried once ([probe_with_retry_calls],
      [process_wsl_no_launch]); the worker's command line, once bash
      removes the quotes, is bound by argparse in order, or printed as
      help or refused when the word to replace is an option
      ([wsl_argv_parse]); the path translation: no backslash left
      ([windows_to_linux_path_no_backslash]), drive paths to [/mnt/<d>]
      ([windows_to_linux_path_drive]), other paths by the character map
      ([windows_to_linux_path_no_drive]); the library check raises on
      non-ASCII output ([check_lib_wsl_decode_error]) and otherwise
      answers from the outputs with their NULs removed
      ([check_lib_wsl_result]).
    - The panel: in every reachable panel the output folder's widgets are
      disabled exactly while "overwrite" is ticked and Apply stays enabled
      ([reachable_panel_inv]); ticking the box aliases the output folder
      to the input folder until the input folder's field is written
      ([overwrite_keeps_alias]), and choosing another input folder
      afterwards leaves the old one as the output folder, its widgets
      disabled ([overwrite_stale_alias]).
    - Registration and test: once Slicer has started, both samples are
      listed with checksums matching their URIs and names derived from
      the sample ([startup_registers_samples]); the module's test never
      passes and never reaches the CLI: the first [logic.process] call
      passes the template's four arguments to a method taking [self]
      alone ([runTest_never_passes]).

    ** Fuel and bounds
    [split] and [replace] recurse on the string with fuel [len(s) + 1],
    enough since each step consumes a character ([split_fuel_sufficient],
    [replace_fuel_sufficient]); [replace] is shown to replace all
    occurrences ([replace_all_occurrences]) and, for one character, to
    equal the character-wise map ([replace_char_map]).  The bar value is
    an integer number of hundredths computed exactly with round-half-even,
    in place of Python's floats.  Characters are 8-bit ([ascii]): code
    points above 255 are not represented.

    ** Not modelled
    The parameter node's fields [imageThreshold], [invertThreshold] and
    [invertedVolume] are read and written by no code of the module.
    Qt's widgets and dialogs are inputs of the panel (the .ui file is not
    in the repository, so the form [setup] starts from is a parameter).
    [condaCreateEnv] and [condaInstallLibEnv] of the widget are never
    called, and would raise [AttributeError] at their first call of an
    environment-manager method; the rest of their bodies is unreachable and
    not modelled.  The wall clock ([time.time()]) is an input read in
    whole milliseconds.  The worker thread runs concurrently with
    the polling loop; the model takes the file systems the loop observes as
    an input.  [repr] of strings with quotes or backslashes, and
    [str(float)] beyond two decimals, are not modelled; nor are bash's
    expansions inside the quoted arguments ([unquote] gives [None]). *)

From stdpp Require Import base list.

(** ** The state-and-error monad

    [io S E A] is a computation on a state [S] that either returns a value
    of [A] or raises an exception of [E]; in both cases the state reached so
    far is kept, as a Python exception leaves the side effects already done
    in place. *)

Inductive outcome (S E A : Type) : Type :=
| Ok (a : A) (s : S)
| Err (e : E) (s : S).
Arguments Ok {S E A} a s.
Arguments Err {S E A} e s.

Definition io (S E A : Type) : Type := S -> outcome S E A.

Definition io_ret {S E A} (a : A) : io S E A := fun s => Ok a s.

Definition io_bind {S E A B} (m : io S E A) (k : A -> io S E B) : io S E B :=
  fun s => match m s with
           | Ok a s' => k a s'
           | Err e s' => Err e s'
           end.

Definition io_raise {S E A} (e : E) : io S E A := fun s => Err e s.
Definition io_get {S E} : io S E S := fun s => Ok s s.
Definition io_put {S E} (s : S) : io S E unit := fun _ => Ok tt s.
Definition io_modify {S E} (f : S -> S) : io S E unit := fun s => Ok tt (f s).

Declare Scope io_scope.
Delimit Scope io_scope with io.
Notation "x <- m ;; k" := (io_bind m (fun x => k))
  (at level 100, m at next level, right associativity) : io_scope.
Notation "m ;; k" := (io_bind m (fun _ => k))
  (at level 100, right associativity) : io_scope.
Open Scope io_scope.

(** A Python [for x in xs: body(x)] loop: the body runs on each element in
    order and the first exception leaves the loop (and the caller). *)
Fixpoint for_each {S E X} (xs : list X) (body : X -> io S E unit) : io S E unit :=
  match xs with
  | [] => io_ret tt
  | x :: xs' => body x ;; for_each xs' body
  end.

(** The state an [outcome] ends in, whatever the result. *)
Definition final_state {S E A} (o : outcome S E A) : S :=
  match o with Ok _ s | Err _ s => s end.

Definition is_ok {S E A} (o : outcome S E A) : bool :=
  match o with Ok _ _ => true | Err _ _ => false end.

(** ** Monad laws and loop lemmas *)

Create HintDb pyio discriminated.
Create Rewrite HintDb pyio_rw.

Section Laws.
Context {S E : Type}.

Lemma io_bind_ret_l {A B} (a : A) (k : A -> io S E B) s :
  io_bind (io_ret a) k s = k a s.
Proof. reflexivity. Qed.

Lemma io_bind_ok {A B} (m : io S E A) (k : A -> io S E B) s a s' :
  m s = Ok a s' -> io_bind m k s = k a s'.
Proof. intros H. unfold io_bind. by rewrite H. Qed.

Lemma io_bind_err {A B} (m : io S E A) (k : A -> io S E B) s e s' :
  m s = Err e s' -> io_bind m k s = Err e s'.
Proof. intros H. unfold io_bind. by rewrite H. Qed.

Lemma io_bind_assoc {A B C} (m : io S E A) (k : A -> io S E B)
      (h : B -> io S E C) s :
  io_bind (io_bind m k) h s = io_bind m (fun a => io_bind (k a) h) s.
Proof. unfold io_bind. by destruct (m s). Qed.

Lemma for_each_app {X} (xs ys : list X) (body : X -> io S E unit) s :
  for_each (xs ++ ys) body s = io_bind (for_each xs body) (fun _ => for_each ys body) s.
Proof.
  revert s. induction xs as [|x xs IH]; intros s; simpl; [done|].
  unfold io_bind. destruct (body x s); [|done].
  specialize (IH s0). unfold io_bind in IH. exact IH.
Qed.

(** A loop whose body keeps an invariant [P] of the state keeps it,
    whether the loop completes or an iteration raises. *)
Lemma for_each_invariant {X} (P : S -> Prop) (xs : list X)
      (body : X -> io S E unit) :
  (forall x s, P s -> P (final_state (body x s))) ->
  forall s, P s -> P (final_state (for_each xs body s)).
Proof.
  intros Hbody. induction xs as [|x xs IH]; intros s Hs; simpl; [done|].
  unfold io_bind. specialize (Hbody x s Hs).
  destruct (body x s); simpl in *; auto.
Qed.

(** A loop whose every iteration succeeds runs to the end. *)
Lemma for_each_ok {X} (P : S -> Prop) (xs : list X)
      (body : X -> io S E unit) :
  (forall x s, In x xs -> P s -> exists s', body x s = Ok tt s' /\ P s') ->
  forall s, P s -> exists s', for_each xs body s = Ok tt s' /\ P s'.
Proof.
  intros Hbody. induction xs as [|x xs IH]; intros s Hs; simpl; [eauto|].
  destruct (Hbody x s (or_introl eq_refl) Hs) as (s1 & Hb & Hs1).
  rewrite (io_bind_ok _ _ _ _ _ Hb). apply IH; [|done].
  intros y s' Hy. apply Hbody. by right.
Qed.
(** A loop run with an invariant indexed by the elements already done:
    each iteration that starts in [P done] ends in [P (done ++ [x])]. *)
Lemma for_each_ok_prefix {X} (P : list X -> S -> Prop) (xs : list X)
      (body : X -> io S E unit) :
  (forall done x rest s, xs = done ++ x :: rest -> P done s ->
     exists s', body x s = Ok tt s' /\ P (done ++ [x]) s') ->
  forall s, P [] s -> exists s', for_each xs body s = Ok tt s' /\ P xs s'.
Proof.
  intros Hbody s Hs.
  enough (forall rest done s, xs = done ++ rest -> P done s ->
            exists s', for_each rest body s = Ok tt s' /\ P xs s') by (by apply (H xs [] s)).
  clear s Hs. induction rest as [|x rest IH]; intros done s -> Hs.
  - exists s. rewrite app_nil_r. by split.
  - destruct (Hbody done x rest s eq_refl Hs) as (s1 & Hb & Hs1).
    simpl. rewrite (io_bind_ok _ _ _ _ _ Hb).
    apply (IH (done ++ [x])); [by rewrite <- app_assoc|done].
Qed.
End Laws.

#[export] Hint Rewrite @io_bind_ret_l @io_bind_assoc @for_each_app : pyio_rw.

(** [io_step] reduces one bind whose first computation is known. *)
Ltac io_step H :=
  first [ rewrite (io_bind_ok _ _ _ _ _ H) | rewrite (io_bind_err _ _ _ _ _ H) ].

(** ** Relations every step respects

    [within R m]: whatever [m] does, success or exception, the state it
    ends in is related by [R] to the state it started from.  With [R] a
    preorder, this is closed under the monad's operations and the loop. *)

Definition within {S E A} (R : S -> S -> Prop) (m : io S E A) : Prop :=
  forall s, R s (final_state (m s)).

Section Within.
Context {S E : Type} (R : S -> S -> Prop) `{!PreOrder R}.

Lemma within_ret {A} (a : A) : within (E := E) R (io_ret a).
Proof. intros s. simpl. reflexivity. Qed.

Lemma within_raise {A} (e : E) : within (A := A) R (io_raise e).
Proof. intros s. simpl. reflexivity. Qed.

Lemma within_bind {A B} (m : io S E A) (k : A -> io S E B) :
  within R m -> (forall a, within R (k a)) -> within R (io_bind m k).
Proof.
  intros Hm Hk s. unfold io_bind. specialize (Hm s).
  destruct (m s) as [a s'|e s']; simpl in *; [|done].
  etrans; [exact Hm|apply Hk].
Qed.

Lemma within_for_each {X} (xs : list X) (body : X -> io S E unit) :
  (forall x, within R (body x)) -> within R (for_each xs body).
Proof.
  intros Hb. induction xs as [|x xs IH]; simpl.
  - apply within_ret.
  - apply within_bind; [apply Hb|intros _; apply IH].
Qed.

(** The loop respects [R] when the body does on the elements it runs on. *)
Lemma within_for_each_in {X} (xs : list X) (body : X -> io S E unit) :
  (forall x, x ∈ xs -> within R (body x)) -> within R (for_each xs body).
Proof.
  intros Hb. induction xs as [|x xs IH]; simpl.
  - apply within_ret.
  - apply within_bind; [apply Hb, elem_of_cons; by left|intros _; apply IH; intros y Hy; apply Hb, elem_of_cons; by right].
Qed.
End Within.

(** ** Which exceptions a computation may raise

    [raises_only P m]: whatever [m] starts from, an exception it raises
    satisfies [P]. *)
Definition raises_only {S E A} (P : E -> Prop) (m : io S E A) : Prop :=
  forall s, match m s with Err e _ => P e | Ok _ _ => True end.

Section RaisesOnly.
Context {S E : Type} (P : E -> Prop).

Lemma raises_only_ret {A} (a : A) : raises_only (S := S) P (io_ret a).
Proof. by intros s. Qed.

Lemma raises_only_modify (f : S -> S) : raises_only (E := E) P (io_modify f).
Proof. by intros s. Qed.

Lemma raises_only_get : raises_only (S := S) (E := E) P io_get.
Proof. by intros s. Qed.

Lemma raises_only_raise {A} (e : E) : P e -> raises_only (S := S) (A := A) P (io_raise e).
Proof. by intros He s. Qed.

Lemma raises_only_bind {A B} (m : io S E A) (k : A -> io S E B) :
  raises_only P m -> (forall a, raises_only P (k a)) -> raises_only P (io_bind m k).
Proof.
  intros Hm Hk s. unfold io_bind. specialize (Hm s).
  destruct (m s) as [a s'|e s']; [apply Hk|done].
Qed.

Lemma raises_only_for_each {X} (xs : list X) (body : X -> io S E unit) :
  (forall x, raises_only P (body x)) -> raises_only P (for_each xs body).
Proof.
  intros Hb. induction xs as [|x xs IH]; simpl;
    [apply raises_only_ret|apply raises_only_bind; [apply Hb|intros _; apply IH]].
Qed.

End RaisesOnly.

Create HintDb raises.
#[export] Hint Resolve raises_only_ret raises_only_modify raises_only_get raises_only_bind
  raises_only_for_each : raises.

#[export] Hint Resolve within_ret within_raise within_bind within_for_each : pyio.

(** [preserves P s s']: [P] of the state before gives [P] after, so
    [within (preserves P) m] says that [m] keeps the invariant [P] on every
    path, exceptions included. *)
Definition preserves {S} (P : S -> Prop) (s s' : S) : Prop := P s -> P s'.

#[export] Instance preserves_preorder {S} (P : S -> Prop) : PreOrder (preserves P).
Proof. split; [intros s Hs; exact Hs|]. intros s1 s2 s3 H12 H23 H. by apply H23, H12. Qed.

(** ** Generic list lemmas shared by the components *)

Lemma NoDup_map_inj_in {A B} (f : A -> B) (l : list A) :
  (forall x y, In x l -> In y l -> f x = f y -> x = y) ->
  NoDup l -> NoDup (map f l).
Proof.
  intros Hinj Hl. induction Hl as [|x l Hx Hl IH]; simpl; constructor.
  - rewrite list_elem_of_In, in_map_iff. intros (y & Hxy & Hy).
    assert (y = x) as -> by (apply Hinj; [by right|by left|done]).
    by apply Hx, list_elem_of_In.
  - apply IH. intros a b Ha Hb. apply Hinj; by right.
Qed.
#[export] Hint Resolve NoDup_map_inj_in : pyio.

(** [omap] keeps a list duplicate-free when the function is injective on
    the elements it keeps. *)
Lemma NoDup_omap_inj {A B} (f : A -> option B) (l : list A) :
  (forall x y z, f x = Some z -> f y = Some z -> x = y) ->
  NoDup l -> NoDup (omap f l).
Proof.
  intros Hinj Hl. induction Hl as [|x l Hx Hl IH]; simpl; [constructor|].
  destruct (f x) as [z|] eqn:Hfx; [|done]. constructor; [|done].
  rewrite list_elem_of_omap. intros (y & Hy & Hfy).
  assert (y = x) as -> by (eapply Hinj; eauto). done.
Qed.
#[export] Hint Resolve NoDup_omap_inj : pyio.

