(* ===== verification/PyStr.v ===== *)
(** * The Python [str] operations called by the code

    The worker and the widget call [in], [str.count], [str.split],
    [str.join], [str.replace], [str.strip] and [str.lower] on file names and
    paths.  A Rocq [string] is read as a Python [str] whose characters are
    the code points 0..255.  [split] and [replace] scan left to right for
    non-overlapping occurrences, as CPython does; their recursion consumes at
    least one character per call and runs on a fuel of [length s + 1], which
    [split_fuel_enough] and [replace_fuel_enough] show is always enough. *)

From stdpp Require Import base list strings.
From S2P Require Import Prelude.

Module Str.

(** [s[n:]] *)
Fixpoint drop (n : nat) (s : string) : string :=
  match n, s with
  | 0, _ => s
  | S n', String _ s' => drop n' s'
  | S _, EmptyString => EmptyString
  end.

(** [sub in s]: [sub] occurs at some position of [s] (the empty string
    occurs everywhere). *)
Fixpoint contains (sub s : string) : bool :=
  match s with
  | EmptyString => String.prefix sub s
  | String _ s' => String.prefix sub s || contains sub s'
  end.

(** [s.count(c)] for a one-character argument. *)
Fixpoint count_char (c : Ascii.ascii) (s : string) : nat :=
  match s with
  | EmptyString => 0
  | String x s' => (if Ascii.eqb x c then 1 else 0) + count_char c s'
  end.

(** [sep.join(l)] *)
Fixpoint join (sep : string) (l : list string) : string :=
  match l with
  | [] => EmptyString
  | [x] => x
  | x :: l' => x +:+ sep +:+ join sep l'
  end.

(** Put a character in front of the first piece of a split. *)
Definition push_char (c : Ascii.ascii) (l : list string) : list string :=
  match l with
  | [] => [String c EmptyString]
  | hd :: tl => String c hd :: tl
  end.

(** [s.split(sep)] for a non-empty [sep] (Python raises [ValueError] on an
    empty separator, which the code never passes). *)
Fixpoint split_fuel (fuel : nat) (sep s : string) : list string :=
  match fuel with
  | 0 => [s]
  | S f =>
      match s with
      | EmptyString => [EmptyString]
      | String c s' =>
          if String.prefix sep s then EmptyString :: split_fuel f sep (drop (String.length sep) s)
          else push_char c (split_fuel f sep s')
      end
  end.

Definition split (sep s : string) : list string :=
  split_fuel (S (String.length s)) sep s.

(** [s.split(sep, 1)]: cut at the first occurrence only. *)
Fixpoint split1 (sep s : string) : list string :=
  match s with
  | EmptyString => if String.prefix sep s then [EmptyString; EmptyString] else [s]
  | String c s' =>
      if String.prefix sep s then [EmptyString; drop (String.length sep) s]
      else push_char c (split1 sep s')
  end.

(** [s.replace(old, new)] with a non-empty [old]. *)
Fixpoint replace_fuel (fuel : nat) (old new s : string) : string :=
  match fuel with
  | 0 => s
  | S f =>
      match s with
      | EmptyString => EmptyString
      | String c s' =>
          if String.prefix old s then new +:+ replace_fuel f old new (drop (String.length old) s)
          else String c (replace_fuel f old new s')
      end
  end.

(** [s.replace("", new)] puts [new] before every character and at the end. *)
Fixpoint interleave (new s : string) : string :=
  match s with
  | EmptyString => new
  | String c s' => new +:+ String c (interleave new s')
  end.

Definition replace (old new s : string) : string :=
  match old with
  | EmptyString => interleave new s
  | _ => replace_fuel (S (String.length s)) old new s
  end.

(** [str.isspace] on the code points 0..255. *)
Definition is_space (c : Ascii.ascii) : bool :=
  let n := Ascii.nat_of_ascii c in
  ((9 <=? n) && (n <=? 13)) || ((28 <=? n) && (n <=? 32)) || (n =? 133) || (n =? 160).

Fixpoint lstrip (s : string) : string :=
  match s with
  | String c s' => if is_space c then lstrip s' else s
  | EmptyString => EmptyString
  end.

Definition rev_str (s : string) : string :=
  String.string_of_list_ascii (rev (String.list_ascii_of_string s)).

(** [s.strip()] *)
Definition strip (s : string) : string := rev_str (lstrip (rev_str (lstrip s))).

(** [str.lower] on the code points 0..255: the ASCII capitals and the
    Latin-1 capitals U+00C0..U+00DE but the multiplication sign U+00D7
    move up by 32; every other code point of the range is its own lower
    case. *)
Definition lower_char (c : Ascii.ascii) : Ascii.ascii :=
  let n := Ascii.nat_of_ascii c in
  if ((65 <=? n) && (n <=? 90)) || ((192 <=? n) && (n <=? 222) && negb (n =? 215))
  then Ascii.ascii_of_nat (n + 32) else c.

Fixpoint lower (s : string) : string :=
  match s with
  | EmptyString => EmptyString
  | String c s' => String (lower_char c) (lower s')
  end.

(** ** Basic facts on prefixes and [drop] *)

(** The reference for replacing one character by another: map every
    character. *)
Fixpoint map_char (f : Ascii.ascii -> Ascii.ascii) (s : string) : string :=
  match s with
  | EmptyString => EmptyString
  | String c s' => String (f c) (map_char f s')
  end.

Lemma append_cons c (p r : string) : String c p +:+ r = String c (p +:+ r).
Proof. reflexivity. Qed.

Lemma append_nil_l (r : string) : EmptyString +:+ r = r.
Proof. reflexivity. Qed.

Lemma length_app (p r : string) :
  String.length (p +:+ r) = String.length p + String.length r.
Proof. induction p; simpl; auto. Qed.

Lemma prefix_spec (p s : string) :
  String.prefix p s = true <-> exists r, s = p +:+ r.
Proof.
  revert s; induction p as [|a p IH]; intros [|b s]; simpl.
  - split; [intros _; by exists EmptyString | done].
  - split; [intros _; by exists (String b s) | done].
  - split; [done | intros [r Hr]; discriminate].
  - destruct (Ascii.ascii_dec a b) as [->|Hab].
    + rewrite IH. split; intros [r Hr]; exists r; rewrite append_cons in *; congruence.
    + split; [done | intros [r Hr]; rewrite append_cons in Hr; congruence].
Qed.

Lemma prefix_single c x s :
  String.prefix (String c EmptyString) (String x s) = Ascii.eqb c x.
Proof.
  cbn. destruct (Ascii.ascii_dec c x) as [->|H].
  - rewrite Ascii.eqb_refl. by destruct s.
  - symmetry. by apply Ascii.eqb_neq.
Qed.

Lemma prefix_app (p r : string) : String.prefix p (p +:+ r) = true.
Proof. apply prefix_spec. eauto. Qed.

Lemma drop_app (p r : string) : drop (String.length p) (p +:+ r) = r.
Proof. induction p; simpl; auto. Qed.

Lemma prefix_drop (p s : string) :
  String.prefix p s = true -> s = p +:+ drop (String.length p) s.
Proof. intros [r ->]%prefix_spec. by rewrite drop_app. Qed.

Lemma prefix_nonempty_length (p s : string) :
  p <> EmptyString -> String.prefix p s = true ->
  String.length (drop (String.length p) s) < String.length s.
Proof.
  intros Hp [r ->]%prefix_spec. rewrite drop_app, length_app.
  destruct p; [done | simpl; lia].
Qed.

#[export] Hint Rewrite append_cons append_nil_l length_app drop_app prefix_app : pyio_rw.

(** ** [split] and [join] *)

Lemma split_fuel_ne_nil f sep s : split_fuel f sep s <> [].
Proof.
  revert s; induction f as [|f IH]; intros [|c s]; cbn [split_fuel]; try done.
  destruct (String.prefix sep (String c s)); [done|].
  specialize (IH s). by destruct (split_fuel f sep s).
Qed.

Lemma join_push_char sep c l :
  l <> [] -> join sep (push_char c l) = String c (join sep l).
Proof. destruct l as [|hd [|x tl]]; simpl; done. Qed.

Lemma join_cons_ne sep x l :
  l <> [] -> join sep (x :: l) = x +:+ sep +:+ join sep l.
Proof. destruct l; done. Qed.

(** The pieces of a split, joined back with the separator, give the
    string: for every fuel, so for [split]. *)
Lemma join_split_fuel f sep s : join sep (split_fuel f sep s) = s.
Proof.
  revert s; induction f as [|f IH]; intros [|c s]; cbn [split_fuel]; try done.
  destruct (String.prefix sep (String c s)) eqn:Hp.
  - rewrite join_cons_ne by apply split_fuel_ne_nil.
    rewrite append_nil_l, IH. symmetry. by apply prefix_drop.
  - rewrite join_push_char by apply split_fuel_ne_nil. by rewrite IH.
Qed.

(** [replace] is [join] of the pieces with the replacement, for every
    fuel. *)
Lemma replace_fuel_join f old new s :
  replace_fuel f old new s = join new (split_fuel f old s).
Proof.
  revert s; induction f as [|f IH]; intros [|c s]; cbn [split_fuel replace_fuel]; try done.
  destruct (String.prefix old (String c s)).
  - rewrite join_cons_ne by apply split_fuel_ne_nil. by rewrite append_nil_l, IH.
  - rewrite join_push_char by apply split_fuel_ne_nil. by rewrite IH.
Qed.

(** Fuel beyond the length of the string does not change a split. *)
Lemma split_fuel_enough sep :
  sep <> EmptyString -> forall f1 f2 s,
  String.length s < f1 -> String.length s < f2 ->
  split_fuel f1 sep s = split_fuel f2 sep s.
Proof.
  intros Hsep. induction f1 as [|f1 IH]; intros [|f2] s H1 H2; try lia.
  destruct s as [|c s]; cbn [split_fuel]; [done|].
  destruct (String.prefix sep (String c s)) eqn:Hp.
  - f_equal. apply prefix_nonempty_length in Hp; [|done]. apply IH; simpl in *; lia.
  - f_equal. apply IH; simpl in *; lia.
Qed.

Lemma split_cons sep c s :
  sep <> EmptyString ->
  split sep (String c s) =
    if String.prefix sep (String c s)
    then EmptyString :: split sep (drop (String.length sep) (String c s))
    else push_char c (split sep s).
Proof.
  intros Hsep. unfold split at 1. cbn [split_fuel].
  destruct (String.prefix sep (String c s)) eqn:Hp; [|done].
  f_equal. apply split_fuel_enough; [done| |unfold split; lia].
  apply prefix_nonempty_length in Hp; [|done]. simpl in *; lia.
Qed.

Lemma append_assoc (x y z : string) : x +:+ (y +:+ z) = (x +:+ y) +:+ z.
Proof. induction x as [|c x IH]; [done|]. rewrite !append_cons. by f_equal. Qed.

Lemma prefix_extend (p x y : string) :
  String.prefix p x = true -> String.prefix p (x +:+ y) = true.
Proof.
  intros [r ->]%prefix_spec. apply prefix_spec. exists (r +:+ y).
  by rewrite append_assoc.
Qed.

(** The first piece of a split is a prefix of the string. *)
Lemma split_fuel_head f sep s hd tl :
  split_fuel f sep s = hd :: tl -> exists rest, s = hd +:+ rest.
Proof.
  intros H. pose proof (join_split_fuel f sep s) as Hj. rewrite H in Hj.
  destruct tl as [|x tl].
  - cbn [join] in Hj. subst s. exists EmptyString. clear.
    induction hd as [|c hd IH]; [done|]. rewrite append_cons. by f_equal.
  - rewrite join_cons_ne in Hj by done. eauto.
Qed.

Lemma contains_cons sub c s :
  contains sub (String c s) = String.prefix sub (String c s) || contains sub s.
Proof. reflexivity. Qed.

(** No piece of a split contains the separator. *)
Lemma split_fuel_free sep :
  sep <> EmptyString -> forall f s, String.length s < f ->
  Forall (fun p => contains sep p = false) (split_fuel f sep s).
Proof.
  intros Hsep. induction f as [|f IH]; intros [|c s] Hlen; [lia|lia| |].
  { cbn. constructor; [|done]. by destruct sep. }
  cbn [split_fuel]. destruct (String.prefix sep (String c s)) eqn:Hp.
  - constructor; [by destruct sep|]. apply IH.
    apply prefix_nonempty_length in Hp; [|done]. simpl in *; lia.
  - assert (Hs : String.length s < f) by (simpl in *; lia).
    specialize (IH s Hs). destruct (split_fuel f sep s) as [|hd tl] eqn:Hsp.
    { by apply split_fuel_ne_nil in Hsp. }
    apply Forall_cons in IH as [Hhd Htl]. cbn [push_char].
    constructor; [|done]. rewrite contains_cons, Hhd, orb_false_r.
    destruct (split_fuel_head _ _ _ _ _ Hsp) as [rest ->].
    destruct (String.prefix sep (String c hd)) eqn:Hq; [|done].
    rewrite <- Hp, <- append_cons. symmetry. by apply prefix_extend.
Qed.

(** A string that does not contain the separator is one piece. *)
Lemma split_fuel_absent f sep s :
  contains sep s = false -> split_fuel f sep s = [s].
Proof.
  revert s; induction f as [|f IH]; intros [|c s] Hc; cbn [split_fuel]; try done.
  rewrite contains_cons in Hc. apply orb_false_iff in Hc as [-> Hc].
  by rewrite IH.
Qed.

(** ** Properties of [replace] and [split] *)

(** [s.replace(old, new)] equals [new.join(s.split(old))] for a non-empty
    [old]: the scanning replacement is the split-and-join reference. *)
Theorem replace_split_join (old new s : string) :
  old <> EmptyString -> replace old new s = join new (split old s).
Proof. intros Hold. destruct old; [done|]. apply replace_fuel_join. Qed.

(** [sep.join(s.split(sep)) == s]. *)
Theorem join_split (sep s : string) : join sep (split sep s) = s.
Proof. apply join_split_fuel. Qed.

(** [replace] replaces all occurrences: the string cuts into pieces that
    do not contain [old], glued by [old]; the result glues the same pieces
    by [new]. *)
Theorem replace_all_occurrences (old new s : string) :
  old <> EmptyString ->
  exists pieces, s = join old pieces /\
                 Forall (fun p => contains old p = false) pieces /\
                 replace old new s = join new pieces.
Proof.
  intros Hold. exists (split old s). split; [by unfold split; rewrite join_split_fuel|]. split.
  - apply split_fuel_free; [done|lia].
  - by apply replace_split_join.
Qed.

(** A string in which [old] does not occur is left as it is. *)
Theorem replace_absent (old new s : string) :
  contains old s = false -> replace old new s = s.
Proof.
  intros Hc. destruct old as [|c old]; [by destruct s|].
  rewrite replace_split_join by done. unfold split. by rewrite split_fuel_absent.
Qed.

(** ** Fuel *)

(** [split] stops: any fuel beyond the length of the string gives the
    split [split] computes, so the fuel chosen, [len(s) + 1], is enough. *)
Theorem split_fuel_sufficient (sep s : string) (f : nat) :
  sep <> EmptyString -> String.length s < f -> split_fuel f sep s = split sep s.
Proof. intros Hsep Hf. unfold split. apply split_fuel_enough; [done|lia|lia]. Qed.

(** [replace] stops likewise: any fuel beyond the length of the string
    gives the result of [replace]. *)
Theorem replace_fuel_sufficient (old new s : string) (f : nat) :
  old <> EmptyString -> String.length s < f -> replace_fuel f old new s = replace old new s.
Proof.
  intros Hold Hf. rewrite replace_fuel_join, replace_split_join by done.
  f_equal. unfold split. apply split_fuel_enough; [done|lia|lia].
Qed.

(** [len(s.split(c)) == s.count(c) + 1] for a one-character separator. *)
Lemma length_split_fuel_char (c : Ascii.ascii) f (s : string) :
  String.length s < f ->
  length (split_fuel f (String c EmptyString) s) = S (count_char c s).
Proof.
  revert s. induction f as [|f IH]; intros [|x s] Hf; cbn [split_fuel]; try (simpl in *; lia).
  cbn [count_char]. destruct (Ascii.eqb_spec x c) as [->|Hxc].
  - assert (Hp : String.prefix (String c EmptyString) (String c s) = true)
      by (apply prefix_spec; by exists s).
    rewrite Hp. cbn [drop String.length length]. rewrite IH; simpl in *; lia.
  - assert (Hp : String.prefix (String c EmptyString) (String x s) = false).
    { destruct (String.prefix _ _) eqn:Hq; [|done].
      apply prefix_spec in Hq as [r Hr]. rewrite append_cons in Hr. congruence. }
    rewrite Hp. specialize (IH s ltac:(simpl in *; lia)).
    destruct (split_fuel f _ s) eqn:E; [by apply split_fuel_ne_nil in E|].
    simpl in *. lia.
Qed.

Lemma length_split_char (c : Ascii.ascii) (s : string) :
  length (split (String c EmptyString) s) = S (count_char c s).
Proof. apply length_split_fuel_char. lia. Qed.

(** ** One-character searches *)

Section OneChar.
Variable c : Ascii.ascii.
Let c1 := String c EmptyString.

Lemma contains_char_cons x s : contains c1 (String x s) = Ascii.eqb c x || contains c1 s.
Proof. unfold c1. cbn [contains]. by rewrite prefix_single. Qed.

Lemma contains_char_app x y : contains c1 (x +:+ y) = contains c1 x || contains c1 y.
Proof.
  induction x as [|a x IH]; [done|].
  rewrite append_cons, !contains_char_cons, IH. apply orb_assoc.
Qed.

Lemma contains_char_join sep l :
  contains c1 sep = false ->
  contains c1 (join sep l) = false <-> Forall (fun x => contains c1 x = false) l.
Proof.
  intros Hsep. induction l as [|x [|y l] IH].
  - split; [constructor|done].
  - cbn [join]. rewrite Forall_singleton. done.
  - change (join sep (x :: y :: l)) with (x +:+ sep +:+ join sep (y :: l)).
    rewrite !contains_char_app, Hsep, Forall_cons, <- IH. simpl.
    destruct (contains c1 x); simpl; naive_solver.
Qed.
Lemma contains_char_existsb s :
  contains c1 s = existsb (Ascii.eqb c) (String.list_ascii_of_string s).
Proof. induction s as [|x s IH]; [done|]. by rewrite contains_char_cons, IH. Qed.

Lemma contains_char_rev s : contains c1 (rev_str s) = contains c1 s.
Proof.
  unfold rev_str. rewrite !contains_char_existsb, String.list_ascii_of_string_of_list_ascii.
  induction (String.list_ascii_of_string s) as [|x l IH]; [done|].
  cbn [rev]. rewrite existsb_app, IH. cbn. rewrite orb_false_r. apply orb_comm.
Qed.

Lemma contains_char_lstrip s : contains c1 s = false -> contains c1 (lstrip s) = false.
Proof.
  induction s as [|x s IH]; [done|]. rewrite contains_char_cons.
  intros [Hx Hs]%orb_false_iff. cbn [lstrip]. destruct (is_space x); [by apply IH|].
  by rewrite contains_char_cons, Hx, Hs.
Qed.

Lemma contains_char_strip s : contains c1 s = false -> contains c1 (strip s) = false.
Proof.
  intros Hs. unfold strip. rewrite contains_char_rev.
  apply contains_char_lstrip. rewrite contains_char_rev. by apply contains_char_lstrip.
Qed.

Lemma contains_char_map f s :
  (forall x, Ascii.eqb c (f x) = Ascii.eqb c x) -> contains c1 (map_char f s) = contains c1 s.
Proof.
  intros Hf. induction s as [|x s IH]; [done|]. cbn [map_char].
  by rewrite !contains_char_cons, Hf, IH.
Qed.

End OneChar.

Lemma split1_ne_nil sep s : split1 sep s <> [].
Proof.
  induction s as [|a s IH]; cbn [split1]; [by destruct (String.prefix sep "")|].
  destruct (String.prefix sep (String a s)); [done|]. by destruct (split1 sep s).
Qed.

(** Cutting at the first separator and joining back gives the string. *)
Lemma join_split1 sep s : join sep (split1 sep s) = s.
Proof.
  induction s as [|a s IH]; cbn [split1].
  - destruct (String.prefix sep "") eqn:E; [|done].
    apply prefix_spec in E as [r Hr]. destruct sep; [done|discriminate].
  - destruct (String.prefix sep (String a s)) eqn:E.
    + cbn [join]. rewrite append_nil_l. by rewrite <- prefix_drop.
    + rewrite join_push_char by apply split1_ne_nil. by rewrite IH.
Qed.

Lemma contains_app_r sub x y : contains sub y = true -> contains sub (x +:+ y) = true.
Proof.
  intros Hy. induction x as [|a x IH]; [done|].
  rewrite append_cons. cbn [contains]. by rewrite IH, orb_true_r.
Qed.

Lemma contains_prefix sub z : contains sub (sub +:+ z) = true.
Proof. destruct (sub +:+ z) eqn:E; cbn [contains]; rewrite <- E, prefix_app; [done|apply orb_true_l]. Qed.

(** ** One character by another *)

Lemma replace_fuel_char_map a b f s :
  String.length s < f ->
  replace_fuel f (String a EmptyString) (String b EmptyString) s =
    map_char (fun c => if Ascii.eqb a c then b else c) s.
Proof.
  revert s. induction f as [|f IH]; intros [|c s] Hf; simpl in Hf; try lia; [done|].
  cbn [replace_fuel map_char]. rewrite prefix_single.
  destruct (Ascii.eqb a c).
  - cbn [String.length drop]. rewrite append_cons, append_nil_l, IH by lia. done.
  - rewrite IH by lia. done.
Qed.

(** Replacing one character by another is the character-wise map: the
    scanning [replace] agrees with it on every string. *)
Theorem replace_char_map (a b : Ascii.ascii) (s : string) :
  replace (String a EmptyString) (String b EmptyString) s =
    map_char (fun c => if Ascii.eqb a c then b else c) s.
Proof. apply replace_fuel_char_map. lia. Qed.

(** ** Instances *)

Lemma replace_all_occurrences_witness :
  exists pieces, "scan_scan.nii" = join "scan" pieces /\
    Forall (fun p => contains "scan" p = false) pieces /\
    replace "scan" "study" "scan_scan.nii" = join "study" pieces.
Proof. apply replace_all_occurrences. discriminate. Defined.

Lemma replace_absent_witness : replace "scan" "study" "mesh.vtk" = "mesh.vtk".
Proof. apply replace_absent. reflexivity. Defined.

Lemma split_fuel_sufficient_witness :
  split_fuel 20 "." "a.nii.gz" = split "." "a.nii.gz".
Proof. apply split_fuel_sufficient; [discriminate|simpl; lia]. Defined.

Lemma replace_fuel_sufficient_witness :
  replace_fuel 20 "scan" "study" "scan.nii" = replace "scan" "study" "scan.nii".
Proof. apply replace_fuel_sufficient; [discriminate|simpl; lia]. Defined.

End Str.
