(* ===== verification/PosixPath.v ===== *)
(** * [os.path] and the worker's [get_file_extension]

    The worker runs under Linux (inside WSL, or as the Slicer CLI on Linux
    and macOS), so [os.path] is [posixpath].  This file models
    [posixpath.basename], [genericpath._splitext] (through
    [posixpath.splitext]), [posixpath.join], and [get_file_extension]
    (replaceAll_WSL.py, lines 9-13), and shows that the extension of a name
    [stem ++ ext] with a non-empty dot-free [stem] is [ext]. *)

From stdpp Require Import base list strings.
From Stdlib Require Import Ascii.
From S2P Require Import Prelude PyStr.

Module Path.
Import Str.

Definition slash : ascii := "/"%char.
Definition dot : ascii := "."%char.

(** [s.rfind(c)]: [None] stands for Python's [-1]. *)
Fixpoint rfind_char (c : ascii) (s : string) : option nat :=
  match s with
  | EmptyString => None
  | String x s' =>
      match rfind_char c s' with
      | Some i => Some (S i)
      | None => if Ascii.eqb x c then Some 0 else None
      end
  end.

(** [posixpath.basename(p)]: [p[p.rfind('/') + 1:]]. *)
Definition basename (p : string) : string :=
  match rfind_char slash p with
  | Some i => drop (S i) p
  | None => p
  end.

(** The [while filenameIndex < dotIndex] loop of [_splitext]: [true] when
    a character other than a dot is met (the early [return]). *)
Fixpoint skip_dots (p : string) (i n : nat) : bool :=
  match n with
  | 0 => false
  | S n' =>
      match String.get i p with
      | Some x => if Ascii.eqb x dot then skip_dots p (S i) n' else true
      | None => true
      end
  end.

(** [genericpath._splitext(p, '/', None, '.')]. *)
Definition splitext (p : string) : string * string :=
  match rfind_char dot p with
  | Some dotIndex =>
      let filenameIndex := match rfind_char slash p with
                           | Some sepIndex => S sepIndex
                           | None => 0
                           end in
      if (filenameIndex <=? dotIndex) && skip_dots p filenameIndex (dotIndex - filenameIndex)
      then (String.substring 0 dotIndex p, drop dotIndex p)
      else (p, EmptyString)
  | None => (p, EmptyString)
  end.

(** [posixpath.join(a, b)] for two components. *)
Definition join2 (a b : string) : string :=
  match b with
  | String x _ => if Ascii.eqb x slash then b
                  else match a with
                       | EmptyString => b
                       | _ => if String.eqb (drop (pred (String.length a)) a) "/"
                              then a +:+ b else a +:+ "/" +:+ b
                       end
  | EmptyString => match a with
                   | EmptyString => b
                   | _ => if String.eqb (drop (pred (String.length a)) a) "/"
                          then a else a +:+ "/"
                   end
  end.

Fixpoint lstrip_slash (s : string) : string :=
  match s with
  | String x s' => if Ascii.eqb x slash then lstrip_slash s' else s
  | EmptyString => EmptyString
  end.

(** [posixpath.dirname(p)]: [head = p[:p.rfind('/') + 1]], its trailing
    slashes stripped unless it is made of slashes only. *)
Definition dirname (p : string) : string :=
  let head := match rfind_char slash p with
              | Some i => String.substring 0 (S i) p
              | None => EmptyString
              end in
  if negb (String.eqb head "") && negb (String.eqb (lstrip_slash head) "")
  then rev_str (lstrip_slash (rev_str head)) else head.

(** [get_file_extension(source_path)] (replaceAll_WSL.py, lines 9-13). *)
Definition get_file_extension (source_path : string) : string :=
  let name := basename source_path in
  if 1 <? count_char dot name
  then "." +:+ join "." (tail (split (String dot EmptyString) name))
  else snd (splitext source_path).

(** ** Absolute paths as lists of components

    The folders the worker is given are absolute paths; they are kept as
    their list of components, and [path_str] renders them. *)
Abbreviation path := (list string).

Fixpoint comps_str (p : path) : string :=
  match p with
  | [] => EmptyString
  | c :: p' => "/" +:+ c +:+ comps_str p'
  end.

Definition path_str (p : path) : string :=
  match p with
  | [] => "/"
  | _ => comps_str p
  end.

(** How the kernel resolves the string [os.path.join(folder, name)]:
    [name] is cut at its slashes, empty and [.] components are dropped and
    [..] goes up one level; a [name] starting with a slash is absolute
    (as [posixpath.join] returns it alone). *)
Fixpoint resolve (acc : path) (cs : list string) : path :=
  match cs with
  | [] => acc
  | c :: cs' =>
      if String.eqb c "" || String.eqb c "." then resolve acc cs'
      else if String.eqb c ".." then resolve (removelast acc) cs'
      else resolve (acc ++ [c]) cs'
  end.

Definition join_path (d : path) (name : string) : path :=
  match name with
  | String x _ => if Ascii.eqb x slash then resolve [] (split "/" name)
                  else resolve d (split "/" name)
  | EmptyString => d
  end.

(** A name that [join_path] appends as one component: non-empty, without
    a slash, and neither [.] nor [..]. *)
Definition is_component (x : string) : bool :=
  negb (String.eqb x "") && (count_char slash x =? 0) &&
  negb (String.eqb x ".") && negb (String.eqb x "..").

(** ** Lemmas on appended strings *)

Lemma append_nil_r (x : string) : x +:+ EmptyString = x.
Proof. induction x as [|c x IH]; [done|]. by rewrite append_cons, IH. Qed.

Lemma count_char_app c x y :
  count_char c (x +:+ y) = count_char c x + count_char c y.
Proof. induction x as [|a x IH]; [done|]. rewrite append_cons. simpl. lia. Qed.

Lemma rfind_char_app c x y :
  rfind_char c (x +:+ y) =
    match rfind_char c y with
    | Some i => Some (String.length x + i)
    | None => rfind_char c x
    end.
Proof.
  induction x as [|a x IH]; [rewrite append_nil_l; by destruct (rfind_char c y)|].
  rewrite append_cons. cbn [rfind_char]. rewrite IH.
  by destruct (rfind_char c y).
Qed.

Lemma rfind_char_none c s : count_char c s = 0 -> rfind_char c s = None.
Proof.
  induction s as [|a s IH]; [done|]. cbn [count_char rfind_char].
  destruct (Ascii.eqb a c); [lia|]. intros H. by rewrite IH.
Qed.

Lemma rfind_char_lt c s d : rfind_char c s = Some d -> d < String.length s.
Proof.
  revert d; induction s as [|a s IH]; intros d; [done|]. cbn [rfind_char].
  destruct (rfind_char c s) as [i|] eqn:E.
  - intros [= <-]. specialize (IH i eq_refl). simpl. lia.
  - destruct (Ascii.eqb a c); intros [= <-]. simpl. lia.
Qed.

Lemma get_app_r i x y : String.get (String.length x + i) (x +:+ y) = String.get i y.
Proof. induction x; [done|]. by rewrite append_cons. Qed.

Lemma drop_app_r i x y : drop (String.length x + i) (x +:+ y) = drop i y.
Proof. induction x; [done|]. by rewrite append_cons. Qed.

Lemma drop_S_app x c y : drop (S (String.length x)) (x +:+ String c y) = y.
Proof. induction x; [done|]. by rewrite append_cons. Qed.

Lemma skip_dots_app x y i n :
  skip_dots (x +:+ y) (String.length x + i) n = skip_dots y i n.
Proof.
  revert i; induction n as [|n IH]; intros i; [done|]. cbn [skip_dots].
  rewrite get_app_r. destruct (String.get i y); [|done].
  replace (S (String.length x + i)) with (String.length x + S i) by lia.
  by rewrite IH.
Qed.

#[export] Hint Rewrite append_nil_r count_char_app rfind_char_app get_app_r drop_app_r
  skip_dots_app : pyio_rw.

Lemma slash_not_dot : Ascii.eqb slash dot = false.
Proof. reflexivity. Qed.

Lemma dot_not_slash : Ascii.eqb dot slash = false.
Proof. reflexivity. Qed.

(** ** The name decides the extension *)

Lemma basename_app_slash x y :
  count_char slash y = 0 -> basename (x +:+ String slash y) = y.
Proof.
  intros Hy.
  assert (E : rfind_char slash (x +:+ String slash y) = Some (String.length x + 0)).
  { rewrite rfind_char_app. cbn [rfind_char]. by rewrite (rfind_char_none _ _ Hy). }
  unfold basename. rewrite E, Nat.add_0_r. by apply drop_S_app.
Qed.

Lemma basename_no_slash y : count_char slash y = 0 -> basename y = y.
Proof. intros Hy. unfold basename. by rewrite (rfind_char_none _ _ Hy). Qed.

Lemma skip_dots_cons c y i n : skip_dots (String c y) (S i) n = skip_dots y i n.
Proof. apply (skip_dots_app (String c EmptyString) y i n). Qed.

Lemma drop_cons c y i : drop (S i) (String c y) = drop i y.
Proof. reflexivity. Qed.

Lemma rfind_char_last c x y :
  count_char c y = 0 -> rfind_char c (x +:+ String c y) = Some (String.length x).
Proof.
  intros Hy. rewrite rfind_char_app. cbn [rfind_char].
  rewrite (rfind_char_none _ _ Hy), Ascii.eqb_refl. f_equal. lia.
Qed.

Lemma rfind_dot_app_slash x y :
  rfind_char dot (x +:+ String slash y) =
    match rfind_char dot y with
    | Some j => Some (String.length x + S j)
    | None => rfind_char dot x
    end.
Proof. rewrite rfind_char_app. cbn [rfind_char]. by destruct (rfind_char dot y). Qed.

Lemma splitext_app_slash x y :
  count_char slash y = 0 ->
  snd (splitext (x +:+ String slash y)) = snd (splitext y).
Proof.
  intros Hy. unfold splitext.
  rewrite rfind_char_last, rfind_dot_app_slash, (rfind_char_none _ _ Hy) by done.
  destruct (rfind_char dot y) as [j|] eqn:Hj.
  - replace (S (String.length x) <=? String.length x + S j) with true
      by (symmetry; apply Nat.leb_le; lia).
    replace (String.length x + S j - S (String.length x)) with (j - 0) by lia.
    rewrite <- Nat.add_1_r, skip_dots_app, skip_dots_cons.
    destruct (skip_dots y 0 (j - 0)); [|done]. cbn [andb snd].
    by rewrite drop_app_r, drop_cons.
  - destruct (rfind_char dot x) as [d|] eqn:Hd; [|done].
    apply rfind_char_lt in Hd.
    replace (S (String.length x) <=? d) with false by (symmetry; apply Nat.leb_gt; lia).
    done.
Qed.

Lemma get_file_extension_app_slash x y :
  count_char slash y = 0 ->
  get_file_extension (x +:+ String slash y) = get_file_extension y.
Proof.
  intros Hy. unfold get_file_extension.
  rewrite basename_app_slash, basename_no_slash by done.
  by rewrite splitext_app_slash.
Qed.

Lemma comps_str_snoc d x : comps_str (d ++ [x]) = comps_str d +:+ String slash x.
Proof.
  induction d as [|c d IH]; cbn [comps_str app].
  - rewrite append_nil_r. reflexivity.
  - by rewrite IH, !append_assoc.
Qed.

Lemma path_str_snoc d x : path_str (d ++ [x]) = comps_str d +:+ String slash x.
Proof. rewrite <- comps_str_snoc. by destruct d. Qed.

(** [get_file_extension] of [os.path.join(folder, name)] depends on
    [name] only. *)
Lemma get_file_extension_join d x :
  count_char slash x = 0 ->
  get_file_extension (path_str (d ++ [x])) = get_file_extension x.
Proof. intros Hx. rewrite path_str_snoc. by apply get_file_extension_app_slash. Qed.

Lemma split_dot_prefix stem r :
  count_char dot stem = 0 ->
  split (String dot EmptyString) (stem +:+ String dot r) = stem :: split (String dot EmptyString) r.
Proof.
  induction stem as [|a stem IH]; intros Hs.
  - rewrite append_nil_l, split_cons, prefix_single, Ascii.eqb_refl by done. done.
  - cbn [count_char] in Hs. destruct (Ascii.eqb a dot) eqn:Ha; [lia|].
    rewrite append_cons, split_cons, prefix_single by done.
    rewrite Ascii.eqb_sym, Ha, IH by lia. done.
Qed.

Lemma splitext_dot_free_stem stem r :
  stem <> EmptyString -> count_char dot stem = 0 ->
  count_char slash stem = 0 -> count_char slash r = 0 -> count_char dot r = 0 ->
  snd (splitext (stem +:+ String dot r)) = String dot r.
Proof.
  intros Hne Hd Hs Hr Hrd. unfold splitext.
  rewrite rfind_char_last, (rfind_char_none slash) by (by rewrite ?count_char_app; simpl; lia).
  destruct stem as [|a stem]; [done|]. cbn [count_char] in Hd.
  destruct (Ascii.eqb a dot) eqn:Ha; [lia|].
  replace (String.length (String a stem) - 0) with (S (String.length stem)) by (simpl; lia).
  rewrite append_cons. cbn [skip_dots String.get]. rewrite Ha. cbn [andb snd Nat.leb].
  rewrite <- append_cons, <- (Nat.add_0_r (String.length (String a stem))), drop_app_r.
  done.
Qed.

(** C10: The extension of a name [stem ++ ext], with a non-empty stem without
    dots, is [ext] whenever [ext] is empty or starts with a dot: the
    two-dot rule ([.nii.gz]) and [os.path.splitext] agree with the spec's
    description of DirectoryEntry.extension on such names. *)
Theorem get_file_extension_stem_ext (d : path) (stem ext : string) :
  stem <> EmptyString -> count_char dot stem = 0 -> count_char slash stem = 0 ->
  count_char slash ext = 0 ->
  (ext = EmptyString \/ exists r, ext = String dot r) ->
  get_file_extension (path_str (d ++ [stem +:+ ext])) = ext.
Proof.
  intros Hne Hd Hs Hx Hext. rewrite get_file_extension_join by (rewrite count_char_app; lia).
  unfold get_file_extension. rewrite basename_no_slash by (rewrite count_char_app; lia).
  destruct Hext as [->|[r ->]].
  - rewrite append_nil_r, Hd. cbn -[splitext]. unfold splitext.
    by rewrite (rfind_char_none _ _ Hd).
  - rewrite count_char_app. cbn [count_char]. rewrite Ascii.eqb_refl, Hd.
    cbn [count_char] in Hx. rewrite dot_not_slash in Hx.
    destruct (count_char dot r) eqn:Hr; cbn [Nat.ltb Nat.leb Nat.add].
    + apply splitext_dot_free_stem; auto.
    + rewrite split_dot_prefix by done. cbn [tail]. by rewrite join_split.
Qed.

Lemma split_slash_absent x :
  count_char slash x = 0 -> split "/" x = [x].
Proof.
  intros Hx. unfold split. apply split_fuel_absent.
  induction x as [|a x IH]; [done|]. cbn [count_char] in Hx.
  destruct (Ascii.eqb a slash) eqn:Ha; [lia|].
  rewrite contains_cons, prefix_single, Ascii.eqb_sym.
  change (Ascii.eqb a "/"%char) with (Ascii.eqb a slash). rewrite Ha. by apply IH.
Qed.

(** A component is appended as it is. *)
Lemma join_path_component d x :
  is_component x = true -> join_path d x = d ++ [x].
Proof.
  unfold is_component. intros Hx.
  apply andb_prop in Hx as [Hx Hdd]. apply andb_prop in Hx as [Hx Hd].
  apply andb_prop in Hx as [He Hs]. apply Nat.eqb_eq in Hs.
  destruct x as [|a x]; [done|]. cbn [join_path].
  cbn [count_char] in Hs. destruct (Ascii.eqb a slash) eqn:Ha; [lia|].
  rewrite split_slash_absent by (cbn [count_char]; rewrite Ha; lia). cbn [resolve].
  apply negb_true_iff in He, Hd, Hdd. by rewrite He, Hd, Hdd.
Qed.

(** A name [../x] goes up one level, then appends [x]. *)
Lemma join_path_dotdot d x :
  is_component x = true -> join_path d ("../" +:+ x) = removelast d ++ [x].
Proof.
  unfold is_component. intros Hx.
  apply andb_prop in Hx as [Hx Hdd]. apply andb_prop in Hx as [Hx Hd].
  apply andb_prop in Hx as [He Hs]. apply Nat.eqb_eq in Hs.
  change ("../" +:+ x) with (String "." (String "." (String "/" x))).
  unfold join_path. change (Ascii.eqb "." slash) with false. cbv iota.
  rewrite (split_cons "/" "."%char), (split_cons "/" "."%char), (split_cons "/" "/"%char) by discriminate.
  rewrite !prefix_single. cbn [Ascii.eqb Bool.eqb drop String.length].
  rewrite split_slash_absent by done. cbn [push_char resolve]. cbn [String.eqb orb].
  apply negb_true_iff in He, Hd, Hdd. by rewrite He, Hd, Hdd.
Qed.

(** The extensions of the specification's examples: a two-part
    [.nii.gz] is kept whole, [.vtk] and no extension are found by
    [splitext]; a stem with a dot of its own makes every suffix the
    extension ([scan.v2.nii] gives [.v2.nii], which no branch of the copy
    pass accepts), and a leading dot is not an extension. *)
Example get_file_extension_examples :
  get_file_extension "/data/a.nii.gz" = ".nii.gz" /\
  get_file_extension "/data/a.vtk" = ".vtk" /\
  get_file_extension "/data/a" = "" /\
  get_file_extension "/data/scan.v2.nii" = ".v2.nii" /\
  get_file_extension "/data/.bashrc" = "".
Proof. split_and!; reflexivity. Qed.

Lemma get_file_extension_stem_ext_witness :
  get_file_extension (path_str (["data"; "in"] ++ ["scan" +:+ ".nii.gz"])) = ".nii.gz".
Proof.
  apply get_file_extension_stem_ext; [discriminate|reflexivity|reflexivity|reflexivity|].
  right. by eexists.
Defined.

End Path.
