(* ===== verification/FileSystem.v ===== *)
(** * The file system the worker acts on

    The state is a map from absolute paths (lists of components) to nodes,
    a file carrying its contents and modification time, a directory
    nothing; a counter numbers every write, [writes] records each write
    with its number, in order, and [tick] gives the time the system clock
    reads at the n-th write, the modification time the write leaves (any
    function: the clock's resolution may give two writes the same time).  The operations are the POSIX calls the
    worker makes ([os.path.exists], [os.mkdir], [os.listdir],
    [open(p, 'w')], [open(p, 'r+').write], [os.rename]), [shutil.copy2],
    and SimpleITK's [ReadImage]/[WriteImage]; each raises the exception the
    Python call raises.  Two interfaces stand for what the worker does not
    control: [Listing] (the order [os.listdir] returns, any duplicate-free
    enumeration of the entries) and [ImageIO] (SimpleITK's codecs, of which
    only the write-then-read law is assumed). *)

From stdpp Require Import base list strings gmap sorting.
From S2P Require Import Prelude PyStr PosixPath.

Module FS.
Import Path.

Inductive node : Type :=
| File (data : string) (mtime : nat)
| Dir.

#[export] Instance node_eq_dec : EqDecision node.
Proof. solve_decision. Defined.

Record fs : Type := mkFS {
  nodes : gmap path node;
  clock : nat;
  writes : list (path * nat);
  tick : nat -> nat
}.

(** The exceptions of the calls (a SimpleITK failure is a [RuntimeError]). *)
Inductive py_error : Type :=
| FileNotFoundError (p : path)
| FileExistsError (p : path)
| IsADirectoryError (p : path)
| NotADirectoryError (p : path)
| DirectoryNotEmpty (p : path)
| InvalidArgument (p : path)
| SameFileError (p : path)
| ImageRuntimeError (p : path).

Abbreviation fsio := (io fs py_error).

(** ** Interfaces *)

(** [os.listdir]: some duplicate-free enumeration of the entries. *)
Class Listing : Type := {
  list_names : gmap path node -> path -> list string;
  list_names_spec : forall m d x, x ∈ list_names m d <-> is_Some (m !! (d ++ [x]));
  list_names_nodup : forall m d, NoDup (list_names m d)
}.

(** SimpleITK: [ReadImage] decodes the file at a path, [WriteImage]
    encodes for the format the path's extension names.  Writing then
    reading gives the image back. *)
Class ImageIO : Type := {
  image : Type;
  decode : string -> string -> option image;
  encode : string -> image -> string;
  decode_encode : forall p img, decode p (encode p img) = Some img
}.

(** ** Lookups *)

Definition parent (p : path) : path := removelast p.

Definition is_dir (w : fs) (p : path) : bool :=
  bool_decide (nodes w !! p = Some Dir).

Definition is_file (w : fs) (p : path) : bool :=
  match nodes w !! p with Some (File _ _) => true | _ => false end.

(** [os.path.exists(p)] *)
Definition exists_ (p : path) : fsio bool :=
  fun w => Ok (bool_decide (is_Some (nodes w !! p))) w.

(** The check [open] and [mkdir] make on the directory that would hold
    [p]. *)
Definition check_parent (p : path) : fsio unit :=
  fun w => match nodes w !! parent p with
           | Some Dir => Ok tt w
           | Some (File _ _) => Err (NotADirectoryError p) w
           | None => Err (FileNotFoundError p) w
           end.

(** ** Operations *)

(** [os.mkdir(p)] *)
Definition mkdir (p : path) : fsio unit :=
  fun w => match nodes w !! p with
           | Some _ => Err (FileExistsError p) w
           | None =>
               match p with
               | [] => Err (FileExistsError p) w
               | _ => io_bind (check_parent p)
                        (fun _ w' => Ok tt {| nodes := <[p := Dir]> (nodes w');
                                              clock := clock w'; writes := writes w'; tick := tick w' |}) w
               end
           end.

Section WithListing.
Context `{Listing}.

(** [os.listdir(p)] *)
Definition listdir (p : path) : fsio (list string) :=
  fun w => match nodes w !! p with
           | Some Dir => Ok (list_names (nodes w) p) w
           | Some (File _ _) => Err (NotADirectoryError p) w
           | None => Err (FileNotFoundError p) w
           end.
End WithListing.

(** Store [data] at [p] as a fresh write: the write counter moves on, the
    write is recorded under its number, and the file gets the time the
    system clock reads at that write ([tick]), which need not differ from
    the previous write's time. *)
Definition stamp (p : path) (data : string) (w : fs) : fs :=
  {| nodes := <[p := File data (tick w (S (clock w)))]> (nodes w);
     clock := S (clock w);
     writes := writes w ++ [(p, S (clock w))];
     tick := tick w |}.

(** [with open(p, 'w') as f: f.write(data)]: create or truncate, then
    write. *)
Definition write_file (p : path) (data : string) : fsio unit :=
  io_bind (check_parent p) (fun _ w =>
    match nodes w !! p with
    | Some Dir => Err (IsADirectoryError p) w
    | _ => Ok tt (stamp p data w)
    end).

(** [with open(p, 'r+') as f: f.write(s)]: the file must exist; [s]
    overwrites its first characters. *)
Definition overwrite_start (p : path) (s : string) : fsio unit :=
  fun w => match nodes w !! p with
           | Some (File old _) => Ok tt (stamp p (s +:+ Str.drop (String.length s) old) w)
           | Some Dir => Err (IsADirectoryError p) w
           | None => Err (FileNotFoundError p) w
           end.

(** Reading a file's contents ([open(p, 'rb').read()]). *)
Definition read_file (p : path) : fsio string :=
  fun w => match nodes w !! p with
           | Some (File data _) => Ok data w
           | Some Dir => Err (IsADirectoryError p) w
           | None => Err (FileNotFoundError p) w
           end.

(** [os.utime] as [shutil.copystat] calls it: give [p] the time [t]. *)
Definition set_mtime (p : path) (t : nat) : fsio unit :=
  fun w => match nodes w !! p with
           | Some (File data _) => Ok tt {| nodes := <[p := File data t]> (nodes w);
                                            clock := clock w; writes := writes w; tick := tick w |}
           | _ => Ok tt w
           end.

(** [shutil.copy2(src, dst)]: into [dst/basename(src)] when [dst] is a
    directory; [SameFileError] when both name one existing file; then
    [copyfile] and [copystat]. *)
Definition copy2 (src dst : path) : fsio unit :=
  fun w =>
    let dst' := if is_dir w dst then dst ++ [default EmptyString (last src)] else dst in
    if bool_decide (src = dst') && bool_decide (is_Some (nodes w !! src))
    then Err (SameFileError src) w
    else io_bind (read_file src) (fun data =>
           io_bind (write_file dst' data) (fun _ w' =>
             match nodes w !! src with
             | Some (File _ t) => set_mtime dst' t w'
             | _ => Ok tt w'
             end)) w.

Section WithImageIO.
Context `{ImageIO}.

(** [sitk.ReadImage(p)] *)
Definition read_image (p : path) : fsio image :=
  fun w => match nodes w !! p with
           | Some (File data _) =>
               match decode (path_str p) data with
               | Some img => Ok img w
               | None => Err (ImageRuntimeError p) w
               end
           | _ => Err (ImageRuntimeError p) w
           end.

(** [sitk.WriteImage(img, p)] *)
Definition write_image (img : image) (p : path) : fsio unit :=
  fun w => match nodes w !! parent p, nodes w !! p with
           | Some Dir, Some Dir | Some (File _ _), _ | None, _ => Err (ImageRuntimeError p) w
           | Some Dir, _ => Ok tt (stamp p (encode (path_str p) img) w)
           end.
End WithImageIO.

(** ** [os.rename] *)

(** The subtree at [src] moved to [dst], whatever was at [dst] removed. *)
Definition reroot (src dst k : path) : option path :=
  if bool_decide (src `prefix_of` k) then Some (dst ++ drop (length src) k) else None.

Definition moved (src dst : path) (m : gmap path node) : list (path * node) :=
  omap (fun kv => (fun k => (k, kv.2)) <$> reroot src dst kv.1) (map_to_list m).

Definition move_tree (src dst : path) (m : gmap path node) : gmap path node :=
  list_to_map (moved src dst m)
  ∪ filter (fun kv => ¬ src `prefix_of` kv.1 /\ ¬ dst `prefix_of` kv.1) m.

(** A directory with no entry. *)
Definition empty_dir (m : gmap path node) (p : path) : bool :=
  bool_decide (forall k, k ∈ dom m -> p `prefix_of` k -> k = p).

(** [os.rename(src, dst)] as POSIX [rename(2)] does it. *)
Definition rename (src dst : path) : fsio unit :=
  fun w =>
    match nodes w !! src with
    | None => Err (FileNotFoundError src) w
    | Some n =>
        if bool_decide (src = dst) then Ok tt w
        else match nodes w !! parent dst with
        | None => Err (FileNotFoundError dst) w
        | Some (File _ _) => Err (NotADirectoryError dst) w
        | Some Dir =>
            match n, nodes w !! dst with
            | File _ _, Some Dir => Err (IsADirectoryError dst) w
            | Dir, Some (File _ _) => Err (NotADirectoryError dst) w
            | Dir, _ =>
                if bool_decide (src `prefix_of` dst) then Err (InvalidArgument dst) w
                else if negb (empty_dir (nodes w) dst) && is_dir w dst
                then Err (DirectoryNotEmpty dst) w
                else Ok tt {| nodes := move_tree src dst (nodes w);
                              clock := clock w; writes := writes w; tick := tick w |}
            | File _ _, _ =>
                Ok tt {| nodes := move_tree src dst (nodes w);
                         clock := clock w; writes := writes w; tick := tick w |}
            end
        end
    end.

(** ** Lemmas on the operations *)

Create HintDb fs discriminated.

Lemma prefix_drop_eq (a k : path) : a `prefix_of` k -> k = a ++ drop (length a) k.
Proof. intros [r ->]. by rewrite drop_app_length. Qed.

Lemma elem_of_moved src dst m k v :
  (k, v) ∈ moved src dst m <->
  dst `prefix_of` k /\ m !! (src ++ drop (length dst) k) = Some v.
Proof.
  unfold moved. rewrite list_elem_of_omap. split.
  - intros ([k0 v0] & Hin & Hr). apply elem_of_map_to_list in Hin.
    unfold reroot in Hr. simpl in Hr. case_bool_decide as Hp; [|done].
    simplify_eq/=. split; [by apply prefix_app_r|].
    rewrite drop_app_length. by rewrite <- prefix_drop_eq.
  - intros [Hp Hm]. exists (src ++ drop (length dst) k, v). split.
    + by apply elem_of_map_to_list.
    + unfold reroot. simpl. rewrite bool_decide_true by by apply prefix_app_r.
      simpl. rewrite drop_app_length. by rewrite <- prefix_drop_eq.
Qed.

Lemma lookup_moved src dst m k :
  (list_to_map (moved src dst m) : gmap path node) !! k =
    if bool_decide (dst `prefix_of` k) then m !! (src ++ drop (length dst) k) else None.
Proof.
  case_bool_decide as Hp.
  - destruct (m !! (src ++ drop (length dst) k)) as [v|] eqn:E.
    + apply elem_of_list_to_map_1'.
      * intros y [_ Hy]%elem_of_moved. congruence.
      * by apply elem_of_moved.
    + apply not_elem_of_list_to_map_1. rewrite list_elem_of_fmap.
      intros ([k' v] & -> & [_ Hv]%elem_of_moved). simpl in *. congruence.
  - apply not_elem_of_list_to_map_1. rewrite list_elem_of_fmap.
    intros ([k' v] & -> & [Hk _]%elem_of_moved). done.
Qed.

(** What [rename] leaves at each path: the subtree of [src] under [dst],
    nothing else under [src], the rest unchanged. *)
Lemma lookup_move_tree src dst m k :
  move_tree src dst m !! k =
    if bool_decide (dst `prefix_of` k) then m !! (src ++ drop (length dst) k)
    else if bool_decide (src `prefix_of` k) then None else m !! k.
Proof.
  unfold move_tree. rewrite lookup_union, lookup_moved, map_lookup_filter.
  case_bool_decide as Hd.
  - destruct (m !! k); simpl; [rewrite option_guard_False by naive_solver|];
      by destruct (m !! (src ++ drop (length dst) k)).
  - case_bool_decide as Hs.
    + destruct (m !! k); simpl; [|done]. by rewrite option_guard_False by naive_solver.
    + destruct (m !! k); simpl; [|done]. by rewrite option_guard_True by naive_solver.
Qed.

Lemma lookup_stamp p data w k :
  nodes (stamp p data w) !! k =
    if decide (p = k) then Some (File data (tick w (S (clock w)))) else nodes w !! k.
Proof. unfold stamp. simpl. by rewrite lookup_insert. Qed.

(** ** Paths that differ *)

Lemma parent_snoc (a : path) x : parent (a ++ [x]) = a.
Proof. apply removelast_last. Qed.

Lemma snoc_neq_self (a : path) x : a ++ [x] <> a.
Proof. intros H. apply (f_equal length) in H. rewrite length_app in H. simpl in H. lia. Qed.

Lemma snoc_neq_snoc (a b : path) x y : a <> b -> a ++ [x] <> b ++ [y].
Proof. intros Hab H. by apply app_inj_tail in H as [? _]. Qed.

Lemma not_prefix_snoc_neq (a b : path) x : ¬ a `prefix_of` b -> b <> a ++ [x].
Proof. intros Hp ->. apply Hp. by apply prefix_app_r. Qed.

Lemma snoc_inj (a : path) x y : a ++ [x] = a ++ [y] -> x = y.
Proof. intros H. by apply app_inj_tail in H as [_ ?]. Qed.

Lemma parent_neq_self (p : path) : p <> [] -> parent p <> p.
Proof.
  intros Hp. destruct (exists_last Hp) as (r & x & ->). rewrite parent_snoc.
  apply not_eq_sym, snoc_neq_self.
Qed.

Lemma parent_neq_snoc (p : path) y : p <> [] -> parent p <> p ++ [y].
Proof.
  intros Hp. destruct (exists_last Hp) as (r & x & ->). rewrite parent_snoc.
  intros H. apply (f_equal length) in H. rewrite !length_app in H. simpl in H. lia.
Qed.

#[export] Hint Resolve snoc_neq_self snoc_neq_snoc not_prefix_snoc_neq
  parent_neq_self parent_neq_snoc : fs.

(** [under d k = Some (y, r)] when [k] is [d/y/r...]. *)
Definition under (d k : path) : option (string * path) :=
  if bool_decide (d `prefix_of` k) then
    match drop (length d) k with y :: r => Some (y, r) | [] => None end
  else None.

Lemma under_Some d k y r : under d k = Some (y, r) <-> k = d ++ y :: r.
Proof.
  unfold under. split.
  - case_bool_decide as Hp; [|done]. rewrite (prefix_drop_eq d k Hp) at 2.
    destruct (drop (length d) k); naive_solver.
  - intros ->. rewrite bool_decide_true by by apply prefix_app_r.
    by rewrite drop_app_length.
Qed.

Lemma under_self d : under d d = None.
Proof. unfold under. rewrite bool_decide_true by done. by rewrite drop_all. Qed.

Lemma under_None d k : under d k = None -> forall y r, k <> d ++ y :: r.
Proof. intros Hu y r Hk. apply under_Some in Hk. congruence. Qed.

Lemma prefix_snoc_iff (d k : path) y : (d ++ [y]) `prefix_of` k <-> exists r, k = d ++ y :: r.
Proof.
  split.
  - intros [r ->]. exists r. by rewrite <- app_assoc.
  - intros [r ->]. exists r. by rewrite <- app_assoc.
Qed.

Lemma drop_snoc_cons (d : path) y r : drop (length (d ++ [y])) (d ++ y :: r) = r.
Proof. induction d as [|a d IH]; [done|]. simpl. exact IH. Qed.

(** The times of the writes to [p], in order. *)
Definition log_writes (p : path) (w : fs) : list nat :=
  map snd (filter (fun e => e.1 = p) (writes w)).

Lemma log_writes_append p w e :
  map snd (filter (fun e => e.1 = p) (writes w ++ [e])) =
    log_writes p w ++ (if decide (e.1 = p) then [e.2] else []).
Proof.
  unfold log_writes. rewrite filter_app, map_app. f_equal.
  rewrite filter_cons, filter_nil. by destruct (decide (e.1 = p)).
Qed.

Lemma log_writes_stamp p q data w :
  log_writes p (stamp q data w) =
    log_writes p w ++ (if decide (q = p) then [S (clock w)] else []).
Proof. unfold stamp. exact (log_writes_append p w (q, S (clock w))). Qed.

(** ** Time only moves forward

    [clock_ext w w']: [w'] has a clock no earlier than [w] and a write
    trace that extends [w]'s with writes stamped strictly after [w]'s clock,
    in increasing order, none after [w']'s clock. *)

Definition clock_ext (w w' : fs) : Prop :=
  clock w <= clock w' /\
  exists l, writes w' = writes w ++ l /\
    StronglySorted (fun e1 e2 : path * nat => e1.2 < e2.2) l /\
    Forall (fun e : path * nat => clock w < e.2 <= clock w') l.

#[export] Instance clock_ext_preorder : PreOrder clock_ext.
Proof.
  split.
  - intros w. split; [done|]. exists []. rewrite app_nil_r. repeat constructor.
  - intros w1 w2 w3 (H12 & l1 & E1 & S1 & F1) (H23 & l2 & E2 & S2 & F2).
    split; [lia|]. exists (l1 ++ l2). split; [by rewrite E2, E1, app_assoc|].
    rewrite Forall_forall in F1, F2. split.
    + apply StronglySorted_app_2; [|done..].
      intros x1 x2 Hx1 Hx2.
      specialize (F1 x1 Hx1); specialize (F2 x2 Hx2). lia.
    + apply Forall_app. rewrite !Forall_forall. split; intros x Hx.
      * specialize (F1 x Hx). lia.
      * specialize (F2 x Hx). lia.
Qed.

Lemma clock_ext_same w w' :
  clock w' = clock w -> writes w' = writes w -> clock_ext w w'.
Proof. intros Hc Hw. unfold clock_ext. rewrite Hw. split; [lia|]. exists []. rewrite Hc, app_nil_r. repeat constructor. Qed.

Lemma clock_ext_stamp p data w : clock_ext w (stamp p data w).
Proof.
  split; simpl; [lia|]. exists [(p, S (clock w))]. split_and!; [done| |].
  - repeat constructor.
  - repeat constructor; simpl; lia.
Qed.

#[export] Hint Resolve clock_ext_stamp : fs.

(** Closes [within clock_ext op] for an operation whose branches keep the
    clock and the trace or [stamp] one write. *)
Ltac within_clock :=
  let w := fresh "w" in
  intros w; repeat (simpl; case_match); simpl;
  first [ reflexivity | apply clock_ext_stamp | by apply clock_ext_same ].

Lemma within_exists p : within clock_ext (exists_ p).
Proof. unfold exists_, check_parent. within_clock. Qed.
Lemma within_check_parent p : within clock_ext (check_parent p).
Proof. unfold exists_, check_parent. within_clock. Qed.
Lemma within_mkdir p : within clock_ext (mkdir p).
Proof.
  intros w. unfold mkdir. case_match; [reflexivity|]. case_match; [reflexivity|].
  unfold io_bind. match goal with |- context [check_parent ?q w] =>
    pose proof (within_check_parent q w) as Hc;
    destruct (check_parent q w) as [[] w'|e w']; simpl in *; [|exact Hc] end.
  etrans; [exact Hc|by apply clock_ext_same].
Qed.
Lemma within_listdir `{Listing} p : within clock_ext (listdir p).
Proof. unfold listdir. within_clock. Qed.
Lemma within_write_file p data : within clock_ext (write_file p data).
Proof.
  apply (within_bind clock_ext); [apply within_check_parent|intros _].
  intros w. destruct (nodes w !! p) as [[]|]; [apply clock_ext_stamp|reflexivity|apply clock_ext_stamp].
Qed.
Lemma within_overwrite_start p str : within clock_ext (overwrite_start p str).
Proof. unfold overwrite_start. within_clock. Qed.
Lemma within_read_file p : within clock_ext (read_file p).
Proof. unfold read_file. within_clock. Qed.
Lemma within_set_mtime p t : within clock_ext (set_mtime p t).
Proof. unfold set_mtime. within_clock. Qed.
Lemma within_read_image `{ImageIO} p : within clock_ext (read_image p).
Proof. unfold read_image. within_clock. Qed.
Lemma within_write_image `{ImageIO} img p : within clock_ext (write_image img p).
Proof. unfold write_image. within_clock. Qed.
Lemma within_rename src dst : within clock_ext (rename src dst).
Proof. unfold rename. within_clock. Qed.

Lemma within_copy2 src dst : within clock_ext (copy2 src dst).
Proof.
  intros w. unfold copy2. case_match; [reflexivity|].
  apply (within_bind clock_ext); [apply within_read_file|intros data].
  apply (within_bind clock_ext); [apply within_write_file|intros _ w'].
  destruct (nodes w !! src) as [[]|]; simpl; [apply within_set_mtime|reflexivity..].
Qed.

#[export] Hint Resolve within_exists within_check_parent within_mkdir within_listdir
  within_write_file within_overwrite_start within_read_file within_set_mtime
  within_read_image within_write_image within_rename within_copy2 : fs.

(** Closes [within R] for a program built from operations of which the
    hint database [fs] knows that they respect [R]. *)
Ltac within_ops_by R :=
  repeat (intros; first
    [ solve [eauto with fs] | apply (within_bind R)
    | apply (within_for_each R) | apply (within_ret R) | case_match ]).

Ltac within_ops := within_ops_by clock_ext.

(** ** When the operations succeed *)

Lemma mkdir_ok p w :
  p <> [] -> nodes w !! p = None -> nodes w !! parent p = Some Dir ->
  mkdir p w = Ok tt {| nodes := <[p := Dir]> (nodes w); clock := clock w; writes := writes w; tick := tick w |}.
Proof.
  intros Hp Hn Hpar. unfold mkdir. cbv beta. rewrite Hn.
  destruct p; [done|]. unfold io_bind, check_parent. by rewrite Hpar.
Qed.

Lemma write_file_ok p data w :
  nodes w !! parent p = Some Dir -> nodes w !! p <> Some Dir ->
  write_file p data w = Ok tt (stamp p data w).
Proof.
  intros Hpar Hp. unfold write_file, io_bind, check_parent. cbv beta. rewrite Hpar.
  destruct (nodes w !! p) as [[]|]; congruence.
Qed.

Lemma overwrite_start_ok p s old t w :
  nodes w !! p = Some (File old t) ->
  overwrite_start p s w = Ok tt (stamp p (s +:+ Str.drop (String.length s) old) w).
Proof. intros Hp. unfold overwrite_start. cbv beta. by rewrite Hp. Qed.

Lemma read_image_ok `{ImageIO} p data t img w :
  nodes w !! p = Some (File data t) -> decode (path_str p) data = Some img ->
  read_image p w = Ok img w.
Proof. intros Hp Hd. unfold read_image. cbv beta. by rewrite Hp, Hd. Qed.

Lemma write_image_ok `{ImageIO} img p w :
  nodes w !! parent p = Some Dir -> nodes w !! p <> Some Dir ->
  write_image img p w = Ok tt (stamp p (encode (path_str p) img) w).
Proof.
  intros Hpar Hp. unfold write_image. cbv beta. rewrite Hpar.
  destruct (nodes w !! p) as [[]|]; congruence.
Qed.

(** [shutil.copy2] onto a path that is not a directory writes the
    contents and gives the copy the source's time. *)
Lemma copy2_ok src dst data t w :
  nodes w !! src = Some (File data t) -> src <> dst ->
  nodes w !! parent dst = Some Dir -> nodes w !! dst <> Some Dir ->
  copy2 src dst w =
    Ok tt {| nodes := <[dst := File data t]> (nodes w); clock := S (clock w);
             writes := writes w ++ [(dst, S (clock w))]; tick := tick w |}.
Proof.
  intros Hsrc Hne Hpar Hdst. unfold copy2, is_dir. cbv beta.
  rewrite (bool_decide_false (nodes w !! dst = Some Dir)) by done.
  rewrite (bool_decide_false (src = dst)) by done. cbn [andb].
  unfold io_bind at 1. unfold read_file. rewrite Hsrc.
  unfold io_bind. rewrite write_file_ok by done. unfold set_mtime, stamp. cbn [nodes clock writes].
  rewrite lookup_insert_eq, insert_insert_eq. done.
Qed.

(** [os.rename] of an existing entry to a free name in an existing
    directory. *)
Lemma rename_ok src dst n w :
  nodes w !! src = Some n -> nodes w !! dst = None ->
  nodes w !! parent dst = Some Dir -> ¬ src `prefix_of` dst ->
  rename src dst w = Ok tt {| nodes := move_tree src dst (nodes w); clock := clock w;
                              writes := writes w; tick := tick w |}.
Proof.
  intros Hsrc Hdst Hpar Hpre. unfold rename. cbv beta. rewrite Hsrc.
  rewrite bool_decide_false by (intros ->; apply Hpre; done).
  rewrite Hpar, Hdst. destruct n; [done|].
  rewrite bool_decide_false by done. unfold is_dir. rewrite Hdst.
  by rewrite andb_false_r.
Qed.

(** ** Concrete instances

    [os.listdir] as the enumeration order of the map, and a codec that
    tags encoded images; they let the theorems run on concrete folders. *)

Definition child_of (d k : path) : option string :=
  if bool_decide (d `prefix_of` k) then
    match drop (length d) k with [x] => Some x | _ => None end
  else None.

Lemma child_of_Some d k x : child_of d k = Some x <-> k = d ++ [x].
Proof.
  unfold child_of. split.
  - case_bool_decide as Hp; [|done]. rewrite (prefix_drop_eq d k Hp) at 2.
    destruct (drop (length d) k) as [|y [|z r]]; naive_solver.
  - intros ->. rewrite bool_decide_true by by apply prefix_app_r.
    by rewrite drop_app_length.
Qed.

#[export] Program Instance map_listing : Listing := {|
  list_names m d := omap (child_of d) ((map_to_list m).*1)
|}.
Next Obligation.
  intros m d x. rewrite list_elem_of_omap. split.
  - intros (k & Hk & ->%child_of_Some). apply list_elem_of_fmap in Hk as ([k v] & -> & Hk).
    apply elem_of_map_to_list in Hk. by eexists.
  - intros [v Hv]. exists (d ++ [x]). split; [|by apply child_of_Some].
    apply list_elem_of_fmap. exists (d ++ [x], v). split; [done|].
    by apply elem_of_map_to_list.
Qed.
Next Obligation.
  intros m d. apply NoDup_omap_inj; [|apply NoDup_fst_map_to_list].
  intros k1 k2 x ->%child_of_Some ->%child_of_Some. done.
Qed.

#[export] Program Instance tagged_codec : ImageIO := {|
  image := string;
  decode _ s := if String.prefix "ITK" s then Some (Str.drop (String.length "ITK") s) else None;
  encode _ img := "ITK" +:+ img
|}.
Next Obligation.
  intros p img. cbn -[String.prefix Str.drop String.append].
  rewrite (Str.prefix_app "ITK" img). exact (f_equal Some (Str.drop_app "ITK" img)).
Qed.

(** ** Tactics for concrete trees *)

(** [m !! (d ++ [y]) = None] for a tree given by [list_to_map] (its
    definition unfolded) with no entry below [d]. *)
Ltac no_child :=
  let y := fresh "y" in
  intros y; cbn [nodes list_to_map foldr fst snd app];
  rewrite ?lookup_insert_ne by discriminate; apply lookup_empty.

(** Splits [x ∈ l] into one goal per element of the computed list [l]. *)
Ltac listed_cases Hx :=
  match type of Hx with _ ∈ ?l => let v := eval vm_compute in l in change l with v in Hx end;
  rewrite ?elem_of_cons in Hx; repeat destruct Hx as [->|Hx]; [..|by apply elem_of_nil in Hx].

(** Closes a goal with a hypothesis [Hn : y ∈ l] where the concrete [y]
    is not in the computed list [l]. *)
Ltac not_listed Hn :=
  exfalso;
  match type of Hn with _ ∈ ?l => let v := eval vm_compute in l in change l with v in Hn end;
  rewrite ?elem_of_cons, ?elem_of_nil in Hn; vm_compute in Hn;
  repeat destruct Hn as [Hn|Hn]; try discriminate; exact Hn.

End FS.
