(* ===== verification/FileTree.v ===== *)
(** * The shape of the tree: every path sits in a directory

    A file system is well formed ([wf]) when every path but the root has a
    directory as its parent: files have no entries, and no entry floats
    without the directories above it.  Every operation of [FileSystem]
    keeps this shape, whether it succeeds or raises: [mkdir], [open] and
    [WriteImage] check the parent before they create, [os.rename] moves a
    whole subtree into an existing directory and refuses to move a
    directory into itself.  The lemmas are stated as [within (preserves wf)]
    hints, so that [within_ops_by] carries the shape through a program. *)

From stdpp Require Import base list strings gmap.
From S2P Require Import Prelude PosixPath FileSystem.

Module Tree.
Import Path FS.

(** Every non-root path of [m] has a directory as its parent. *)
Definition wf_nodes (m : gmap path node) : Prop :=
  map_Forall (fun k _ => k <> [] -> m !! parent k = Some Dir) m.

Definition wf (w : fs) : Prop := wf_nodes (nodes w).

#[export] Instance wf_nodes_dec m : Decision (wf_nodes m).
Proof. unfold wf_nodes. apply _. Defined.

#[export] Instance wf_dec w : Decision (wf w).
Proof. unfold wf. apply _. Defined.

(** ** Paths and their parents *)

Lemma parent_prefix (k : path) : parent k `prefix_of` k.
Proof.
  destruct (decide (k = [])) as [->|Hk]; [done|].
  destruct (exists_last Hk) as (r & x & ->). rewrite parent_snoc. by exists [x].
Qed.

(** A proper prefix of [k] is a prefix of its parent. *)
Lemma prefix_parent (a k : path) : a `prefix_of` k -> a <> k -> a `prefix_of` parent k.
Proof.
  intros [r ->] Hne. destruct r as [|x r] using rev_ind; [by rewrite app_nil_r in Hne|].
  rewrite app_assoc, parent_snoc. by exists r.
Qed.

Lemma parent_app (d r : path) : r <> [] -> parent (d ++ r) = d ++ parent r.
Proof.
  intros Hr. destruct (exists_last Hr) as (r' & x & ->).
  by rewrite app_assoc, !parent_snoc.
Qed.

Lemma not_prefix_parent (p : path) : p <> [] -> ¬ p `prefix_of` parent p.
Proof.
  intros Hp Hpre. destruct (exists_last Hp) as (r & x & ->). rewrite parent_snoc in Hpre.
  apply prefix_length in Hpre. rewrite length_app in Hpre. simpl in Hpre. lia.
Qed.

Lemma prefix_of_parent_prefix (a k : path) : a `prefix_of` parent k -> a `prefix_of` k.
Proof. intros H. etrans; [exact H|apply parent_prefix]. Qed.

Section Shape.
Context (m : gmap path node) (Hwf : wf_nodes m).

(** Every path above an entry is a directory. *)
Lemma wf_ancestor k n a :
  m !! k = Some n -> a `prefix_of` k -> a <> k -> m !! a = Some Dir.
Proof.
  intros Hk [l ->] Hne. assert (Hl : l <> []) by (intros ->; by rewrite app_nil_r in Hne).
  clear Hne. revert n Hk Hl. induction l as [|x l IH] using rev_ind; [done|].
  intros n Hk _. rewrite app_assoc in Hk.
  pose proof (Hwf _ _ Hk) as Hp. cbv beta in Hp. rewrite parent_snoc in Hp.
  destruct (decide (l = [])) as [->|Hl]; [rewrite app_nil_r in Hp |].
  - apply Hp. intros E. by destruct a.
  - apply (IH Dir); [apply Hp|done]. intros E. by destruct a, l.
Qed.

(** Storing [n] at [p], in a directory, keeps the shape unless it turns a
    directory into a file. *)
Lemma wf_insert p n :
  (p <> [] -> m !! parent p = Some Dir) -> (m !! p = Some Dir -> n = Dir) ->
  wf_nodes (<[p := n]> m).
Proof.
  intros Hpar Hdir k v Hk Hne. destruct (decide (p = k)) as [<-|Hpk].
  - rewrite lookup_insert_ne by (apply not_eq_sym, parent_neq_self, Hne). by apply Hpar.
  - rewrite lookup_insert_ne in Hk by done. pose proof (Hwf _ _ Hk Hne) as Hp.
    destruct (decide (p = parent k)) as [E|Hne'].
    + rewrite <- E in Hp |- *. rewrite lookup_insert_eq. by rewrite (Hdir Hp).
    + by rewrite lookup_insert_ne.
Qed.

(** A file is not above the directory that would receive it. *)
Lemma file_not_prefix src dst data t :
  m !! src = Some (File data t) -> m !! parent dst = Some Dir -> src <> dst ->
  ¬ src `prefix_of` dst.
Proof.
  intros Hsrc Hpar Hne Hpre. apply prefix_parent in Hpre; [|done].
  destruct (decide (src = parent dst)) as [->|Hne'].
  - congruence.
  - pose proof (wf_ancestor _ _ _ Hpar Hpre Hne'). congruence.
Qed.

(** [os.rename] moves a subtree into a directory, never into itself. *)
Lemma wf_move_tree src dst n :
  m !! src = Some n -> m !! parent dst = Some Dir -> ¬ src `prefix_of` dst ->
  wf_nodes (move_tree src dst m).
Proof.
  intros Hsrc Hpar Hpre k v Hk Hne. cbv beta. rewrite lookup_move_tree in Hk |- *.
  case_bool_decide as Hdk.
  - destruct Hdk as [r ->]. rewrite drop_app_length in Hk.
    destruct (decide (r = [])) as [->|Hr].
    + rewrite app_nil_r in Hne |- *.
      rewrite !bool_decide_false; [done| |by apply not_prefix_parent].
      intros ?%prefix_of_parent_prefix. by apply Hpre.
    + rewrite parent_app, bool_decide_true by (done || by apply prefix_app_r).
      rewrite drop_app_length, <- parent_app by done.
      apply (Hwf _ _ Hk). by destruct src.
  - case_bool_decide as Hsk; [done|].
    rewrite !bool_decide_false; [by apply (Hwf _ _ Hk)| |];
      intros ?%prefix_of_parent_prefix; contradiction.
Qed.

End Shape.

(** ** Every operation keeps the shape *)

Lemma wf_stamp p data w :
  wf w -> (p <> [] -> nodes w !! parent p = Some Dir) -> nodes w !! p <> Some Dir ->
  wf (stamp p data w).
Proof. intros Hw Hpar Hp. apply wf_insert; [done..|]. by intros ?%Hp. Qed.

(** An operation that only reads leaves the state as it is. *)
Ltac wf_read := let w := fresh "w" in let Hw := fresh "Hw" in
  intros w Hw; repeat (simpl; case_match); simpl; exact Hw.

Lemma wf_exists p : within (preserves wf) (exists_ p).
Proof. unfold exists_. wf_read. Qed.
Lemma wf_check_parent p : within (preserves wf) (check_parent p).
Proof. unfold check_parent. wf_read. Qed.
Lemma wf_listdir `{Listing} p : within (preserves wf) (listdir p).
Proof. unfold listdir. wf_read. Qed.
Lemma wf_read_file p : within (preserves wf) (read_file p).
Proof. unfold read_file. wf_read. Qed.
Lemma wf_read_image `{ImageIO} p : within (preserves wf) (read_image p).
Proof. unfold read_image. wf_read. Qed.

Lemma wf_mkdir p : within (preserves wf) (mkdir p).
Proof.
  intros w Hw. unfold mkdir, io_bind, check_parent.
  destruct (nodes w !! p) eqn:Hp; [done|]. destruct p as [|c q]; [done|].
  destruct (nodes w !! parent (c :: q)) as [[]|] eqn:Hpar; [done| |done].
  apply wf_insert; [done..|]. congruence.
Qed.

Lemma wf_write_file p data : within (preserves wf) (write_file p data).
Proof.
  intros w Hw. unfold write_file, io_bind, check_parent.
  destruct (nodes w !! parent p) as [[]|] eqn:Hpar; [done| |done].
  destruct (nodes w !! p) as [[]|] eqn:Hp; try done; (apply wf_stamp; [done|by intros _|congruence]).
Qed.

Lemma wf_overwrite_start p str : within (preserves wf) (overwrite_start p str).
Proof.
  intros w Hw. unfold overwrite_start.
  destruct (nodes w !! p) as [[]|] eqn:Hp; try done.
  apply wf_stamp; [done| |congruence]. intros Hne. by apply (Hw _ _ Hp).
Qed.

Lemma wf_set_mtime p t : within (preserves wf) (set_mtime p t).
Proof.
  intros w Hw. unfold set_mtime.
  destruct (nodes w !! p) as [[]|] eqn:Hp; try done.
  apply wf_insert; [done| |congruence]. intros Hne. by apply (Hw _ _ Hp).
Qed.

Lemma wf_write_image `{ImageIO} img p : within (preserves wf) (write_image img p).
Proof.
  intros w Hw. unfold write_image.
  destruct (nodes w !! parent p) as [[]|] eqn:Hpar;
    destruct (nodes w !! p) as [[]|] eqn:Hp; try done; (apply wf_stamp; [done|by intros _|congruence]).
Qed.

Lemma wf_copy2 src dst : within (preserves wf) (copy2 src dst).
Proof.
  intros w. unfold copy2. case_match; [done|].
  apply (within_bind (preserves wf)); [apply wf_read_file|intros data].
  apply (within_bind (preserves wf)); [apply wf_write_file|intros _ w'].
  destruct (nodes w !! src) as [[]|]; [apply wf_set_mtime|done..].
Qed.

Lemma wf_rename src dst : within (preserves wf) (rename src dst).
Proof.
  intros w Hw. unfold rename.
  destruct (nodes w !! src) as [n|] eqn:Hsrc; [|done].
  case_bool_decide as Heq; [done|].
  destruct (nodes w !! parent dst) as [[]|] eqn:Hpar; [done| |done].
  destruct n as [data t|]; destruct (nodes w !! dst) as [[]|] eqn:Hdst; try done;
    repeat (first [case_bool_decide | case_match]; try done);
    unfold wf; cbn [final_state nodes]; eapply wf_move_tree; eauto using file_not_prefix.
Qed.

#[export] Hint Resolve wf_exists wf_check_parent wf_listdir wf_read_file wf_read_image
  wf_mkdir wf_write_file wf_overwrite_start wf_set_mtime wf_write_image wf_copy2
  wf_rename : fs.

End Tree.
