(* ===== verification/BatchTransformer.v ===== *)
(** * The worker: [main] of replaceAll_WSL.py

    [main(args)] (replaceAll_WSL.py, lines 16-59) truncates the log file,
    then, when [overwrite == "False"], walks [os.listdir(input_folder)]:
    it creates the output folder if needed, re-encodes [.nii]/[.nii.gz]
    images with SimpleITK, copies [.vtk] files with [shutil.copy2], skips
    anything else, and writes [str(index)] at the start of the log file.
    It then walks [os.listdir(output_folder)] and renames every entry whose
    name contains [replace].  The same code runs as the Slicer CLI
    [replaceallcli] on Linux and macOS. *)

From stdpp Require Import base list strings gmap pretty.
From S2P Require Import Prelude PyStr PosixPath FileSystem FileTree.

Module Worker.
Import Path FS Tree.

(** The parsed command line (lines 63-72): six positional strings ([by] is
    spelled [by_], [by] being a keyword here), the
    three folder or file paths resolved to their components. *)
Record args : Type := mkArgs {
  input_folder : path;
  replace : string;
  by_ : string;
  output_folder : path;
  overwrite : string;
  log_path : path
}.

Section Main.
Context `{Listing} `{ImageIO}.

(** [str(index)] *)
Definition str_nat (n : nat) : string := pretty (N.of_nat n).

(** The extensions the copy pass converts (line 43) or copies (line 46). *)
Definition is_image_ext (e : string) : bool :=
  String.eqb e ".nii" || String.eqb e ".nii.gz".

(** One iteration of the copy loop (lines 34-51). *)
Definition copy_entry (input_folder output_folder log_path : path) (index : nat)
    (item : string) : fsio unit :=
  let source_path := join_path input_folder item in
  e <- exists_ output_folder ;;
  (if e then io_ret tt else mkdir output_folder) ;;
  let destination_path := join_path output_folder item in
  let file_extension := get_file_extension (path_str source_path) in
  (if is_image_ext file_extension then
     image <- read_image source_path ;;
     write_image image destination_path
   else if String.eqb file_extension ".vtk" then
     copy2 source_path destination_path
   else io_ret tt) ;;
  overwrite_start log_path (str_nat index).

(** One iteration of the rename loop (lines 56-59). *)
Definition rename_entry (output_folder : path) (replace by_ : string)
    (item : string) : fsio unit :=
  if Str.contains replace item then
    let new_name := Str.replace replace by_ item in
    rename (join_path output_folder item) (join_path output_folder new_name)
  else io_ret tt.

(** The copy pass (lines 32-53).  [index] is set to 0 before the loop and
    incremented once after it (line 53 is outside the [for] body), so
    every iteration writes [str(0)]. *)
Definition copy_pass (a : args) : fsio unit :=
  let index := 0 in
  items <- listdir (input_folder a) ;;
  for_each items (copy_entry (input_folder a) (output_folder a) (log_path a) index).

(** The log file after one [write(str(0))] at its start. *)
Definition tick (c : string) : string :=
  str_nat 0 +:+ Str.drop (String.length (str_nat 0)) c.

Definition rename_pass (a : args) : fsio unit :=
  items <- listdir (output_folder a) ;;
  for_each items (rename_entry (output_folder a) (replace a) (by_ a)).

(** Lines 26-53 of [main]: [open(log_path, 'w')] and [truncate(0)] leave
    an empty, freshly written log file, then the copy pass runs when
    [overwrite == "False"]. *)
Definition copy_phase (a : args) : fsio unit :=
  write_file (log_path a) "" ;;
  (if String.eqb (overwrite a) "False" then copy_pass a else io_ret tt).

(** [main(args)] (lines 16-59). *)
Definition main (a : args) : fsio unit :=
  copy_phase a ;;
  rename_pass a.

End Main.
(** ** The copy pass

    The input folder [I], the output folder [O] and the log file [L] are
    apart from one another; [O] is absent (in an existing directory) or an
    empty directory; the entries of [I] are proper names, and those whose
    extension asks for a conversion or a copy are files that SimpleITK can
    read when it must.  Then the copy pass completes, and [O/x] is the
    re-encoded image for [.nii] and [.nii.gz], a byte-identical copy with
    the source's time for [.vtk], and absent for every other entry. *)
Section CopyPass.
Context `{Listing} `{ImageIO}.
Variables (I O L : path) (s0 : fs) (c0 : string) (t0 : nat).

Definition entries : list string := list_names (nodes s0) I.

Definition copied (x : string) (r : option node) : Prop :=
  let e := get_file_extension (path_str (I ++ [x])) in
  if is_image_ext e then
    exists data t img t', nodes s0 !! (I ++ [x]) = Some (File data t) /\
      decode (path_str (I ++ [x])) data = Some img /\
      r = Some (File (encode (path_str (O ++ [x])) img) t')
  else if String.eqb e ".vtk" then r = nodes s0 !! (I ++ [x])
  else r = None.

Definition copyable (x : string) : Prop :=
  let e := get_file_extension (path_str (I ++ [x])) in
  (is_image_ext e = true -> exists data t img, nodes s0 !! (I ++ [x]) = Some (File data t) /\
                              decode (path_str (I ++ [x])) data = Some img) /\
  (String.eqb e ".vtk" = true -> exists data t, nodes s0 !! (I ++ [x]) = Some (File data t)).

Hypothesis HOfresh : forall y, nodes s0 !! (O ++ [y]) = None.
Hypothesis HO : (nodes s0 !! O = None /\ O <> [] /\ nodes s0 !! parent O = Some Dir)
                \/ nodes s0 !! O = Some Dir.
Hypothesis HL : nodes s0 !! L = Some (File c0 t0).
Hypothesis HIO : ¬ I `prefix_of` O.
Hypothesis HOI : ¬ O `prefix_of` I.
Hypothesis HIL : ¬ I `prefix_of` L.
Hypothesis HOL : ¬ O `prefix_of` L.
Hypothesis HE : forall x, x ∈ entries -> is_component x = true /\ copyable x.

Definition copy_inv (done : list string) (s : fs) : Prop :=
  (forall k, k <> O -> (forall y, k <> O ++ [y]) -> k <> L -> nodes s !! k = nodes s0 !! k) /\
  nodes s !! O = (if decide (done = []) then nodes s0 !! O else Some Dir) /\
  (forall y, if decide (y ∈ done) then copied y (nodes s !! (O ++ [y]))
             else nodes s !! (O ++ [y]) = None) /\
  (exists t, nodes s !! L = Some (File (if decide (done = []) then c0 else tick c0) t)) /\
  length (log_writes L s) = length (log_writes L s0) + length done.

Lemma copy_inv_init : copy_inv [] s0.
Proof.
  split_and!; [done|by rewrite decide_True| | |done].
  - intros y. rewrite decide_False by set_solver. apply HOfresh.
  - exists t0. by rewrite decide_True.
Qed.

Lemma tick_tick c : tick (tick c) = tick c.
Proof. unfold tick. by rewrite Str.drop_app. Qed.

(** The [if not os.path.exists(output_folder): os.mkdir(output_folder)]
    step. *)
Lemma copy_mkdir_step done s :
  copy_inv done s ->
  exists s1, (e <- exists_ O ;; (if e then io_ret tt else mkdir O)) s = Ok tt s1 /\
    nodes s1 !! O = Some Dir /\ (forall k, k <> O -> nodes s1 !! k = nodes s !! k) /\
    clock s1 = clock s /\ writes s1 = writes s.
Proof.
  intros (Hk & HOs & _ & [t HLs] & _). unfold io_bind, exists_.
  destruct (decide (done = [])) as [->|Hne]; rewrite HOs.
  - destruct HO as [(HOn & HOne & HOp) | HOd].
    + rewrite HOn. cbn.
      assert (Hpar : nodes s !! parent O = Some Dir).
      { rewrite Hk; [done|by apply parent_neq_self|by intros y; apply parent_neq_snoc|].
        intros Heq. congruence. }
      rewrite mkdir_ok by (rewrite ?HOs; done).
      eexists; split_and!; [done| |intros k' Hk'; cbn [nodes]; by rewrite lookup_insert_ne|done|done].
      cbn [nodes]. by rewrite lookup_insert_eq.
    + rewrite HOd, bool_decide_true by by eexists.
      eexists; split_and!; [done|by rewrite HOs, HOd|done..].
  - rewrite bool_decide_true by by eexists.
    eexists; split_and!; [done|by rewrite HOs|done..].
Qed.

Lemma I_neq_O : I <> O.
Proof. intros ->. by apply HIO. Qed.
Lemma in_neq_O x : I ++ [x] <> O.
Proof. apply not_eq_sym, not_prefix_snoc_neq, HIO. Qed.
Lemma in_neq_out x y : I ++ [x] <> O ++ [y].
Proof. apply snoc_neq_snoc, I_neq_O. Qed.
Lemma in_neq_L x : I ++ [x] <> L.
Proof. apply not_eq_sym, not_prefix_snoc_neq, HIL. Qed.
Lemma out_neq_L y : O ++ [y] <> L.
Proof. apply not_eq_sym, not_prefix_snoc_neq, HOL. Qed.
Lemma O_neq_L : O <> L.
Proof. intros <-. by apply HOL. Qed.
Lemma out_neq_O y : O ++ [y] <> O.
Proof. apply snoc_neq_self. Qed.

Lemma L_neq_out y : L <> O ++ [y].
Proof. apply not_eq_sym, out_neq_L. Qed.
Lemma L_neq_O : L <> O.
Proof. apply not_eq_sym, O_neq_L. Qed.

#[local] Hint Resolve I_neq_O in_neq_O in_neq_out in_neq_L out_neq_L O_neq_L out_neq_O
  L_neq_out L_neq_O : fs.

(** The conversion, copy or skip of one entry, once [O] exists. *)
Lemma copy_file_step x s1 :
  copyable x -> nodes s1 !! O = Some Dir ->
  nodes s1 !! (I ++ [x]) = nodes s0 !! (I ++ [x]) -> nodes s1 !! (O ++ [x]) = None ->
  let e := get_file_extension (path_str (I ++ [x])) in
  exists s2,
    (if is_image_ext e then image <- read_image (I ++ [x]) ;; write_image image (O ++ [x])
     else if String.eqb e ".vtk" then copy2 (I ++ [x]) (O ++ [x])
     else io_ret tt) s1 = Ok tt s2 /\
    copied x (nodes s2 !! (O ++ [x])) /\
    (forall k, k <> O ++ [x] -> nodes s2 !! k = nodes s1 !! k) /\
    log_writes L s2 = log_writes L s1.
Proof.
  intros [Himg Hvtk] HOs Hin Hout e. unfold copied. fold e.
  destruct (is_image_ext e) eqn:Hie.
  - destruct (Himg Hie) as (data & t & img & Hd & Hdec).
    rewrite <- Hin in Hd. unfold io_bind. rewrite (read_image_ok _ _ _ _ _ Hd Hdec).
    rewrite write_image_ok by (rewrite ?parent_snoc, ?Hout; done).
    eexists; split_and!; [done| | |].
    + exists data, t, img, (FS.tick s1 (S (clock s1))). rewrite <- Hin. split_and!; try done.
      by rewrite lookup_stamp, decide_True.
    + intros k Hk. rewrite lookup_stamp. by rewrite decide_False.
    + rewrite log_writes_stamp, decide_False by auto with fs. apply app_nil_r.
  - destruct (String.eqb e ".vtk") eqn:Hv.
    + destruct (Hvtk Hv) as (data & t & Hd). rewrite <- Hin in Hd.
      rewrite (copy2_ok _ _ _ _ _ Hd) by (rewrite ?parent_snoc, ?Hout; auto with fs).
      eexists; split_and!; [done| | |].
      * cbn [nodes]. by rewrite lookup_insert_eq, <- Hin, Hd.
      * intros k Hk. cbn [nodes]. by rewrite lookup_insert_ne.
      * unfold log_writes at 1. cbn [writes]. rewrite log_writes_append.
        rewrite decide_False by (cbn; auto with fs). apply app_nil_r.
    + eexists; split_and!; done.
Qed.

(** One iteration of the copy loop keeps the invariant. *)
Lemma copy_entry_step done x s :
  copy_inv done s -> x ∈ entries -> x ∉ done ->
  exists s', copy_entry I O L 0 x s = Ok tt s' /\ copy_inv (done ++ [x]) s'.
Proof.
  intros Hinv Hx Hnd. destruct (HE x Hx) as [Hc Hcp].
  pose proof Hinv as (Hk & HOs & Hy & HLs & Hcount).
  destruct (copy_mkdir_step done s Hinv) as (s1 & Hm & HO1 & Hk1 & _ & Hw1).
  unfold copy_entry. rewrite !join_path_component by done.
  rewrite <- io_bind_assoc. rewrite (io_bind_ok _ _ _ _ _ Hm).
  assert (Hin1 : nodes s1 !! (I ++ [x]) = nodes s0 !! (I ++ [x])).
  { rewrite Hk1 by auto with fs. apply Hk; auto with fs. }
  assert (Hout1 : nodes s1 !! (O ++ [x]) = None).
  { rewrite Hk1 by auto with fs. specialize (Hy x). by rewrite decide_False in Hy. }
  destruct (copy_file_step x s1 Hcp HO1 Hin1 Hout1) as (s2 & Hf & Hcx & Hk2 & Hw2).
  rewrite (io_bind_ok _ _ _ _ _ Hf).
  destruct HLs as (t & HLs).
  assert (HL2 : nodes s2 !! L = Some (File (if decide (done = []) then c0 else tick c0) t)).
  { rewrite Hk2 by auto with fs. rewrite Hk1 by auto with fs. done. }
  rewrite (overwrite_start_ok _ _ _ _ _ HL2).
  eexists; split; [done|]. split_and!.
  - intros k Hk0 Hky HkL. rewrite lookup_stamp, decide_False by done.
    rewrite Hk2, Hk1 by auto. by apply Hk.
  - rewrite (decide_False (P := done ++ [x] = [])) by (by destruct done).
    rewrite lookup_stamp, (decide_False (P := L = O)) by auto with fs.
    rewrite Hk2; auto with fs.
  - intros y. rewrite lookup_stamp, (decide_False (P := L = O ++ [y])) by auto with fs.
    destruct (decide (y = x)) as [->|Hyx].
    + rewrite decide_True by set_solver. done.
    + rewrite Hk2 by (intros ?%snoc_inj; congruence). rewrite Hk1 by auto with fs.
      specialize (Hy y). destruct (decide (y ∈ done)).
      * by rewrite decide_True by set_solver.
      * by rewrite decide_False by set_solver.
  - eexists. rewrite lookup_stamp, decide_True by done.
    rewrite (decide_False (P := done ++ [x] = [])) by (by destruct done).
    destruct (decide (done = [])); [done|]. exact (f_equal (fun c => Some (File c (FS.tick s2 (S (clock s2))))) (tick_tick c0)).
  - rewrite log_writes_stamp, decide_True, Hw2 by done.
    unfold log_writes at 1. rewrite Hw1. fold (log_writes L s).
    rewrite length_app, Hcount, length_app. simpl. lia.
Qed.

(** The copy loop runs over all the entries and ends in [copy_inv]. *)
Lemma copy_loop_run :
  exists s1, for_each entries (copy_entry I O L 0) s0 = Ok tt s1 /\ copy_inv entries s1.
Proof.
  apply (for_each_ok_prefix copy_inv entries (copy_entry I O L 0)); [|apply copy_inv_init].
  intros done x rest s Heq Hinv. apply copy_entry_step; [done|rewrite Heq; set_solver|].
  pose proof (list_names_nodup (nodes s0) I) as Hnd. fold entries in Hnd.
  rewrite Heq in Hnd. intros Hx.
  apply NoDup_app in Hnd as (_ & Hdis & _). apply (Hdis x); set_solver.
Qed.

Lemma copy_pass_unfold (a : args) :
  input_folder a = I -> output_folder a = O -> log_path a = L -> nodes s0 !! I = Some Dir ->
  copy_pass a s0 = for_each entries (copy_entry I O L 0) s0.
Proof.
  intros HIa HOa HLa HI. unfold copy_pass. rewrite HIa, HOa, HLa.
  unfold listdir, io_bind at 1. by rewrite HI.
Qed.

(** C1: The copy pass runs through: it converts each NIfTI entry of [I]
    into [O] (read and re-encoded), copies each VTK entry as is, skips the
    others, leaves every other path but the log as it was, and writes the
    log once per entry of [I], leaving ["0"] at its start. *)
Theorem copy_pass_result (a : args) :
  input_folder a = I -> output_folder a = O -> log_path a = L ->
  nodes s0 !! I = Some Dir ->
  exists s1, copy_pass a s0 = Ok tt s1 /\
    (forall y, if decide (y ∈ entries) then copied y (nodes s1 !! (O ++ [y]))
               else nodes s1 !! (O ++ [y]) = None) /\
    (forall k, k <> O -> (forall y, k <> O ++ [y]) -> k <> L -> nodes s1 !! k = nodes s0 !! k) /\
    (exists t, nodes s1 !! L = Some (File (if decide (entries = []) then c0 else tick c0) t)) /\
    length (log_writes L s1) = length (log_writes L s0) + length entries.
Proof.
  intros HIa HOa HLa HI. rewrite copy_pass_unfold by done.
  destruct copy_loop_run as (s1 & Hrun & (Hk & _ & Hy & HLs & Hcount)).
  exists s1. split_and!; assumption.
Qed.

End CopyPass.

(** ** The rename pass

    For any order [os.listdir] returns, when the new names are proper
    names, no two entries get the same new name and no entry is renamed to
    the name of another entry, the rename pass completes and every path
    below [O] ends up where [renamed_view] says: [O/new_name(x)/r] holds
    what [O/x/r] held, a renamed [O/x] is gone, and the rest is as it was. *)
Section RenamePass.
Context `{Listing}.
Variables (O : path) (F R : string) (s : fs).

Definition names : list string := list_names (nodes s) O.

Definition new_name (x : string) : string :=
  if Str.contains F x then Str.replace F R x else x.

(** The entry, among [l], renamed to [y]. *)
Fixpoint origin (l : list string) (y : string) : option string :=
  match l with
  | [] => None
  | x :: l' => if String.eqb (new_name x) y then Some x else origin l' y
  end.

Definition renamed_view (done : list string) (k : path) : option node :=
  match under O k with
  | Some (y, r) =>
      match origin done y with
      | Some x => nodes s !! (O ++ x :: r)
      | None => if decide (y ∈ done) then None else nodes s !! k
      end
  | None => nodes s !! k
  end.

Lemma origin_Some l y x : origin l y = Some x -> x ∈ l /\ new_name x = y.
Proof.
  induction l as [|z l IH]; [done|]. cbn [origin].
  destruct (String.eqb_spec (new_name z) y) as [<-|]; [intros [= ->]; set_solver|].
  intros (? & ?)%IH. set_solver.
Qed.

Lemma origin_app l x y :
  origin (l ++ [x]) y =
    match origin l y with
    | Some z => Some z
    | None => if String.eqb (new_name x) y then Some x else None
    end.
Proof.
  induction l as [|z l IH]; [done|]. cbn [origin app].
  by destruct (String.eqb (new_name z) y).
Qed.

Hypothesis HOdir : nodes s !! O = Some Dir.
Hypothesis Hnames : forall x, x ∈ names ->
  is_component x = true /\ is_component (new_name x) = true.
Hypothesis Hinj : forall x y, x ∈ names -> y ∈ names -> new_name x = new_name y -> x = y.
Hypothesis Hfresh : forall x, x ∈ names -> new_name x ∈ names -> new_name x = x.

Definition rename_inv (done : list string) (st : fs) : Prop :=
  forall k, nodes st !! k = renamed_view done k.

Lemma rename_inv_init : rename_inv [] s.
Proof. intros k. unfold renamed_view. by destruct (under O k) as [[y r]|]. Qed.

(** No entry already handled was renamed onto an entry not yet handled. *)
Lemma origin_pending done x rest :
  names = done ++ x :: rest -> origin done x = None.
Proof.
  intros Hn. destruct (origin done x) as [z|] eqn:Ho; [|done].
  apply origin_Some in Ho as [Hz Hzx].
  pose proof (list_names_nodup (nodes s) O) as Hnd. fold names in Hnd. rewrite Hn in Hnd.
  apply NoDup_app in Hnd as (_ & Hdis & _).
  assert (Hzn : z ∈ names) by (rewrite Hn; set_solver).
  assert (Hxn : x ∈ names) by (rewrite Hn; set_solver).
  rewrite <- Hzx in Hxn. rewrite (Hfresh z Hzn Hxn) in Hzx. subst z.
  exfalso. eapply Hdis; [exact Hz|set_solver].
Qed.

(** The view does not change when the entry handled keeps its name. *)
Lemma renamed_view_keep done x rest k :
  names = done ++ x :: rest -> new_name x = x ->
  renamed_view (done ++ [x]) k = renamed_view done k.
Proof.
  intros Hn Hx. unfold renamed_view.
  destruct (under O k) as [[y r]|] eqn:Hu; [|done]. rewrite origin_app, Hx.
  destruct (String.eqb_spec x y) as [<-|Hxy].
  - rewrite (origin_pending done x rest Hn). apply under_Some in Hu as ->.
    rewrite decide_False; [done|]. intros Hin.
    pose proof (list_names_nodup (nodes s) O) as Hnd. fold names in Hnd. rewrite Hn in Hnd.
    apply NoDup_app in Hnd as (_ & Hdis & _). eapply Hdis; [exact Hin|set_solver].
  - destruct (origin done y); [done|].
    destruct (decide (y ∈ done)) as [Hy|Hy].
    + by rewrite (decide_True (P := y ∈ done ++ [x])) by set_solver.
    + by rewrite (decide_False (P := y ∈ done ++ [x])) by set_solver.
Qed.

Lemma names_spec x : x ∈ names <-> is_Some (nodes s !! (O ++ [x])).
Proof. apply list_names_spec. Qed.

Lemma pending_not_done done x rest : names = done ++ x :: rest -> x ∉ done.
Proof.
  intros Hn Hin. pose proof (list_names_nodup (nodes s) O) as Hnd.
  fold names in Hnd. rewrite Hn in Hnd.
  apply NoDup_app in Hnd as (_ & Hdis & _). eapply Hdis; [exact Hin|set_solver].
Qed.

(** The view of a path under an entry renamed away, or renamed to. *)
Lemma renamed_view_src done x r :
  origin done x = None -> x ∉ done -> renamed_view done (O ++ x :: r) = nodes s !! (O ++ x :: r).
Proof.
  intros Ho Hd. unfold renamed_view. rewrite (proj2 (under_Some O _ x r) eq_refl), Ho.
  by rewrite decide_False.
Qed.

(** One iteration of the rename loop keeps the invariant. *)
Lemma rename_entry_step done x rest st :
  names = done ++ x :: rest -> rename_inv done st ->
  exists st', rename_entry O F R x st = Ok tt st' /\ rename_inv (done ++ [x]) st'.
Proof.
  intros Hn Hinv.
  assert (Hx : x ∈ names) by (rewrite Hn; set_solver).
  destruct (Hnames x Hx) as [Hcx Hcn].
  pose proof (origin_pending done x rest Hn) as Hox.
  pose proof (pending_not_done done x rest Hn) as Hxd.
  assert (Hsrc : forall r, nodes st !! (O ++ x :: r) = nodes s !! (O ++ x :: r)).
  { intros r. rewrite Hinv. by apply renamed_view_src. }
  destruct (proj1 (names_spec x) Hx) as [n Hnx].
  unfold rename_entry.
  destruct (decide (new_name x = x)) as [Hkeep|Hmove].
  - exists st. split.
    + unfold new_name in Hkeep, Hcn. destruct (Str.contains F x); [|done].
      rewrite !join_path_component, Hkeep by done.
      unfold rename. rewrite Hsrc, Hnx. by rewrite bool_decide_true.
    + intros k. rewrite (renamed_view_keep done x rest k Hn Hkeep). apply Hinv.
  - assert (Hc : Str.contains F x = true)
      by (unfold new_name in Hmove; by destruct (Str.contains F x)).
    set (x' := new_name x) in *.
    assert (Hx'n : x' ∉ names) by (intros Hin; by apply Hmove, Hfresh).
    assert (Hx'd : x' ∉ done) by (intros Hin; apply Hx'n; rewrite Hn; set_solver).
    assert (Hox' : origin done x' = None).
    { destruct (origin done x') as [z|] eqn:Hz; [|done].
      apply origin_Some in Hz as [Hzd Hzx]. assert (z = x) as ->; [|done].
      apply Hinj; [rewrite Hn; set_solver|done|done]. }
    assert (Hdst : nodes st !! (O ++ [x']) = None).
    { rewrite Hinv, renamed_view_src by done. apply eq_None_not_Some.
      by intros ?%names_spec. }
    assert (HOst : nodes st !! parent (O ++ [x']) = Some Dir).
    { rewrite parent_snoc, Hinv. unfold renamed_view. by rewrite under_self. }
    assert (Hpre : ¬ (O ++ [x]) `prefix_of` (O ++ [x'])).
    { intros [r Hr]%prefix_snoc_iff. apply app_inv_head in Hr.
      injection Hr as Hr. by apply Hmove. }
    assert (Hx'eq : Str.replace F R x = x') by (unfold x', new_name; by rewrite Hc).
    rewrite Hc. cbv zeta. rewrite Hx'eq, !join_path_component by done.
    rewrite (rename_ok _ _ n) by (rewrite ?(Hsrc []); done).
    eexists; split; [done|]. intros k. cbn [nodes]. rewrite lookup_move_tree.
    case_bool_decide as Hk'.
    + apply prefix_snoc_iff in Hk' as [r ->].
      rewrite drop_snoc_cons, <- app_assoc. cbn [app]. rewrite Hsrc.
      unfold renamed_view. rewrite (proj2 (under_Some O _ x' r) eq_refl), origin_app, Hox'.
      subst x'. by rewrite String.eqb_refl.
    + case_bool_decide as Hk''.
      * apply prefix_snoc_iff in Hk'' as [r ->].
        unfold renamed_view. rewrite (proj2 (under_Some O _ x r) eq_refl), origin_app, Hox.
        destruct (String.eqb_spec (new_name x) x); [done|].
        by rewrite (decide_True (P := x ∈ done ++ [x])) by set_solver.
      * rewrite Hinv. unfold renamed_view.
        destruct (under O k) as [[y r]|] eqn:Hu; [|done].
        apply under_Some in Hu as ->.
        assert (y <> x) by (intros ->; apply Hk''; apply prefix_snoc_iff; eauto).
        assert (y <> x') by (intros ->; apply Hk'; apply prefix_snoc_iff; eauto).
        rewrite origin_app. destruct (origin done y); [done|].
        destruct (String.eqb_spec (new_name x) y); [subst x'; congruence|].
        destruct (decide (y ∈ done)) as [Hy|Hy].
        -- by rewrite (decide_True (P := y ∈ done ++ [x])) by set_solver.
        -- by rewrite (decide_False (P := y ∈ done ++ [x])) by set_solver.
Qed.

(** The rename loop runs over all the names and ends in [rename_inv]. *)
Lemma rename_loop_run :
  exists s', for_each names (rename_entry O F R) s = Ok tt s' /\ rename_inv names s'.
Proof.
  apply (for_each_ok_prefix rename_inv names (rename_entry O F R)); [|apply rename_inv_init].
  intros done x rest st Hn Hinv. by apply (rename_entry_step done x rest st).
Qed.

Lemma rename_pass_unfold (a : args) :
  output_folder a = O -> replace a = F -> by_ a = R ->
  rename_pass a s = for_each names (rename_entry O F R) s.
Proof.
  intros HOa HFa HRa. unfold rename_pass. rewrite HOa, HFa, HRa.
  unfold listdir, io_bind at 1. by rewrite HOdir.
Qed.

(** C2: The rename pass completes, and each path is where [renamed_view] puts
    it. *)
Theorem rename_pass_result (a : args) :
  output_folder a = O -> replace a = F -> by_ a = R ->
  exists s', rename_pass a s = Ok tt s' /\ forall k, nodes s' !! k = renamed_view names k.
Proof.
  intros HOa HFa HRa. rewrite rename_pass_unfold by done. apply rename_loop_run.
Qed.

End RenamePass.

(** ** Whole runs *)

Lemma list_names_empty `{Listing} m d :
  (forall x, m !! (d ++ [x]) = None) -> list_names m d = [].
Proof.
  intros Hnone. destruct (list_names m d) as [|y l] eqn:E; [done|].
  assert (Hy : y ∈ list_names m d) by (rewrite E; set_solver).
  apply list_names_spec in Hy. by rewrite Hnone in Hy.
Qed.

(** Two maps with the same entries in [d] list as many names. *)
Lemma list_names_length `{Listing} m1 m2 d :
  (forall x, is_Some (m1 !! (d ++ [x])) <-> is_Some (m2 !! (d ++ [x]))) ->
  length (list_names m1 d) = length (list_names m2 d).
Proof.
  intros Hiff. apply Permutation_length, NoDup_Permutation; try apply list_names_nodup.
  intros x. rewrite !list_names_spec. apply Hiff.
Qed.

(** C7: When the input folder is empty and the output folder does not exist,
    the copy loop never creates it, and [os.listdir(output_folder)] at
    line 56 raises [FileNotFoundError]. *)
Theorem main_empty_input_fails `{Listing} `{ImageIO} (a : args) (s : fs) :
  String.eqb (overwrite a) "False" = true ->
  nodes s !! input_folder a = Some Dir ->
  (forall x, nodes s !! (input_folder a ++ [x]) = None) ->
  nodes s !! output_folder a = None ->
  nodes s !! parent (log_path a) = Some Dir -> nodes s !! log_path a <> Some Dir ->
  parent (log_path a) <> input_folder a -> log_path a <> output_folder a ->
  exists s', main a s = Err (FileNotFoundError (output_folder a)) s'.
Proof.
  intros Hov HI Hempty HO Hpar Hnd HLI HLO.
  unfold main, copy_phase. rewrite !io_bind_assoc. unfold io_bind at 1.
  rewrite write_file_ok by done. rewrite Hov. unfold copy_pass.
  set (s1 := stamp (log_path a) "" s).
  assert (Hk : forall k, k <> log_path a -> nodes s1 !! k = nodes s !! k)
    by (intros k Hk; unfold s1; rewrite lookup_stamp; by rewrite decide_False).
  unfold io_bind at 1 2. unfold listdir at 1.
  rewrite Hk by (intros E; rewrite <- E in Hnd; congruence). rewrite HI.
  rewrite list_names_empty.
  - cbn [for_each io_ret]. unfold rename_pass, io_bind, listdir.
    rewrite Hk, HO by done. eauto.
  - intros x. rewrite Hk; [apply Hempty|]. intros E. apply HLI. rewrite <- E. apply parent_snoc.
Qed.

(** With overwrite anything but ["False"] the copy pass is skipped:
    [main] truncates the log and runs the rename pass on the output folder
    as it finds it; the input folder is never read. *)
Theorem main_overwrite_skips_copy `{Listing} `{ImageIO} (a : args) (s : fs) :
  String.eqb (overwrite a) "False" = false ->
  nodes s !! parent (log_path a) = Some Dir -> nodes s !! log_path a <> Some Dir ->
  main a s = rename_pass a (stamp (log_path a) "" s).
Proof.
  intros Hov Hpar Hnd. unfold main, copy_phase. rewrite io_bind_assoc.
  unfold io_bind at 1. rewrite write_file_ok by done. by rewrite Hov.
Qed.

Lemma lookup_stamp_ne p data w k :
  k <> p -> nodes (stamp p data w) !! k = nodes w !! k.
Proof. intros Hk. rewrite lookup_stamp. by rewrite decide_False by congruence. Qed.

Lemma prefix_snoc_ne (d k : path) x : ¬ d `prefix_of` k -> d ++ [x] <> k.
Proof. intros Hd <-. apply Hd. by exists [x]. Qed.

Lemma copyable_stamp `{ImageIO} I L c s x :
  ¬ I `prefix_of` L -> copyable I (stamp L c s) x <-> copyable I s x.
Proof. intros HIL. unfold copyable. by rewrite lookup_stamp_ne by by apply prefix_snoc_ne. Qed.

Section CopyPhase.
Context `{Listing} `{ImageIO} (a : args) (s : fs).
Hypothesis Hov : String.eqb (overwrite a) "False" = true.
Hypothesis HI : nodes s !! input_folder a = Some Dir.
Hypothesis HOf : forall y, nodes s !! (output_folder a ++ [y]) = None.
Hypothesis HO : (nodes s !! output_folder a = None /\ output_folder a <> [] /\
     nodes s !! parent (output_folder a) = Some Dir) \/ nodes s !! output_folder a = Some Dir.
Hypothesis Hpar : nodes s !! parent (log_path a) = Some Dir.
Hypothesis Hnd : nodes s !! log_path a <> Some Dir.
Hypothesis HIO : ¬ input_folder a `prefix_of` output_folder a.
Hypothesis HOI : ¬ output_folder a `prefix_of` input_folder a.
Hypothesis HIL : ¬ input_folder a `prefix_of` log_path a.
Hypothesis HOL : ¬ output_folder a `prefix_of` log_path a.
Hypothesis HE : forall x, x ∈ list_names (nodes s) (input_folder a) ->
  is_component x = true /\ copyable (input_folder a) s x.

(** The copy phase runs through and ends in the copy loop's invariant,
    counted from the truncated log. *)
Lemma copy_phase_run :
  let s0 := stamp (log_path a) "" s in
  exists s1, copy_phase a s = Ok tt s1 /\
    copy_inv (input_folder a) (output_folder a) (log_path a) s0 ""
             (entries (input_folder a) s0) s1.
Proof.
  intros s0.
  set (I := input_folder a) in *. set (O := output_folder a) in *. set (L := log_path a) in *.
  assert (HLO : L <> O) by (intros E; apply HOL; by rewrite E).
  assert (HLI : I <> L) by (intros <-; by apply HIL).
  assert (Hsame : forall x, is_Some (nodes s0 !! (I ++ [x])) <-> is_Some (nodes s !! (I ++ [x])))
    by (intros x; unfold s0; by rewrite lookup_stamp_ne by by apply prefix_snoc_ne).
  assert (HI0 : nodes s0 !! I = Some Dir) by (unfold s0; by rewrite lookup_stamp_ne by congruence).
  destruct (copy_loop_run I O L s0 "" (FS.tick s (S (clock s)))) as (s1 & Hrun & Hinv); try done.
  - intros y. unfold s0. rewrite lookup_stamp_ne by (intros E; apply HOL; rewrite <- E; by exists [y]).
    apply HOf.
  - unfold s0. rewrite !(lookup_stamp_ne L) by congruence.
    destruct HO as [(HOn & HOne & HOp)|HOd]; [left|by right].
    rewrite lookup_stamp_ne by (intros E; rewrite E in HOp; congruence). done.
  - unfold s0. rewrite lookup_stamp. by rewrite decide_True.
  - intros x Hx. unfold entries in Hx. unfold s0. rewrite copyable_stamp by done.
    apply HE. apply list_names_spec. apply Hsame, list_names_spec, Hx.
  - exists s1. unfold copy_phase. rewrite (io_bind_ok _ _ s tt s0) by (by apply write_file_ok).
    by rewrite Hov, (copy_pass_unfold I O L s0 a).
Qed.

Lemma entries_stamp_length :
  length (entries (input_folder a) (stamp (log_path a) "" s)) =
    length (list_names (nodes s) (input_folder a)).
Proof.
  apply list_names_length. intros x.
  by rewrite lookup_stamp_ne by by apply prefix_snoc_ne.
Qed.

(** C3: The signal file: [index += 1] sits after the copy loop (line 53), so
    every [f.write(str(index))] of the loop writes ["0"] at the start of the
    log file opened in ['r+'] mode.  After the copy phase the log holds
    ["0"] (or nothing when the input folder is empty) and was written once
    by the truncation and once per entry of the input folder. *)
Theorem copy_phase_log :
  exists s1, copy_phase a s = Ok tt s1 /\
    (exists t, nodes s1 !! log_path a =
       Some (File (if decide (list_names (nodes s) (input_folder a) = []) then "" else "0") t)) /\
    length (log_writes (log_path a) s1) =
      length (log_writes (log_path a) s) + 1 + length (list_names (nodes s) (input_folder a)).
Proof.
  destruct copy_phase_run as (s1 & Hrun & (_ & _ & _ & [t HLs] & Hcount)).
  pose proof entries_stamp_length as Hlen.
  exists s1. split; [done|]. split.
  - exists t. rewrite HLs.
    destruct (entries _ _), (list_names (nodes s) (input_folder a)); simpl in Hlen; try lia; done.
  - rewrite Hcount, Hlen, log_writes_stamp, decide_True by done. rewrite length_app. simpl. lia.
Qed.
End CopyPhase.


(** ** Time only moves forward

    Every write of a run, to the log file or elsewhere, is stamped later
    than the run's start and later than the write before it, whether the
    run completes or raises: the log file's modification time changes at
    each [f.write], which the widget's progress polling relies on. *)

Lemma within_copy_entry `{Listing} `{ImageIO} I O L index item :
  within clock_ext (copy_entry I O L index item).
Proof. unfold copy_entry. within_ops. Qed.

Lemma within_rename_entry O f r item : within clock_ext (rename_entry O f r item).
Proof. unfold rename_entry. within_ops. Qed.

#[export] Hint Resolve within_copy_entry within_rename_entry : fs.

(** A whole run, whether it completes or raises, only extends the
    write trace with writes stamped after its start, in strictly
    increasing order, and never moves the clock back. *)
Theorem main_clock_ext `{Listing} `{ImageIO} (a : args) (s : fs) :
  clock_ext s (final_state (main a s)).
Proof.
  revert s. change (within clock_ext (main a)).
  unfold main, copy_phase, copy_pass, rename_pass. within_ops.
Qed.

Lemma wf_copy_entry `{Listing} `{ImageIO} I O L index item :
  within (preserves wf) (copy_entry I O L index item).
Proof. unfold copy_entry. within_ops_by (preserves wf). Qed.

Lemma wf_rename_entry O f r item : within (preserves wf) (rename_entry O f r item).
Proof. unfold rename_entry. within_ops_by (preserves wf). Qed.

#[export] Hint Resolve wf_copy_entry wf_rename_entry : fs.

(** A whole run, whether it completes or raises, keeps the file
    system well formed: every path but the root still has a directory as
    its parent. *)
Theorem main_wf `{Listing} `{ImageIO} (a : args) (s : fs) :
  wf s -> wf (final_state (main a s)).
Proof.
  revert s. change (within (preserves wf) (main a)).
  unfold main, copy_phase, copy_pass, rename_pass. within_ops_by (preserves wf).
Qed.

(** ** Confinement

    [confined O L w w']: from [w] to [w'] nothing changed outside the
    folder [O] but the file [L]. *)
Definition confined (O L : path) (w w' : fs) : Prop :=
  forall k, ¬ O `prefix_of` k -> k <> L -> nodes w' !! k = nodes w !! k.

#[export] Instance confined_preorder O L : PreOrder (confined O L).
Proof.
  split; [by intros w k|]. intros w1 w2 w3 H12 H23 k Hk HL. by rewrite H23, H12.
Qed.

Lemma confined_rename O L src dst :
  O `prefix_of` src -> O `prefix_of` dst -> within (confined O L) (rename src dst).
Proof.
  intros Hs Hd w k Hk HL. unfold rename.
  repeat (first [case_bool_decide | case_match]); cbn [final_state nodes]; try reflexivity.
  all: rewrite lookup_move_tree, !bool_decide_false; [reflexivity| |];
    intros Hp; apply Hk; first [by trans src | by trans dst].
Qed.

Lemma confined_write_log O L data : within (confined O L) (write_file L data).
Proof.
  intros w k Hk HL. unfold write_file, io_bind, check_parent.
  destruct (nodes w !! parent L) as [[]|]; [done| |done].
  destruct (nodes w !! L) as [[]|]; try done; by apply lookup_stamp_ne.
Qed.

(** The rename loop's body, on a proper name whose new name is proper. *)
Lemma confined_rename_entry O L f r x :
  is_component x = true -> is_component (new_name f r x) = true ->
  within (confined O L) (rename_entry O f r x).
Proof.
  intros Hx Hn. unfold rename_entry. unfold new_name in Hn.
  destruct (Str.contains f x); [|apply (within_ret (confined O L))].
  rewrite !join_path_component by done. apply confined_rename; by apply prefix_app_r.
Qed.

Lemma write_file_Ok_inv p data w u w' :
  write_file p data w = Ok u w' -> w' = stamp p data w.
Proof. unfold write_file, io_bind, check_parent. repeat case_match; congruence. Qed.

(** The rename pass stays in the output folder when every entry there, and
    its new name, is a single path component. *)
Lemma confined_rename_pass `{Listing} a L w :
  (forall x, x ∈ list_names (nodes w) (output_folder a) ->
     is_component x = true /\ is_component (new_name (replace a) (by_ a) x) = true) ->
  confined (output_folder a) L w (final_state (rename_pass a w)).
Proof.
  intros Hok. unfold rename_pass, io_bind, listdir.
  destruct (nodes w !! output_folder a) as [[]|]; try reflexivity.
  refine (within_for_each_in (confined (output_folder a) L) _ _ _ w).
  intros x Hx. apply confined_rename_entry; apply Hok, Hx.
Qed.

(** C32: with [overwrite] set, a run of [main] changes nothing outside the
    output folder but the log file, provided the log is outside the folder
    and every entry of the folder, and its new name, is a single path
    component (no "/" and no "..").  The error paths are included: a
    failing run leaves the same guarantee. *)
Theorem main_overwrite_confined `{Listing} `{ImageIO} (a : args) (s : fs) :
  String.eqb (overwrite a) "False" = false ->
  ¬ output_folder a `prefix_of` log_path a ->
  (forall x, x ∈ list_names (nodes s) (output_folder a) ->
     is_component x = true /\ is_component (new_name (replace a) (by_ a) x) = true) ->
  confined (output_folder a) (log_path a) s (final_state (main a s)).
Proof.
  intros Hov HOL Hok. unfold main, copy_phase. rewrite io_bind_assoc. unfold io_bind at 1.
  pose proof (confined_write_log (output_folder a) (log_path a) "" s) as Hw.
  destruct (write_file (log_path a) "" s) as [u s1|e s1] eqn:E; [|exact Hw].
  cbn in Hw. rewrite Hov. etrans; [exact Hw|]. apply confined_rename_pass.
  apply write_file_Ok_inv in E as ->. intros x Hx. apply Hok.
  apply list_names_spec in Hx. apply list_names_spec.
  rewrite lookup_stamp_ne in Hx; [done|]. intros E. apply HOL. rewrite <- E. by apply prefix_app_r.
Qed.

(** ** Concrete runs

    A small tree with the input folder [in], the output folder [out] and the
    log file [log.txt], listed by [map_listing] and read and written by
    [tagged_codec]. *)

Definition tree (entries : list (path * node)) : fs :=
  {| nodes := list_to_map (([], Dir) :: entries); clock := 1; writes := []; FS.tick := fun n => n |}.

Definition scenario_fs : fs :=
  tree [(["in"], Dir); (["in"; "scan.nii"], File "ITKabc" 1);
        (["in"; "mesh.vtk"], File "m" 1); (["in"; "notes.txt"], File "t" 1);
        (["log.txt"], File "old" 1)].

(** A second run's output folder, already filled, beside the log. *)
Definition rerun_fs : fs :=
  tree [(["out"], Dir); (["out"; "scan.nii"], File "ITKabc" 2);
        (["out"; "mesh.vtk"], File "m" 2); (["log.txt"], File "old" 1)].

Definition scenario_args (ov : string) (f r : string) : args :=
  {| input_folder := ["in"]; replace := f; by_ := r; output_folder := ["out"];
     overwrite := ov; log_path := ["log.txt"] |}.

(** The run of the specification's example: the NIfTI image is decoded and
    re-encoded under [out] and renamed, the VTK mesh is copied as is, the
    text file is skipped, and the log ends holding ["0"]. *)
Example main_scenario :
  exists s1, main (scenario_args "False" "scan" "study") scenario_fs = Ok tt s1 /\
    read_file ["out"; "study.nii"] s1 = Ok "ITKabc" s1 /\
    read_file ["out"; "mesh.vtk"] s1 = Ok "m" s1 /\
    read_file ["out"; "scan.nii"] s1 = Err (FileNotFoundError ["out"; "scan.nii"]) s1 /\
    read_file ["out"; "notes.txt"] s1 = Err (FileNotFoundError ["out"; "notes.txt"]) s1 /\
    read_file ["log.txt"] s1 = Ok "0" s1 /\
    length (log_writes ["log.txt"] s1) = 4.
Proof. eexists. split; [vm_compute; reflexivity|]. vm_compute. repeat split. Qed.

(** ** What one rename does *)

Lemma snoc_prefix_snoc (d : path) x y : (d ++ [y]) `prefix_of` (d ++ [x]) -> x = y.
Proof.
  intros (r & E)%prefix_snoc_iff. apply app_inv_head in E. by injection E.
Qed.

(** The rename of an entry to a name it does not have, as [rename_entry]
    runs it, in a folder holding the entry as a file. *)
Lemma rename_entry_file O f r x d t y w :
  is_component x = true -> is_component y = true -> Str.contains f x = true ->
  Str.replace f r x = y -> x <> y ->
  nodes w !! O = Some Dir -> nodes w !! (O ++ [x]) = Some (File d t) ->
  nodes w !! (O ++ [y]) <> Some Dir ->
  rename_entry O f r x w = Ok tt {| nodes := move_tree (O ++ [x]) (O ++ [y]) (nodes w);
                                     clock := clock w; writes := writes w; FS.tick := FS.tick w |}.
Proof.
  intros Hx Hy Hc Hr Hxy HO Hsrc Hdst. unfold rename_entry. rewrite Hc, Hr.
  rewrite !join_path_component by done. unfold rename. rewrite Hsrc.
  rewrite bool_decide_false by (intros ?%snoc_inj; congruence).
  rewrite parent_snoc, HO.
  destruct (nodes w !! (O ++ [y])) as [[]|]; [done|congruence|done].
Qed.

Lemma lookup_rename_src O x y m :
  x <> y -> move_tree (O ++ [x]) (O ++ [y]) m !! (O ++ [x]) = None.
Proof.
  intros Hxy. rewrite lookup_move_tree.
  rewrite bool_decide_false by (intros ?%snoc_prefix_snoc; congruence).
  by rewrite bool_decide_true.
Qed.

Lemma lookup_rename_dst O x y m :
  move_tree (O ++ [x]) (O ++ [y]) m !! (O ++ [y]) = m !! (O ++ [x]).
Proof. rewrite lookup_move_tree, bool_decide_true by done. by rewrite drop_all, app_nil_r. Qed.

(** C8: [os.rename] replaces an existing destination without a word: when
    the new name of a file of the output folder is the name of another
    file there, [rename_entry] succeeds, the file takes that name and the
    data the other file held is gone; nothing outside the two names
    changes. *)
Theorem rename_entry_overwrites O f r x y dx tx dy ty w :
  is_component x = true -> is_component y = true -> Str.contains f x = true ->
  Str.replace f r x = y -> x <> y ->
  nodes w !! O = Some Dir -> nodes w !! (O ++ [x]) = Some (File dx tx) ->
  nodes w !! (O ++ [y]) = Some (File dy ty) ->
  exists w', rename_entry O f r x w = Ok tt w' /\
    nodes w' !! (O ++ [y]) = Some (File dx tx) /\ nodes w' !! (O ++ [x]) = None /\
    (forall k, ¬ (O ++ [x]) `prefix_of` k -> ¬ (O ++ [y]) `prefix_of` k -> nodes w' !! k = nodes w !! k).
Proof.
  intros Hx Hy Hc Hr Hxy HO Hsrc Hdst.
  rewrite (rename_entry_file O f r x dx tx y w) by (done || congruence).
  eexists; split_and!; [reflexivity| | |]; cbn [nodes].
  - by rewrite lookup_rename_dst.
  - by apply lookup_rename_src.
  - intros k Hk1 Hk2. rewrite lookup_move_tree. by rewrite !bool_decide_false.
Qed.

(** C30: The [by] text is not checked: when the new name of a file is
    [../z], [rename_entry] moves the file out of the output folder, to
    [z] in the folder above it. *)
Theorem rename_entry_escapes O f r x z d t w :
  is_component x = true -> is_component z = true -> Str.contains f x = true ->
  Str.replace f r x = "../" +:+ z -> O <> [] ->
  nodes w !! O = Some Dir -> nodes w !! (O ++ [x]) = Some (File d t) ->
  nodes w !! removelast O = Some Dir -> nodes w !! (removelast O ++ [z]) = None ->
  exists w', rename_entry O f r x w = Ok tt w' /\
    nodes w' !! (removelast O ++ [z]) = Some (File d t) /\ nodes w' !! (O ++ [x]) = None.
Proof.
  intros Hx Hz Hc Hr HOne HO Hsrc HP Hdst. unfold rename_entry. rewrite Hc, Hr.
  rewrite join_path_component, join_path_dotdot by done.
  destruct (exists_last HOne) as (P & o & ->). rewrite removelast_last in HP, Hdst |- *.
  assert (Hne : ¬ (P ++ [o] ++ [x]) `prefix_of` (P ++ [z])).
  { intros Hp%prefix_length. rewrite !length_app in Hp. simpl in Hp. lia. }
  rewrite <- app_assoc in Hsrc |- *.
  rewrite (rename_ok _ _ (File d t)) by (rewrite ?parent_snoc; done).
  eexists; split_and!; [reflexivity| |]; cbn [nodes]; rewrite lookup_move_tree.
  - rewrite bool_decide_true by reflexivity. by rewrite drop_all, app_nil_r.
  - assert (Hzo : z <> o) by (intros ->; congruence).
    rewrite bool_decide_false, bool_decide_true; [done|reflexivity|].
    intros (r' & E)%prefix_snoc_iff. apply app_inv_head in E. injection E. congruence.
Qed.

(** C9: The new name of an entry is the entry with every occurrence of the
    word replaced: cut at each occurrence of [replace] into pieces free of
    it, the name glues the same pieces with [by] (an entry without the
    word keeps its name). *)
Theorem new_name_all_occurrences f r x :
  f <> EmptyString ->
  exists pieces, x = Str.join f pieces /\
    Forall (fun p => Str.contains f p = false) pieces /\
    new_name f r x = Str.join r pieces.
Proof.
  intros Hf. unfold new_name. destruct (Str.contains f x) eqn:Hc.
  - by apply Str.replace_all_occurrences.
  - exists [x]. split_and!; [done|by constructor|done].
Qed.

(** ** Instances of the theorems

    The input folder [in] holds a NIfTI image and a text file; [out] does
    not exist; the log file exists. *)

Lemma rename_entry_overwrites_witness :
  exists w', rename_entry ["out"] "a" "b" "a"
      (tree [(["out"], Dir); (["out"; "a"], File "A" 1); (["out"; "b"], File "B" 1)]) = Ok tt w' /\
    nodes w' !! (["out"] ++ ["b"]) = Some (File "A" 1) /\ nodes w' !! (["out"] ++ ["a"]) = None /\
    (forall k, ¬ (["out"] ++ ["a"]) `prefix_of` k -> ¬ (["out"] ++ ["b"]) `prefix_of` k ->
       nodes w' !! k = nodes (tree [(["out"], Dir); (["out"; "a"], File "A" 1); (["out"; "b"], File "B" 1)]) !! k).
Proof.
  apply (rename_entry_overwrites ["out"] "a" "b" "a" "b" "A" 1 "B" 1);
    try (vm_compute; reflexivity). discriminate.
Defined.

Lemma rename_entry_escapes_witness :
  exists w', rename_entry ["data"; "out"] "scan" "../study" "scan.nii"
      (tree [(["data"], Dir); (["data"; "out"], Dir); (["data"; "out"; "scan.nii"], File "I" 1)]) = Ok tt w' /\
    nodes w' !! (removelast ["data"; "out"] ++ ["study.nii"]) = Some (File "I" 1) /\
    nodes w' !! (["data"; "out"] ++ ["scan.nii"]) = None.
Proof.
  apply (rename_entry_escapes ["data"; "out"] "scan" "../study" "scan.nii" "study.nii");
    try (vm_compute; reflexivity). discriminate.
Defined.

Lemma new_name_all_occurrences_witness :
  exists pieces, "scan_scan.nii" = Str.join "scan" pieces /\
    Forall (fun p => Str.contains "scan" p = false) pieces /\
    new_name "scan" "study" "scan_scan.nii" = Str.join "study" pieces.
Proof. apply new_name_all_occurrences. discriminate. Defined.

Definition witness_fs : fs :=
  tree [(["in"], Dir); (["in"; "scan.nii"], File "ITKabc" 1);
        (["in"; "notes.txt"], File "t" 1); (["log.txt"], File "" 1)].

Ltac entries_ok :=
  let x := fresh "x" in let Hx := fresh "Hx" in
  intros x Hx; listed_cases Hx; (split; [reflexivity|]);
  vm_compute; split; intros ?;
  first [discriminate | do 3 eexists; split; reflexivity | do 2 eexists; reflexivity].

Lemma main_wf_witness :
  wf (final_state (main (scenario_args "False" "scan" "study") scenario_fs)).
Proof. apply main_wf. apply (bool_decide_unpack _). vm_compute. reflexivity. Defined.

Lemma main_overwrite_skips_copy_witness :
  main (scenario_args "True" "scan" "study") scenario_fs =
    rename_pass (scenario_args "True" "scan" "study") (stamp ["log.txt"] "" scenario_fs).
Proof. apply main_overwrite_skips_copy; [reflexivity|reflexivity|discriminate]. Defined.

Lemma main_overwrite_confined_witness :
  confined ["out"] ["log.txt"] rerun_fs
    (final_state (main (scenario_args "True" "scan" "study") rerun_fs)).
Proof.
  apply (main_overwrite_confined (scenario_args "True" "scan" "study") rerun_fs); [reflexivity|intros [r Hr]; discriminate|].
  intros x Hx. listed_cases Hx; split; reflexivity.
Defined.

Lemma copy_pass_result_witness :
  exists s1, copy_pass (scenario_args "False" "scan" "study") (stamp ["log.txt"] "" witness_fs)
             = Ok tt s1.
Proof.
  destruct (copy_pass_result ["in"] ["out"] ["log.txt"] (stamp ["log.txt"] "" witness_fs) "" 2)
    with (a := scenario_args "False" "scan" "study") as (s1 & Hrun & _); try reflexivity.
  - intros y. rewrite lookup_stamp_ne by discriminate. revert y. unfold witness_fs, tree. no_child.
  - left. split_and!; [reflexivity|discriminate|reflexivity].
  - intros [r Hr]; discriminate.
  - intros [r Hr]; discriminate.
  - intros [r Hr]; discriminate.
  - intros [r Hr]; discriminate.
  - entries_ok.
  - by exists s1.
Defined.

Lemma copy_phase_log_witness :
  exists s1, copy_phase (scenario_args "False" "scan" "study") witness_fs = Ok tt s1 /\
    (exists t, nodes s1 !! ["log.txt"] = Some (File "0" t)) /\
    length (log_writes ["log.txt"] s1) = 3.
Proof.
  destruct (copy_phase_log (scenario_args "False" "scan" "study") witness_fs)
    as (s1 & Hrun & [t Ht] & Hn); try reflexivity.
  - unfold witness_fs, tree. no_child.
  - left. split_and!; [reflexivity|discriminate|reflexivity].
  - discriminate.
  - intros [r Hr]; discriminate.
  - intros [r Hr]; discriminate.
  - intros [r Hr]; discriminate.
  - intros [r Hr]; discriminate.
  - entries_ok.
  - exists s1. split; [done|]. split; [by exists t|]. simpl in Hn. rewrite Hn. reflexivity.
Defined.

Lemma main_empty_input_fails_witness :
  exists s', main (scenario_args "False" "scan" "study")
               (tree [(["in"], Dir); (["log.txt"], File "" 1)]) =
             Err (FileNotFoundError ["out"]) s'.
Proof.
  apply main_empty_input_fails; try reflexivity; try discriminate.
  unfold tree. no_child.
Defined.

Lemma rename_pass_result_witness :
  let s := tree [(["out"], Dir); (["out"; "scan.nii"], File "ITKabc" 1);
                 (["out"; "mesh.vtk"], File "m" 1)] in
  exists s', rename_pass (scenario_args "False" "scan" "study") s = Ok tt s'.
Proof.
  cbv zeta. destruct (rename_pass_result ["out"] "scan" "study"
    (tree [(["out"], Dir); (["out"; "scan.nii"], File "ITKabc" 1); (["out"; "mesh.vtk"], File "m" 1)]))
    with (a := scenario_args "False" "scan" "study") as (s' & Hrun & _); try reflexivity.
  - intros x Hx. listed_cases Hx; split; reflexivity.
  - intros x y Hx Hy Hxy. listed_cases Hx; listed_cases Hy; done.
  - intros x Hx Hn. listed_cases Hx; first [reflexivity | not_listed Hn].
  - by exists s'.
Defined.

End Worker.
