(* ===== verification/WorkerSpec.v ===== *)
(** * What a worker run promises, and that [main] keeps the promise

    The specification's contract for the batch transform: with overwrite
    off, the destination folder ends up holding, for each entry [x] of the
    source folder whose extension is [.nii], [.nii.gz] or [.vtk], one file
    named [x] with every occurrence of the word replaced, holding [x]
    re-encoded (images) or unchanged (meshes), and nothing else.  [dest_spec]
    states this of a file system; [main_refines_spec] shows that a run of
    [main] (src/replaceAll/replaceAll_utils/replaceAll_WSL.py, lines 16-59)
    completes and ends in a state that satisfies it, when the new names are
    proper names, distinct and never the name of another kept entry. *)

From stdpp Require Import base list strings gmap.
From S2P Require Import Prelude PyStr PosixPath FileSystem BatchTransformer.

Module WorkerSpec.
Import Path FS Worker.

(** The entries the copy pass keeps, by the extension it computes. *)
Definition kept (I : path) (x : string) : bool :=
  let e := get_file_extension (path_str (I ++ [x])) in
  is_image_ext e || String.eqb e ".vtk".

Section Spec.
Context `{Listing} `{ImageIO}.
Variables (I O : path) (F R : string) (s : fs).

Definition sources : list string := list_names (nodes s) I.

(** The abstract destination: the new name of each kept entry holds its
    conversion, no other name of [O] holds anything, and nothing lies
    deeper. *)
Definition dest_spec (w : fs) : Prop :=
  forall y,
    (forall x, x ∈ sources -> kept I x = true -> new_name F R x = y ->
       copied I O s x (nodes w !! (O ++ [y]))) /\
    ((forall x, x ∈ sources -> kept I x = true -> new_name F R x <> y) ->
       nodes w !! (O ++ [y]) = None) /\
    (forall r, r <> [] -> nodes w !! (O ++ y :: r) = None).

End Spec.

(** ** Lemmas *)

Section Lemmas.
Context `{Listing} `{ImageIO}.

Lemma copied_kept I O s x r :
  copyable I s x -> copied I O s x r -> (is_Some r <-> kept I x = true).
Proof.
  unfold copyable, copied, kept. intros [Himg Hvtk].
  destruct (is_image_ext _) eqn:Ei; simpl.
  - intros (data & t & img & t' & _ & _ & ->). split; [done|]. by eexists.
  - destruct (String.eqb _ ".vtk") eqn:Ev.
    + intros ->. destruct (Hvtk eq_refl) as (data & t & ->). split; [done|]. by eexists.
    + intros ->. split; [by intros []|done].
Qed.

Lemma copied_stamp I O L c s x r :
  ¬ I `prefix_of` L -> copied I O (stamp L c s) x r <-> copied I O s x r.
Proof. intros HIL. unfold copied. by rewrite lookup_stamp_ne by by apply prefix_snoc_ne. Qed.

Lemma entries_stamp I L c s x :
  ¬ I `prefix_of` L -> x ∈ entries I (stamp L c s) <-> x ∈ sources I s.
Proof.
  intros HIL. unfold entries, sources. rewrite !list_names_spec.
  by rewrite lookup_stamp_ne by by apply prefix_snoc_ne.
Qed.

(** Among duplicate-free names with distinct new names, the entry
    [origin] finds for [y] is the one renamed to [y]. *)
Lemma origin_None F R l y : origin F R l y = None -> forall x, x ∈ l -> new_name F R x <> y.
Proof.
  induction l as [|z l IH]; [set_solver|]. cbn [origin].
  destruct (String.eqb_spec (new_name F R z) y); [done|].
  intros Ho x [->|Hx]%elem_of_cons; [done|]. by apply IH.
Qed.

Lemma origin_unique F R l x y :
  x ∈ l -> new_name F R x = y -> (forall x', x' ∈ l -> new_name F R x' = y -> x' = x) ->
  origin F R l y = Some x.
Proof.
  intros Hx Hy Hu. destruct (origin F R l y) as [x'|] eqn:Ho.
  - apply origin_Some in Ho as [Hx' Hy']. f_equal. by apply Hu.
  - exfalso. by apply (origin_None F R l y Ho x).
Qed.

Lemma under_child (O : path) y r : under O (O ++ y :: r) = Some (y, r).
Proof. by apply under_Some. Qed.

Lemma deeper_ne (O : path) y y' r : r <> [] -> O ++ y :: r <> O ++ [y'].
Proof. intros Hr E. apply app_inv_head in E. by injection E. Qed.

End Lemmas.

(** ** Refinement

    Overwrite is off; the input folder [I] is a directory, the output
    folder [O] is either a directory with nothing below it, or absent in an
    existing directory while [I] has entries; the log file [L] can be
    written; [I], [O] and [L] are apart; the entries of [I] are proper
    names that the copy pass can read; and on the kept entries the new name
    is a proper name, [new_name] is injective, and it never lands on the
    name of another kept entry. *)
Section Refines.
Context `{Listing} `{ImageIO} (a : args) (s : fs).
Local Abbreviation I := (input_folder a).
Local Abbreviation O := (output_folder a).
Local Abbreviation L := (log_path a).
Local Abbreviation F := (replace a).
Local Abbreviation R := (by_ a).
Local Abbreviation srcs := (sources I s).

Hypothesis Hov : String.eqb (overwrite a) "False" = true.
Hypothesis HI : nodes s !! I = Some Dir.
Hypothesis HOdeep : forall y r, nodes s !! (O ++ y :: r) = None.
Hypothesis HO : (nodes s !! O = None /\ O <> [] /\ nodes s !! parent O = Some Dir /\ srcs <> [])
                \/ nodes s !! O = Some Dir.
Hypothesis Hpar : nodes s !! parent L = Some Dir.
Hypothesis Hnd : nodes s !! L <> Some Dir.
Hypothesis HIO : ¬ I `prefix_of` O.
Hypothesis HOI : ¬ O `prefix_of` I.
Hypothesis HIL : ¬ I `prefix_of` L.
Hypothesis HOL : ¬ O `prefix_of` L.
Hypothesis HE : forall x, x ∈ srcs -> is_component x = true /\ copyable I s x.
Hypothesis HN : forall x, x ∈ srcs -> kept I x = true -> is_component (new_name F R x) = true.
Hypothesis Hinj : forall x y, x ∈ srcs -> y ∈ srcs -> kept I x = true -> kept I y = true ->
  new_name F R x = new_name F R y -> x = y.
Hypothesis Hfresh : forall x, x ∈ srcs -> kept I x = true ->
  new_name F R x ∈ srcs -> kept I (new_name F R x) = true -> new_name F R x = x.

(** After the copy phase, [O] is a directory whose names are exactly the
    kept entries, each holding its conversion, with nothing deeper. *)
Lemma after_copy :
  exists s1, copy_phase a s = Ok tt s1 /\ nodes s1 !! O = Some Dir /\
    (forall y, y ∈ names O s1 <-> y ∈ srcs /\ kept I y = true) /\
    (forall x, x ∈ srcs -> kept I x = true -> copied I O s x (nodes s1 !! (O ++ [x]))) /\
    (forall y r, r <> [] -> nodes s1 !! (O ++ y :: r) = None).
Proof.
  assert (HLO : L <> O) by (intros E; apply HOL; by rewrite E).
  assert (HO' : (nodes s !! O = None /\ O <> [] /\ nodes s !! parent O = Some Dir) \/
                nodes s !! O = Some Dir) by (destruct HO as [(? & ? & ? & _)|]; [by left|by right]).
  destruct (copy_phase_run a s Hov HI (fun y => HOdeep y []) HO' Hpar Hnd HIO HOI HIL HOL HE)
    as (s1 & Hrun & Hk & HO1 & Hy & _).
  set (s0 := stamp L "" s) in *.
  assert (Hent : forall x, x ∈ entries I s0 <-> x ∈ srcs) by (intros x; by apply entries_stamp).
  exists s1. split_and!; [done| | | |].
  - rewrite HO1. case_decide as Hemp; [|done].
    unfold s0. rewrite lookup_stamp_ne by done.
    destruct HO as [(_ & _ & _ & Hne)|]; [|done].
    destruct srcs as [|x l] eqn:E; [done|]. exfalso.
    assert (Hx : x ∈ entries I s0) by (apply Hent; set_solver).
    rewrite Hemp in Hx. set_solver.
  - intros y. unfold names. rewrite list_names_spec. specialize (Hy y). case_decide as Hin.
    + apply Hent in Hin as Hs. destruct (HE y Hs) as [_ Hc].
      rewrite (copied_kept I O s0 y); [naive_solver|by apply copyable_stamp|done].
    + rewrite Hy. rewrite Hent in Hin. split; [by intros []|naive_solver].
  - intros x Hx Hkx. apply (copied_stamp I O L ""); [done|].
    specialize (Hy x). by rewrite decide_True in Hy by by apply Hent.
  - intros y r Hr. rewrite Hk.
    + unfold s0. rewrite lookup_stamp_ne; [apply HOdeep|].
      intros E. apply HOL. rewrite <- E. by eexists.
    + intros E. apply (f_equal length) in E. rewrite length_app in E. simpl in E. lia.
    + intros y'. by apply deeper_ne.
    + intros E. apply HOL. rewrite <- E. by eexists.
Qed.

(** C24: Under the hypotheses of this section, [main] (lines 16-59)
    completes, and the output folder it leaves meets the abstract contract
    [dest_spec]: the new name of every kept entry holds that entry's
    conversion, every other name of the output folder is free, and nothing
    lies below them. *)
Theorem main_refines_spec :
  exists s2, main a s = Ok tt s2 /\ dest_spec I O F R s s2.
Proof.
  destruct after_copy as (s1 & Hrun1 & HOd & Hnm & Hcp & Hdeep).
  destruct (rename_loop_run O F R s1 HOd) as (s2 & Hrun2 & Hinv).
  - intros x [Hs Hk]%Hnm. split; [by apply HE|by apply HN].
  - intros x y [Hx Hkx]%Hnm [Hy Hky]%Hnm. by apply Hinj.
  - intros x [Hx Hkx]%Hnm [Hy Hky]%Hnm. by apply Hfresh.
  - exists s2. split.
    { unfold main. rewrite (io_bind_ok _ _ s tt s1) by done.
      by rewrite (rename_pass_unfold O F R s1 HOd a). }
    intros y. split_and!.
    + intros x Hx Hkx Hy. rewrite Hinv. unfold renamed_view. rewrite under_child.
      rewrite (origin_unique F R _ x); [by apply Hcp|by apply Hnm|done|].
      intros x' [Hx' Hkx']%Hnm Hy'. apply Hinj; congruence.
    + intros Hnone. rewrite Hinv. unfold renamed_view. rewrite under_child.
      destruct (origin F R (names O s1) y) as [x|] eqn:Ho.
      * apply origin_Some in Ho as [[Hx Hkx]%Hnm Hy]. by destruct (Hnone x).
      * case_decide as Hin; [done|]. unfold names in Hin. rewrite list_names_spec in Hin.
        by apply eq_None_not_Some.
    + intros r Hr. rewrite Hinv. unfold renamed_view. rewrite under_child.
      destruct (origin F R (names O s1) y); [by apply Hdeep|].
      case_decide; [done|by apply Hdeep].
Qed.

End Refines.

(** A run on the input [in/scan.nii], [in/notes.txt] with [out] absent and
    [scan] renamed to [study]: every hypothesis holds. *)
Lemma main_refines_spec_witness :
  exists s2, main (scenario_args "False" "scan" "study") witness_fs = Ok tt s2 /\
    dest_spec ["in"] ["out"] "scan" "study" witness_fs s2.
Proof.
  apply main_refines_spec; try reflexivity; try discriminate.
  - intros y r. unfold witness_fs, tree. cbn [nodes list_to_map foldr fst snd app].
    rewrite ?lookup_insert_ne by discriminate. apply lookup_empty.
  - left. split_and!; [reflexivity|discriminate|reflexivity|vm_compute; discriminate].
  - intros [r Hr]; discriminate.
  - intros [r Hr]; discriminate.
  - intros [r Hr]; discriminate.
  - intros [r Hr]; discriminate.
  - entries_ok.
  - intros x Hx Hk. listed_cases Hx; first [reflexivity|vm_compute in Hk; discriminate].
  - intros x y Hx Hy Hkx Hky _. listed_cases Hx; listed_cases Hy;
      first [done | vm_compute in Hkx; discriminate | vm_compute in Hky; discriminate].
  - intros x Hx Hk Hn _. listed_cases Hx; first [vm_compute in Hk; discriminate | not_listed Hn].
Defined.

End WorkerSpec.
