(* ===== verification/Progress.v ===== *)
(** * The widget's progress display

    [replaceAllWidget.onProcessStarted] (lines 586-598) counts the entries
    of the input folder and resets the counter; [onProcessUpdate] (lines
    600-628) runs whenever the CLI node changes and, when the log file's
    modification time differs from the last one seen and the counter has
    not passed the number of entries, bumps the counter and redraws the bar
    with [round((progress-1)/nbFiles*100, 2)].  The same tick is inlined in
    the WSL polling loop of [onApplyButton] (lines 378-391).

    The widget's fields are a record [pstate]; the handlers are programs of
    the [io] monad over it, reading the file system [fs] they observe.  The
    bar value is kept in hundredths of a percent and computed exactly, the
    rounding being Python's round-half-even; the wall clock [time.time()]
    is an input, read in milliseconds. *)

From stdpp Require Import base list strings gmap pretty sorting.
From Stdlib Require Import ZArith.
From S2P Require Import Prelude PyStr PosixPath FileSystem BatchTransformer.

Module Progress.
Import Path FS Worker.
Local Open Scope Z_scope.

Record pstate : Type := mkP {
  nbFiles : nat;
  progress : nat;
  time_log : nat;
  bar_visible : bool;
  bar_value : Z;            (** hundredths of a percent *)
  bar_format : string;
  label_files : string;
  label_success : bool;
  universal_time : Z;       (** [self.universal_time], in milliseconds *)
  label_time : string;
  label_time_visible : bool;    (** [label_time.isVisible()] *)
  label_files_visible : bool    (** [label_files.isVisible()] *)
}.

Inductive ui_error : Type :=
| OSError (e : py_error)
| ZeroDivisionError
| AttributeError (name : string)
| UnicodeDecodeError.

Abbreviation uio := (io pstate ui_error).

(** [round(a / b)] to the nearest integer, ties to even ([b > 0]). *)
Definition round_div (a b : Z) : Z :=
  let q := a / b in
  let r := a mod b in
  if 2 * r <? b then q
  else if b <? 2 * r then q + 1
  else if Z.even q then q else q + 1.

(** [round((progress-1) / nbFiles * 100, 2)] in hundredths; Python raises
    [ZeroDivisionError] when [nbFiles == 0]. *)
Definition percent (progress nbFiles : nat) : option Z :=
  if Nat.eqb nbFiles 0 then None
  else Some (round_div ((Z.of_nat progress - 1) * 10000) (Z.of_nat nbFiles)).

(** [str(v)] of a float rounded to two decimals, [v] in hundredths. *)
Definition str_hundredths (v : Z) : string :=
  let i := v / 100 in
  let f := v mod 100 in
  pretty i +:+ "." +:+
    (if Z.eqb (f mod 10) 0 then pretty (f / 10)
     else (if f <? 10 then "0" else "") +:+ pretty f).

Definition files_text (done total : nat) : string :=
  "Number of processed files: " +:+ str_nat done +:+ "/" +:+ str_nat total.

(** [os.path.isfile(log_path)] and [os.path.getmtime(log_path)]. *)
Definition log_mtime (L : path) (w : fs) : option nat :=
  match nodes w !! L with Some (File _ t) => Some t | _ => None end.

Definition set_counter (t p : nat) (st : pstate) : pstate :=
  mkP (nbFiles st) p t (bar_visible st) (bar_value st) (bar_format st)
      (label_files st) (label_success st) (universal_time st) (label_time st)
      (label_time_visible st) (label_files_visible st).

Definition set_bar (v : Z) (fmt : string) (st : pstate) : pstate :=
  mkP (nbFiles st) (progress st) (time_log st) (bar_visible st) v fmt
      (label_files st) (label_success st) (universal_time st) (label_time st)
      (label_time_visible st) (label_files_visible st).

Definition set_label (s : string) (st : pstate) : pstate :=
  mkP (nbFiles st) (progress st) (time_log st) (bar_visible st) (bar_value st)
      (bar_format st) s (label_success st) (universal_time st) (label_time st)
      (label_time_visible st) (label_files_visible st).

Definition set_success (st : pstate) : pstate :=
  mkP (nbFiles st) (progress st) (time_log st) (bar_visible st) (bar_value st)
      (bar_format st) (label_files st) true (universal_time st) (label_time st)
      (label_time_visible st) (label_files_visible st).

(** The progress tick (lines 602-613): a new modification time of the log
    file moves the counter and redraws the bar. *)
Definition progress_tick (L : path) (w : fs) : uio unit :=
  st <- io_get ;;
  match log_mtime L w with
  | Some t =>
      if negb (Nat.eqb t (time_log st)) && Nat.leb (progress st) (nbFiles st) then
        io_modify (set_counter t (S (progress st))) ;;
        match percent (S (progress st)) (nbFiles st) with
        | None => io_raise ZeroDivisionError
        | Some v =>
            (if v <? 10000 then io_modify (set_bar v (str_hundredths v +:+ "%"))
             else io_modify (set_bar 10000 "100%")) ;;
            io_modify (set_label (files_text (progress st) (nbFiles st)))
        end
      else io_ret tt
  | None => io_ret tt
  end.

(** The end of a run (lines 623-627 and 393-396): success label, full
    bar, all files counted. *)
Definition show_success : uio unit :=
  io_modify set_success ;;
  io_modify (set_bar 10000 "100%") ;;
  st <- io_get ;;
  io_modify (set_label (files_text (nbFiles st) (nbFiles st))).

(** The time label (lines 616-622): [int] of the elapsed seconds, split
    into minutes and seconds from one minute on.  The elapsed time
    [time.time() - self.universal_time] is a number of milliseconds;
    [int] truncates toward zero ([Z.quot]); past one minute it is
    positive, where [/] and [%] agree with Python's. *)
Definition time_text (elapsed : Z) : string :=
  if elapsed <? 60000 then "Time: " +:+ pretty (Z.quot elapsed 1000) +:+ "s"
  else "Time: " +:+ pretty (elapsed / 60000) +:+ "min " +:+
       pretty ((elapsed mod 60000) / 1000) +:+ "s".

Definition set_time (now : Z) (st : pstate) : pstate :=
  mkP (nbFiles st) (progress st) (time_log st) (bar_visible st) (bar_value st)
      (bar_format st) (label_files st) (label_success st) (universal_time st)
      (time_text (now - universal_time st)) (label_time_visible st) (label_files_visible st).

(** One poll (lines 602-622, and 380-403 in the WSL loop): the progress
    tick, then the time label, the wall clock reading [now]. *)
Definition poll (L : path) (w : fs) (now : Z) : uio unit :=
  progress_tick L w ;;
  io_modify (set_time now).

(** The WSL loop's body on one observation: a file system and the clock. *)
Definition poll_at (L : path) (wn : fs * Z) : uio unit := poll L wn.1 wn.2.

(** [onProcessUpdate(caller, event)]; [completed] is
    [caller.GetStatus() & caller.Completed]. *)
Definition onProcessUpdate (L : path) (w : fs) (now : Z) (completed : bool) : uio unit :=
  poll L w now ;;
  if completed then show_success else io_ret tt.

(** [onProcessStarted()]: the time label and the bar are shown, the bar
    at 0, [nbFiles] is set to 0 and then counts [os.listdir] of the input
    folder (which raises when the folder is missing), the counter is reset
    and the files label is written and shown; [time_log] is not reset. *)
Definition onProcessStarted `{Listing} (input : path) (w : fs) (now : Z) : uio unit :=
  io_modify (fun st => mkP 0 (progress st) (time_log st) true 0 (bar_format st)
                           (label_files st) (label_success st) now (label_time st)
                           true (label_files_visible st)) ;;
  match listdir input w with
  | Err e _ => io_raise (OSError e)
  | Ok names _ =>
      io_modify (fun st => mkP (length names) 0 (time_log st) (bar_visible st)
                               (bar_value st) (bar_format st)
                               (files_text 0 (length names)) (label_success st)
                               (universal_time st) (label_time st)
                               (label_time_visible st) true)
  end.

(** ** Rounding *)

Lemma round_div_bounds a b c :
  0 < b -> 0 <= a -> a <= b * c -> 0 <= round_div a b <= c.
Proof.
  intros Hb Ha Hc. unfold round_div.
  pose proof (Z.div_mod a b ltac:(lia)) as Hdm. pose proof (Z.mod_pos_bound a b Hb) as Hr.
  set (q := a / b) in *. set (r := a mod b) in *.
  assert (0 <= q) by (apply Z.div_pos; lia).
  assert (q <= c) by nia.
  destruct (Z.eq_dec q c) as [->|Hqc].
  - assert (r = 0) as -> by nia. destruct (2 * 0 <? b) eqn:E; [lia|apply Z.ltb_ge in E; lia].
  - repeat case_match; lia.
Qed.

Lemma round_div_exact b c : 0 < b -> round_div (c * b) b = c.
Proof.
  intros Hb. unfold round_div. rewrite Z.div_mul, Z.mod_mul by lia.
  replace (2 * 0 <? b) with true by (symmetry; apply Z.ltb_lt; lia). done.
Qed.

Lemma percent_bounds p n :
  (0 < n)%nat -> (1 <= p <= S n)%nat -> exists v, percent p n = Some v /\ 0 <= v <= 10000.
Proof.
  intros Hn Hp. unfold percent. destruct (Nat.eqb_spec n 0) as [->|_]; [lia|].
  eexists. split; [done|]. apply round_div_bounds; lia.
Qed.

(** ** One tick *)

Lemma progress_tick_step L w st t :
  log_mtime L w = Some t -> t <> time_log st -> (progress st <= nbFiles st)%nat ->
  (0 < nbFiles st)%nat ->
  exists v, percent (S (progress st)) (nbFiles st) = Some v /\ 0 <= v <= 10000 /\
  progress_tick L w st =
    Ok tt (set_label (files_text (progress st) (nbFiles st))
            (set_bar (if v <? 10000 then v else 10000)
                     (if v <? 10000 then str_hundredths v +:+ "%" else "100%")
                     (set_counter t (S (progress st)) st))).
Proof.
  intros Hm Ht Hp Hn. destruct (percent_bounds (S (progress st)) (nbFiles st)) as (v & Hv & Hb); [lia..|].
  exists v. split_and!; [done|lia|lia|]. unfold progress_tick, io_bind, io_get. rewrite Hm.
  rewrite (proj2 (Nat.eqb_neq _ _) Ht), (proj2 (Nat.leb_le _ _) Hp). simpl.
  unfold io_modify. rewrite Hv. by destruct (v <? 10000).
Qed.

Lemma progress_tick_idle L w st :
  (forall t, log_mtime L w = Some t -> t = time_log st \/ (nbFiles st < progress st)%nat) ->
  progress_tick L w st = Ok tt st.
Proof.
  intros Hidle. unfold progress_tick, io_bind, io_get.
  destruct (log_mtime L w) as [t|]; [|done].
  destruct (Hidle t eq_refl) as [->|Hlt].
  - by rewrite Nat.eqb_refl.
  - rewrite (proj2 (Nat.leb_gt _ _) Hlt), andb_false_r. done.
Qed.

Lemma progress_tick_zero L w st t :
  log_mtime L w = Some t -> t <> time_log st -> nbFiles st = 0%nat -> progress st = 0%nat ->
  progress_tick L w st = Err ZeroDivisionError (set_counter t 1 st).
Proof.
  intros Hm Ht Hn Hp. unfold progress_tick, io_bind, io_get. cbv beta iota. rewrite Hm.
  rewrite (proj2 (Nat.eqb_neq _ _) Ht), Hn, Hp. reflexivity.
Qed.

(** What the bar shows after a tick: the rounded percentage of the
    counter, capped at 100, and the count of files before the tick. *)
Definition drawn (st : pstate) : Prop :=
  exists v, percent (progress st) (nbFiles st) = Some v /\
    bar_value st = (if v <? 10000 then v else 10000) /\
    bar_format st = (if v <? 10000 then str_hundredths v +:+ "%" else "100%") /\
    label_files st = files_text (pred (progress st)) (nbFiles st).

(** Whether each of [ts] differs from the one before, starting from [t0]. *)
Fixpoint all_change (t0 : nat) (ts : list nat) : bool :=
  match ts with
  | [] => true
  | t :: ts' => negb (Nat.eqb t t0) && all_change t ts'
  end.

Lemma all_change_sorted t0 ts : StronglySorted lt (t0 :: ts) -> all_change t0 ts = true.
Proof.
  revert t0. induction ts as [|t ts IH]; intros t0 Hs; [done|].
  apply StronglySorted_inv in Hs as [Hs Hf]. inversion Hf; subst. simpl.
  rewrite (proj2 (Nat.eqb_neq t t0)) by lia. simpl. by apply IH.
Qed.

(** Polls that each see a new modification time move the counter by one
    each, as long as it has not passed [nbFiles]. *)
Lemma polls_count L ps ts st :
  map (log_mtime L) ps.*1 = map Some ts -> all_change (time_log st) ts = true ->
  (progress st + length ts <= S (nbFiles st))%nat -> (0 < nbFiles st)%nat ->
  exists st', for_each ps (poll_at L) st = Ok tt st' /\
    progress st' = (progress st + length ts)%nat /\ nbFiles st' = nbFiles st /\
    (ts <> [] -> drawn st').
Proof.
  revert ts st. induction ps as [|[w now] ps IH]; intros [|t ts] st Hm Hc Hp Hn; try discriminate.
  - exists st. simpl. split_and!; [done|lia|done|done].
  - simpl in Hm. injection Hm as Hw Hm. simpl in Hc. apply andb_prop in Hc as [Ht Hc].
    apply negb_true_iff, Nat.eqb_neq in Ht. simpl in Hp.
    destruct (progress_tick_step L w st t) as (v & Hv & Hb & Hrun); [done|done|lia|done|].
    match type of Hrun with _ = Ok _ ?s1 => set (st1 := set_time now s1) end.
    assert (Hpoll : poll_at L (w, now) st = Ok tt st1)
      by (unfold poll_at, poll; simpl; by rewrite (io_bind_ok _ _ _ _ _ Hrun)).
    destruct (IH ts st1) as (st' & Hrun' & Hp' & Hn' & Hd'); [done|done|simpl; lia|done|].
    exists st'. simpl. rewrite (io_bind_ok _ _ _ _ _ Hpoll). split_and!; [done|simpl in *; lia|done|].
    intros _. destruct ts as [|t' ts]; [|by apply Hd'].
    destruct ps; [|discriminate]. simpl in Hrun'. injection Hrun' as <-. exists v. simpl. split_and!; [exact Hv|done..].
Qed.

(** ** The widget's reachable states

    From a successful [onProcessStarted], any sequence of
    [onProcessUpdate] calls, each on the file system it observes and
    whether or not it raised (an exception in an observer leaves the
    fields it already set). *)

Inductive reachable `{Listing} (L input : path) : pstate -> Prop :=
| reach_start w now st0 st :
    onProcessStarted input w now st0 = Ok tt st -> reachable L input st
| reach_update w now c st :
    reachable L input st -> reachable L input (final_state (onProcessUpdate L w now c st)).

Definition progress_inv (st : pstate) : Prop :=
  (progress st <= S (nbFiles st))%nat /\ 0 <= bar_value st <= 10000.

Lemma progress_inv_tick L w st :
  progress_inv st -> progress_inv (final_state (progress_tick L w st)).
Proof.
  intros [Hp Hb].
  destruct (log_mtime L w) as [t|] eqn:Hm;
    [|by rewrite progress_tick_idle by (intros t Ht; congruence)].
  destruct (decide (t = time_log st \/ (nbFiles st < progress st)%nat)) as [Hi|Hi].
  - rewrite progress_tick_idle; [done|]. intros t' Ht'. rewrite Hm in Ht'. injection Ht' as <-.
    naive_solver.
  - destruct (Nat.eq_dec (nbFiles st) 0) as [Hn|Hn].
    + rewrite (progress_tick_zero L w st t) by (done || lia).
      unfold progress_inv, set_counter; simpl. lia.
    + destruct (progress_tick_step L w st t) as (v & _ & Hv & ->); [done|naive_solver|lia|lia|].
      unfold progress_inv; simpl. split; [lia|]. destruct (Z.ltb_spec v 10000); lia.
Qed.

Lemma progress_inv_success st : progress_inv st -> progress_inv (final_state (show_success st)).
Proof. intros [Hp Hb]. split; simpl; lia. Qed.

Lemma progress_inv_update L w now c st :
  progress_inv st -> progress_inv (final_state (onProcessUpdate L w now c st)).
Proof.
  intros Hi. unfold onProcessUpdate, poll, io_bind.
  pose proof (progress_inv_tick L w st Hi) as Ht.
  destruct (progress_tick L w st) as [[] st1|e st1]; simpl in *; [|done].
  destruct c; [by apply progress_inv_success|done].
Qed.

(** ** Properties of the progress display *)

(** C6: In every state the widget reaches after starting a run, the counter
    is at most one past the number of input entries and the bar's value
    lies between 0% and 100%, exceptions included. *)
Theorem progress_reachable_bounds `{Listing} L input st :
  reachable L input st ->
  (progress st <= S (nbFiles st))%nat /\ 0 <= bar_value st <= 10000.
Proof.
  induction 1 as [w now st0 st Hs|w now c st _ IH].
  - unfold onProcessStarted, io_bind, io_modify in Hs. simpl in Hs.
    destruct (listdir input w) as [names w'|e w']; [|done].
    injection Hs as <-. simpl. lia.
  - by apply progress_inv_update.
Qed.

(** C31: The time label shows the whole seconds elapsed: under a minute
    as seconds, from a minute on as minutes and seconds, the seconds always
    below 60 and the two adding up to [int(current_time)]. *)
Theorem time_text_fields (e : Z) :
  0 <= e ->
  exists m sec,
    ((e < 60000 /\ m = 0 /\ time_text e = "Time: " +:+ pretty sec +:+ "s") \/
     (60000 <= e /\ time_text e = "Time: " +:+ pretty m +:+ "min " +:+ pretty sec +:+ "s")) /\
    60 * m + sec = e / 1000 /\ 0 <= sec < 60.
Proof.
  intros He. unfold time_text. destruct (Z.ltb_spec e 60000) as [Hlt|Hge].
  - exists 0, (Z.quot e 1000). rewrite Z.quot_div_nonneg by lia.
    split; [by left|]. split; [lia|]. Z.div_mod_to_equations. lia.
  - exists (e / 60000), ((e mod 60000) / 1000). split; [by right|].
    Z.div_mod_to_equations. lia.
Qed.

(** The specification's example: with 10 entries, the fourth new
    modification time of the log draws [round((4-1)/10*100, 2) = 30.0]. *)
Example progress_tick_30 :
  let st := mkP 10 3 7 true 2000 "20.0%" (files_text 2 10) false 0 "" true true in
  let w := {| nodes := {[ ["log"] := File "0" 8 ]}; clock := 8; writes := []; FS.tick := fun n => n |} in
  progress_tick ["log"] w st = Ok tt (mkP 10 4 8 true 3000 "30.0%" (files_text 3 10) false 0 "" true true).
Proof. vm_compute. reflexivity. Qed.

(** C18: When the input folder had no entry, the first new modification
    time of the log makes [onProcessUpdate] raise [ZeroDivisionError]
    ([(progress-1)/nbFiles] with [nbFiles == 0]), after it has already
    moved the counter. *)
Theorem onProcessUpdate_zero_division L w now c st t :
  log_mtime L w = Some t -> t <> time_log st -> nbFiles st = 0%nat -> progress st = 0%nat ->
  onProcessUpdate L w now c st = Err ZeroDivisionError (set_counter t 1 st).
Proof.
  intros Hm Ht Hn Hp. unfold onProcessUpdate, poll, io_bind.
  by rewrite (progress_tick_zero L w st t Hm Ht Hn Hp).
Qed.

Lemma onProcessUpdate_zero_division_witness :
  let st := mkP 0 0 0 true 0 "" (files_text 0 0) false 0 "" true true in
  let w := {| nodes := {[ ["log"] := File "" 1 ]}; clock := 1; writes := []; FS.tick := fun n => n |} in
  log_mtime ["log"] w = Some 1%nat /\
  onProcessUpdate ["log"] w 1000 false st = Err ZeroDivisionError (set_counter 1 1 st).
Proof.
  simpl. split; [reflexivity|].
  apply (onProcessUpdate_zero_division ["log"] _ 1000 false _ 1%nat); [reflexivity|cbv; discriminate|reflexivity|reflexivity].
Defined.

(** C5: Polling once after each of the [nbFiles + 1] writes the worker
    makes to the log (the truncation and one per entry), each with a new
    modification time, moves the counter from 0 to [nbFiles + 1] and
    leaves the bar at 100% with all files counted. *)
Theorem polls_reach_full L ps ts st :
  (0 < nbFiles st)%nat -> progress st = 0%nat ->
  map (log_mtime L) ps.*1 = map Some ts -> length ts = S (nbFiles st) ->
  all_change (time_log st) ts = true ->
  exists st', for_each ps (poll_at L) st = Ok tt st' /\
    progress st' = S (nbFiles st) /\ bar_value st' = 10000 /\ bar_format st' = "100%" /\
    label_files st' = files_text (nbFiles st) (nbFiles st).
Proof.
  intros Hn Hp Hm Hl Hc.
  destruct (polls_count L ps ts st Hm Hc) as (st' & Hrun & Hp' & Hn' & Hd); [lia|done|].
  exists st'. split; [done|]. rewrite Hp, Hl in Hp'. simpl in Hp'.
  destruct Hd as (v & Hv & Hb & Hf & Hlab); [by intros ->|].
  rewrite Hp', Hn' in Hv. unfold percent in Hv.
  rewrite (proj2 (Nat.eqb_neq _ _)) in Hv by lia. injection Hv as <-.
  assert (Hfull : round_div ((Z.of_nat (S (nbFiles st)) - 1) * 10000) (Z.of_nat (nbFiles st)) = 10000).
  { replace ((Z.of_nat (S (nbFiles st)) - 1) * 10000) with (10000 * Z.of_nat (nbFiles st)) by lia.
    apply round_div_exact. lia. }
  rewrite Hfull in Hb, Hf. simpl in Hb, Hf.
  rewrite Hp', Hn' in Hlab. split_and!; done.
Qed.

Lemma polls_reach_full_witness :
  let st := mkP 2 0 0 true 0 "" (files_text 0 2) false 0 "" true true in
  let wt t := {| nodes := {[ ["log"] := File "0" t ]}; clock := t; writes := []; FS.tick := fun n => n |} in
  (0 < nbFiles st)%nat /\ progress st = 0%nat /\
  exists st', for_each [(wt 1%nat, 500); (wt 2%nat, 1200); (wt 3%nat, 61500)]
                (poll_at ["log"]) st = Ok tt st' /\
    progress st' = 3%nat /\ bar_value st' = 10000 /\ bar_format st' = "100%" /\
    label_files st' = files_text 2 2.
Proof.
  cbv zeta. split; [simpl; lia|]. split; [reflexivity|].
  apply (polls_reach_full ["log"] _ [1%nat; 2%nat; 3%nat]); [simpl; lia|reflexivity..].
Defined.

Lemma time_text_fields_witness :
  let e := 61500 in
  exists m sec,
    ((e < 60000 /\ m = 0 /\ time_text e = "Time: " +:+ pretty sec +:+ "s") \/
     (60000 <= e /\ time_text e = "Time: " +:+ pretty m +:+ "min " +:+ pretty sec +:+ "s")) /\
    60 * m + sec = e / 1000 /\ 0 <= sec < 60.
Proof. cbv zeta. apply time_text_fields. lia. Defined.

Lemma progress_reachable_bounds_witness :
  (progress (mkP 0 0 5 true 0 "" (files_text 0 0) false 0 "" true true) <=
     S (nbFiles (mkP 0 0 5 true 0 "" (files_text 0 0) false 0 "" true true)))%nat /\
  0 <= bar_value (mkP 0 0 5 true 0 "" (files_text 0 0) false 0 "" true true) <= 10000.
Proof.
  apply (progress_reachable_bounds (H := map_listing) ["log"] ["in"]).
  apply (reach_start ["log"] ["in"]
           {| nodes := {[ ["in"] := Dir ]}; clock := 1; writes := []; FS.tick := fun n => n |} 0
           (mkP 3 2 5 false 1500 "" "" false 0 "" false false)).
  vm_compute. reflexivity.
Defined.

(** ** The exceptions of the progress display *)

(** What the progress handlers raise: the division of an empty input, or
    the [OSError] of listing the input folder. *)
Definition progress_error (e : ui_error) : Prop :=
  e = ZeroDivisionError \/ exists pe, e = OSError pe.

Lemma progress_tick_raises L w : raises_only progress_error (progress_tick L w).
Proof.
  intros st. unfold progress_tick, io_bind, io_get, io_modify, io_ret, io_raise.
  repeat case_match; simpl in *; try done; simplify_eq; by left.
Qed.

Lemma poll_at_raises L wn : raises_only progress_error (poll_at L wn).
Proof. apply raises_only_bind; [apply progress_tick_raises|intros _; apply raises_only_modify]. Qed.

Lemma onProcessStarted_raises `{Listing} input w now :
  raises_only progress_error (onProcessStarted input w now).
Proof.
  intros st. unfold onProcessStarted, io_bind, io_modify, io_raise.
  destruct (listdir input w); [done|]. right. by eexists.
Qed.

(** [show_success] never raises and shows the success label and a full bar. *)
Lemma show_success_shows st :
  match show_success st with
  | Ok _ st' => label_success st' = true /\ bar_value st' = 10000%Z
  | Err _ _ => False
  end.
Proof. done. Qed.

End Progress.
