(* ===== verification/WslBridge.v ===== *)
(** * The WSL bridge of the widget

    On Windows the widget runs the worker inside a conda environment of
    WSL.  [replaceAllWidget] (src/replaceAll/replaceAll.py) translates
    Windows paths ([windows_to_linux_path], lines 471-483), probes whether
    the worker's package is importable in the environment
    ([check_pythonpath_windows], 485-493), sets the environment's
    [PYTHONPATH] ([give_pythonpath_windows], 495-505), launches the worker
    ([process_wsl], 507-533), creates the environment
    ([creation_env_wsl], 535-570) and checks the system libraries of WSL
    ([check_lib_wsl], 572-584).

    The environment manager [CondaSetUpCallWsl] belongs to another
    extension (CondaSetUp) and is not part of this repository: it is the
    class [CondaWSL], whose state [cenv] its operations read and change.
    The widget's state [wstate] holds that state, the ordered trace of the
    calls the widget makes to the outside (conda commands, environment
    creation, shell commands, CLI runs), the message boxes shown, the Apply
    button's visibility and the progress fields of [Progress]. *)

From stdpp Require Import base list strings gmap pretty.
From Stdlib Require Import Ascii.
From S2P Require Import Prelude PyStr PosixPath FileSystem BatchTransformer Progress.

Module Bridge.
Import Str Path FS Progress.

(** ** Python values of the parameter dictionary *)

Inductive pyval : Type :=
| VStr (s : string)
| VBool (b : bool)
| VNone
| VDict (kvs : list (string * pyval)).

Definition dq : string := String (ascii_of_nat 34) EmptyString.
Definition sq : string := String (ascii_of_nat 39) EmptyString.

(** [repr(v)]; strings are quoted with ['] without escaping, which is
    [repr] for strings holding no quote or backslash. *)
Fixpoint py_repr (v : pyval) : string :=
  match v with
  | VStr s => sq +:+ s +:+ sq
  | VBool b => if b then "True" else "False"
  | VNone => "None"
  | VDict kvs =>
      "{" +:+
      (fix go (kvs : list (string * pyval)) : string :=
         match kvs with
         | [] => ""
         | [(k, x)] => sq +:+ k +:+ sq +:+ ": " +:+ py_repr x
         | (k, x) :: r => sq +:+ k +:+ sq +:+ ": " +:+ py_repr x +:+ ", " +:+ go r
         end) kvs +:+ "}"
  end.

(** [str(v)] *)
Definition py_str (v : pyval) : string :=
  match v with VStr s => s | _ => py_repr v end.

(** [d[k]] ([None] where Python raises [KeyError]). *)
Fixpoint dict_get (k : string) (d : list (string * pyval)) : option pyval :=
  match d with
  | [] => None
  | (k', v) :: d' => if String.eqb k' k then Some v else dict_get k d'
  end.

(** [d[k] = v] on a key [d] holds: the value changes in place. *)
Definition dict_set (k : string) (v : pyval) (d : list (string * pyval)) : list (string * pyval) :=
  map (fun kv => if String.eqb kv.1 k then (k, v) else kv) d.

(** ** The environment manager *)

Class CondaWSL : Type := {
  cenv : Type;
  testWslAvailable : cenv -> bool;
  getCondaExecutable : cenv -> string;
  getCondaPath : cenv -> string;
  condaRunCommand : list string -> cenv -> string * cenv;
  condaTestEnv : string -> cenv -> bool;
  condaCreateEnv : string -> string -> cenv -> cenv;
  (** [subprocess.run(cmd, capture_output=True, text=True).stdout] *)
  shell_stdout : string -> cenv -> string
}.

(** The calls the widget makes to the outside, in order. *)
Inductive call : Type :=
| RunCommand (argv : list string)
| CreateEnv (name version : string)
| Shell (cmd : string)
| CliRun (params : list (string * pyval)).

Section Widget.
Context `{CondaWSL}.

Record wstate : Type := mkW {
  denv : cenv;
  calls : list call;
  messages : list string;
  apply_visible : bool;
  pst : pstate
}.

Abbreviation wio := (io wstate ui_error).

Definition record_call (c : call) (st : wstate) : wstate :=
  mkW (denv st) (calls st ++ [c]) (messages st) (apply_visible st) (pst st).

(** [self.conda_wsl.condaRunCommand(argv)] *)
Definition run_command (argv : list string) : wio string :=
  fun st => let '(out, e') := condaRunCommand argv (denv st) in
            Ok out (mkW e' (calls st ++ [RunCommand argv]) (messages st)
                        (apply_visible st) (pst st)).

Definition conda_exe : wio string := fun st => Ok (getCondaExecutable (denv st)) st.

(** [messageBox.information(None, "Information", text)] *)
Definition show_message (text : string) : wio unit :=
  io_modify (fun st => mkW (denv st) (calls st) (messages st ++ [text])
                           (apply_visible st) (pst st)).

(** A handler of [Progress] run on the widget's progress fields. *)
Definition on_pst {A} (m : uio A) : wio A :=
  fun st => match m (pst st) with
            | Ok a p => Ok a (mkW (denv st) (calls st) (messages st) (apply_visible st) p)
            | Err e p => Err e (mkW (denv st) (calls st) (messages st) (apply_visible st) p)
            end.

(** ** The helpers *)

(** [windows_to_linux_path(windows_path)] *)
Definition windows_to_linux_path (windows_path : string) : string :=
  let windows_path := strip windows_path in
  let path := replace "\" "/" windows_path in
  if contains ":" path then
    match split1 ":" path with
    | drive :: path_without_drive :: _ => "/mnt/" +:+ lower drive +:+ path_without_drive
    | _ => path
    end
  else path.

Definition name_env : string := "replaceAll".

(** The probe command of [check_pythonpath_windows]. *)
Definition probe_command (conda name file : string) : list string :=
  [conda; "run"; "-n"; name; "python"; "-c";
   dq +:+ "import " +:+ file +:+
   " as check;import os; print(os.path.isfile(check.__file__))" +:+ dq].

(** [check_pythonpath_windows(name_env, file)] *)
Definition check_pythonpath_windows (name file : string) : wio bool :=
  conda <- conda_exe ;;
  result <- run_command (probe_command conda name file) ;;
  io_ret (contains "True" result).

(** The command of [give_pythonpath_windows]. *)
Definition pythonpath_command (conda : string) (paths : list string) (name : string) : list string :=
  let mnt_paths := map (fun p => dq +:+ windows_to_linux_path p +:+ dq) paths in
  let pythonpath_arg := "PYTHONPATH=" +:+ join ":" mnt_paths in
  [conda; "env"; "config"; "vars"; "set"; "-n"; name; pythonpath_arg].

(** [give_pythonpath_windows(name_env)]; [paths] is the module factory's
    [searchPaths]. *)
Definition give_pythonpath_windows (paths : list string) (name : string) : wio unit :=
  conda <- conda_exe ;;
  _ <- run_command (pythonpath_command conda paths name) ;;
  io_ret tt.

(** The probe with one remediation: probe, and when it fails set the
    [PYTHONPATH] and probe again. *)
Definition probe_with_retry (paths : list string) (file : string) : wio bool :=
  r <- check_pythonpath_windows name_env file ;;
  if r then io_ret true
  else give_pythonpath_windows paths name_env ;; check_pythonpath_windows name_env file.

Definition worker_module : string := "replaceAll_utils.replaceAll_WSL".

(** The command [process_wsl] runs, from the translated dictionary. *)
Definition worker_command (conda : string) (param : list (string * pyval)) : list string :=
  [conda; "run"; "-n"; name_env; "python"; "-m"; worker_module] ++
  map (fun kv => dq +:+ py_str kv.2 +:+ dq) param.

Definition translate_param (param : list (string * pyval)) : list (string * pyval) :=
  let tr k d := dict_set k (VStr (windows_to_linux_path
                   (default "" (py_str <$> dict_get k d)))) d in
  tr "log_path" (tr "output_folder" (tr "input_folder" param)).

(** [process_wsl(param)] *)
Definition process_wsl (paths : list string) (param : list (string * pyval)) : wio unit :=
  result_pythonpath <- probe_with_retry paths worker_module ;;
  if result_pythonpath then
    conda <- conda_exe ;;
    _ <- run_command (worker_command conda (translate_param param)) ;;
    io_ret tt
  else io_ret tt.

(** [creation_env_wsl()]: the library list it declares is never used. *)
Definition creation_env_wsl (paths : list string) : wio unit :=
  io_modify (fun st => mkW (condaCreateEnv name_env "3.9" (denv st))
                           (calls st ++ [CreateEnv name_env "3.9"]) (messages st)
                           (apply_visible st) (pst st)) ;;
  result_pythonpath <- probe_with_retry paths "replaceAll_utils.requirement" ;;
  if result_pythonpath then
    conda <- conda_exe ;;
    st <- io_get ;;
    let path_pip := getCondaPath (denv st) +:+ "/envs/" +:+ name_env +:+ "/bin/pip" in
    _ <- run_command [conda; "run"; "-n"; name_env; "python"; "-m";
                      "replaceAll_utils.requirement"; path_pip] ;;
    io_ret tt
  else io_ret tt.

(** [stdout.encode('utf-16-le').decode('utf-8')]: UTF-16-LE writes a
    code point below 256 as itself followed by a zero byte; read back as
    UTF-8, a byte below 128 is that character and the zero byte a NUL,
    while a byte from 128 to 255 followed by a zero byte is no UTF-8
    sequence, and the decoder raises [UnicodeDecodeError]. *)
Definition nul : string := String (ascii_of_nat 0) EmptyString.

Fixpoint widen (s : string) : string :=
  match s with
  | EmptyString => EmptyString
  | String c s' => String c (nul +:+ widen s')
  end.

Definition ascii_only (s : string) : bool :=
  forallb (fun c => Ascii.nat_of_ascii c <? 128) (String.list_ascii_of_string s).

Definition utf16le_as_utf8 (s : string) : option string :=
  if ascii_only s then Some (widen s) else None.

Definition grep_cmd (lib : string) : string :=
  "wsl -- bash -c " +:+ dq +:+ "dpkg -l | grep " +:+ lib +:+ dq.

(** [subprocess.run(cmd, capture_output=True, text=True).stdout] *)
Definition shell (cmd : string) : wio string :=
  fun st => Ok (shell_stdout cmd (denv st)) (record_call (Shell cmd) st).

(** [.encode('utf-16-le').decode('utf-8')] *)
Definition decode_output (s : string) : wio string :=
  match utf16le_as_utf8 s with
  | Some o => io_ret o
  | None => io_raise UnicodeDecodeError
  end.

(** [check_lib_wsl()] *)
Definition check_lib_wsl : wio bool :=
  result1 <- shell (grep_cmd "libxrender1") ;;
  output1 <- decode_output result1 ;;
  let clean_output1 := replace nul "" output1 in
  result2 <- shell (grep_cmd "libgl1-mesa-glx") ;;
  output2 <- decode_output result2 ;;
  let clean_output2 := replace nul "" output2 in
  io_ret (contains "libxrender1" clean_output1 && contains "libgl1-mesa-glx" clean_output2).

End Widget.

Abbreviation wio := (io wstate ui_error).

(** ** A scripted environment manager

    A WSL whose answers are fixed by a few flags: whether WSL and its
    libraries are there, whether conda answers, which environments exist,
    whether creating one succeeds, and whether the environment's
    [PYTHONPATH] has been set.  Probes answer ["True"] once the path is
    set in an existing environment. *)

Record scripted : Type := mkScripted {
  s_wsl : bool;
  s_libs : bool;
  s_conda_ok : bool;
  s_create_ok : bool;
  s_envs : list string;
  s_pythonpath : bool
}.

Definition scripted_run (argv : list string) (e : scripted) : string * scripted :=
  match argv with
  | [_; v] => (if String.eqb v "--version" && s_conda_ok e then "conda 24.1.2" else "Error", e)
  | _ :: r :: _ :: n :: p :: c :: _ =>
      if String.eqb r "run" && String.eqb p "python" && String.eqb c "-c" then
        (if s_pythonpath e && bool_decide (n ∈ s_envs e) then "True" else "False", e)
      else if String.eqb r "env" then
        ("", mkScripted (s_wsl e) (s_libs e) (s_conda_ok e) (s_create_ok e) (s_envs e) true)
      else ("", e)
  | _ => ("", e)
  end.

#[export] Instance scripted_conda : CondaWSL := {|
  cenv := scripted;
  testWslAvailable := s_wsl;
  getCondaExecutable _ := "/home/user/miniconda3/bin/conda";
  getCondaPath _ := "/home/user/miniconda3";
  condaRunCommand := scripted_run;
  condaTestEnv n e := bool_decide (n ∈ s_envs e);
  condaCreateEnv n _ e :=
    if s_create_ok e then mkScripted (s_wsl e) (s_libs e) (s_conda_ok e) (s_create_ok e)
                                     (n :: s_envs e) (s_pythonpath e)
    else e;
  shell_stdout cmd e := if s_libs e then "ii  libxrender1  ii  libgl1-mesa-glx" else ""
|}.

(** ** The readiness probe *)

Section Probe.
Context `{CondaWSL}.

Definition after_run (argv : list string) (st : wstate) : wstate :=
  mkW (condaRunCommand argv (denv st)).2 (calls st ++ [RunCommand argv]) (messages st)
      (apply_visible st) (pst st).

Lemma run_command_ok argv st :
  run_command argv st = Ok (condaRunCommand argv (denv st)).1 (after_run argv st).
Proof. unfold run_command, after_run. by destruct (condaRunCommand argv (denv st)). Qed.

Lemma check_pythonpath_ok name file st :
  let argv := probe_command (getCondaExecutable (denv st)) name file in
  check_pythonpath_windows name file st =
    Ok (contains "True" (condaRunCommand argv (denv st)).1) (after_run argv st).
Proof. unfold check_pythonpath_windows, io_bind, conda_exe. by rewrite run_command_ok. Qed.

Lemma give_pythonpath_ok paths name st :
  give_pythonpath_windows paths name st =
    Ok tt (after_run (pythonpath_command (getCondaExecutable (denv st)) paths name) st).
Proof. unfold give_pythonpath_windows, io_bind, conda_exe. by rewrite run_command_ok. Qed.

(** C12: The readiness probe remedies only on failure, and once: when
    the first probe prints [True], it is the only command run and the
    answer is [true]; otherwise the [PYTHONPATH] is set once and the
    answer is what the second probe prints. *)
Theorem probe_with_retry_calls paths file st :
  let p0 := probe_command (getCondaExecutable (denv st)) name_env file in
  let st1 := after_run p0 st in
  let g := pythonpath_command (getCondaExecutable (denv st1)) paths name_env in
  let st2 := after_run g st1 in
  let p2 := probe_command (getCondaExecutable (denv st2)) name_env file in
  probe_with_retry paths file st =
    if contains "True" (condaRunCommand p0 (denv st)).1 then Ok true st1
    else Ok (contains "True" (condaRunCommand p2 (denv st2)).1) (after_run p2 st2).
Proof.
  intros p0 st1 g st2 p2. unfold probe_with_retry, io_bind. rewrite check_pythonpath_ok. cbv zeta.
  fold p0 st1. destruct (contains "True" _); [done|].
  rewrite give_pythonpath_ok, check_pythonpath_ok. reflexivity.
Qed.
(** C11: When the worker's package is not importable and setting the
    [PYTHONPATH] does not help, [process_wsl] runs the two probes and the
    one remediation and never launches the worker. *)
Theorem process_wsl_no_launch paths param st :
  let c := getCondaExecutable in
  let p0 := probe_command (c (denv st)) name_env worker_module in
  let e1 := (condaRunCommand p0 (denv st)).2 in
  let g := pythonpath_command (c e1) paths name_env in
  let e2 := (condaRunCommand g e1).2 in
  let p2 := probe_command (c e2) name_env worker_module in
  contains "True" (condaRunCommand p0 (denv st)).1 = false ->
  contains "True" (condaRunCommand p2 e2).1 = false ->
  exists st', process_wsl paths param st = Ok tt st' /\
    calls st' = calls st ++ [RunCommand p0; RunCommand g; RunCommand p2].
Proof.
  intros c p0 e1 g e2 p2 H0 H2. unfold p2, e2, g, e1, p0, c in *.
  unfold process_wsl, probe_with_retry, io_bind. rewrite check_pythonpath_ok. cbv zeta.
  rewrite H0, give_pythonpath_ok, check_pythonpath_ok. cbv zeta. unfold after_run at 2 3 4 5. simpl.
  rewrite H2. eexists. split; [reflexivity|]. unfold after_run; simpl. by rewrite <- !app_assoc.
Qed.

End Probe.

(** ** Path translation *)

Lemma lower_char_backslash x : Ascii.eqb "\"%char (lower_char x) = Ascii.eqb "\"%char x.
Proof. destruct x as [[] [] [] [] [] [] [] []]; reflexivity. Qed.

Lemma contains_backslash_lower s : contains "\" (lower s) = contains "\" s.
Proof.
  induction s as [|x s IH]; [done|]. cbn [lower].
  rewrite !(contains_char_cons "\"%char), IH, lower_char_backslash. done.
Qed.

Lemma contains_backslash_replace s : contains "\" (replace "\" "/" s) = false.
Proof.
  rewrite replace_split_join by done.
  apply (contains_char_join "\"%char); [done|]. apply split_fuel_free; [done|lia].
Qed.

Lemma contains_backslash_split1 sep s x :
  contains "\" sep = false -> contains "\" s = false -> x ∈ split1 sep s -> contains "\" x = false.
Proof.
  intros Hsep Hs Hx. rewrite <- (join_split1 sep s) in Hs.
  apply (contains_char_join "\"%char) in Hs; [|done].
  rewrite Forall_forall in Hs. by apply Hs.
Qed.

(** C17: A path translated for WSL holds no backslash: every separator of
    the Windows path became a slash, and the drive prefix adds none. *)
Theorem windows_to_linux_path_no_backslash s :
  contains "\" (windows_to_linux_path s) = false.
Proof.
  unfold windows_to_linux_path. pose proof (contains_backslash_replace (strip s)) as Hp.
  set (p := replace "\" "/" (strip s)) in *.
  destruct (contains ":" p); [|done].
  destruct (split1 ":" p) as [|d [|r rest]] eqn:E; try done.
  rewrite !(contains_char_app "\"%char), contains_backslash_lower.
  assert (Hd : contains "\" d = false) by (apply (contains_backslash_split1 ":" p); rewrite ?E; [done|done|set_solver]).
  assert (Hr : contains "\" r = false) by (apply (contains_backslash_split1 ":" p); rewrite ?E; [done|done|set_solver]).
  by rewrite Hd, Hr.
Qed.

(** The reference translation of a separator: a backslash becomes a
    slash, every other character stays. *)
Definition bs_to_slash (c : ascii) : ascii := if Ascii.eqb "\" c then "/" else c.

Lemma colon_bs_to_slash x : Ascii.eqb ":" (bs_to_slash x) = Ascii.eqb ":" x.
Proof. unfold bs_to_slash. destruct (Ascii.eqb_spec "\" x) as [<-|]; reflexivity. Qed.

(** C22: A drive path [D:rest] with no surrounding blank becomes the
    mount point [/mnt/d] of the lower-cased drive letter followed by
    [rest] with every backslash turned into a slash (a later colon
    included): [str.split(':', 1)] cuts at the drive's colon only. *)
Theorem windows_to_linux_path_drive (d : ascii) (rest : string) :
  strip (String d (String ":" rest)) = String d (String ":" rest) ->
  Ascii.eqb d ":" = false -> Ascii.eqb d "\" = false ->
  windows_to_linux_path (String d (String ":" rest)) =
    "/mnt/" +:+ String (lower_char d) EmptyString +:+ map_char bs_to_slash rest.
Proof.
  intros Hs Hc Hb. unfold windows_to_linux_path. rewrite Hs, replace_char_map.
  fold bs_to_slash. cbn [map_char].
  assert (Hd : bs_to_slash d = d) by (unfold bs_to_slash; by rewrite Ascii.eqb_sym, Hb).
  rewrite Hd. change (bs_to_slash ":") with ":"%char.
  rewrite (contains_char_cons ":"%char), (contains_char_cons ":"%char), Ascii.eqb_refl, orb_true_r.
  cbn [split1]. rewrite !prefix_single, Ascii.eqb_sym, Hc, Ascii.eqb_refl. reflexivity.
Qed.

(** C23: A path without a colon (a UNC or relative path) is translated by
    the character-wise map that turns each backslash into a slash,
    applied to the path stripped of its surrounding blanks: the scanning
    [str.replace] of the code agrees with the reference map. *)
Theorem windows_to_linux_path_no_drive s :
  contains ":" s = false -> windows_to_linux_path s = map_char bs_to_slash (strip s).
Proof.
  intros Hs. unfold windows_to_linux_path. rewrite replace_char_map. fold bs_to_slash.
  rewrite (contains_char_map ":"%char) by apply colon_bs_to_slash.
  by rewrite (contains_char_strip ":"%char).
Qed.

Lemma windows_to_linux_path_drive_witness :
  windows_to_linux_path "C:\Users\Name\scans" = "/mnt/c/Users/Name/scans".
Proof. apply (windows_to_linux_path_drive "C" "\Users\Name\scans"); reflexivity. Defined.

Lemma windows_to_linux_path_no_drive_witness :
  windows_to_linux_path " \\server\share " = "//server/share".
Proof. apply windows_to_linux_path_no_drive. reflexivity. Defined.

(** ** The library check's decoding

    Read back from UTF-16-LE as UTF-8, ASCII output becomes each
    character followed by a NUL ([widen]); the code then removes every
    NUL, the ones the output held included ([remove_nul]). *)

Fixpoint remove_nul (s : string) : string :=
  match s with
  | EmptyString => EmptyString
  | String c s' => if Ascii.eqb c (ascii_of_nat 0) then remove_nul s' else String c (remove_nul s')
  end.

Lemma length_widen s : String.length (widen s) = 2 * String.length s.
Proof. induction s as [|c s IH]; [done|]. cbn [widen]. unfold nul. rewrite append_cons, append_nil_l. cbn [String.length]. rewrite IH. lia. Qed.

Lemma replace_fuel_widen f s :
  String.length (widen s) < f -> replace_fuel f nul "" (widen s) = remove_nul s.
Proof.
  revert f. induction s as [|c s IH]; intros f Hf; [by destruct f|].
  rewrite length_widen in Hf. cbn [String.length] in Hf.
  destruct f as [|[|f]]; [lia|lia|]. cbn [widen]. unfold nul. rewrite append_cons, append_nil_l.
  cbn [replace_fuel remove_nul]. rewrite !prefix_single.
  destruct (Ascii.eqb_spec (ascii_of_nat 0) c) as [<-|Hc]; cbn [drop String.length];
    rewrite ?prefix_single, ?Ascii.eqb_refl; cbn [drop String.length replace_fuel];
    rewrite ?append_nil_l.
  - apply IH. rewrite length_widen. lia.
  - rewrite (proj2 (Ascii.eqb_neq c _)) by congruence.
    f_equal. apply IH. rewrite length_widen. lia.
Qed.

Lemma clean_widen s : replace nul "" (widen s) = remove_nul s.
Proof. unfold replace, nul. apply replace_fuel_widen. lia. Qed.

Section LibCheck.
Context `{CondaWSL}.

(** What [check_lib_wsl] does, on every branch: the first command runs,
    its output is decoded (or the decoder raises), then the second. *)
Definition lib_outcome (st : wstate) : outcome wstate ui_error bool :=
  let out1 := shell_stdout (grep_cmd "libxrender1") (denv st) in
  let out2 := shell_stdout (grep_cmd "libgl1-mesa-glx") (denv st) in
  let st1 := record_call (Shell (grep_cmd "libxrender1")) st in
  let st2 := record_call (Shell (grep_cmd "libgl1-mesa-glx")) st1 in
  if ascii_only out1 then
    if ascii_only out2 then
      Ok (contains "libxrender1" (remove_nul out1) && contains "libgl1-mesa-glx" (remove_nul out2)) st2
    else Err UnicodeDecodeError st2
  else Err UnicodeDecodeError st1.

Lemma check_lib_wsl_eq st : check_lib_wsl st = lib_outcome st.
Proof.
  unfold check_lib_wsl, lib_outcome, shell, decode_output, utf16le_as_utf8, io_bind.
  cbn [denv record_call]. destruct (ascii_only _); [|done].
  cbn [io_ret denv record_call]. destruct (ascii_only _); [|done].
  cbn [io_ret]. by rewrite !clean_widen.
Qed.

(** C28: [check_lib_wsl] raises [UnicodeDecodeError] as soon as a
    command's output holds a character from 128 to 255: after the first
    command alone when its output does, after both otherwise. *)
Theorem check_lib_wsl_decode_error st :
  let out1 := shell_stdout (grep_cmd "libxrender1") (denv st) in
  let out2 := shell_stdout (grep_cmd "libgl1-mesa-glx") (denv st) in
  ascii_only out1 = false \/ ascii_only out2 = false ->
  check_lib_wsl st =
    Err UnicodeDecodeError
      (mkW (denv st) (calls st ++ Shell (grep_cmd "libxrender1") ::
                       (if ascii_only out1 then [Shell (grep_cmd "libgl1-mesa-glx")] else []))
           (messages st) (apply_visible st) (pst st)).
Proof.
  intros out1 out2 Hbad. rewrite check_lib_wsl_eq. unfold lib_outcome, record_call. fold out1 out2.
  cbn [denv calls messages apply_visible pst].
  destruct (ascii_only out1) eqn:E1; [|done].
  destruct Hbad as [Hb|Hb]; [congruence|]. rewrite Hb. by rewrite <- app_assoc.
Qed.

(** C29: On ASCII output [check_lib_wsl] runs the two [dpkg -l | grep]
    commands, in this order, and answers whether their outputs, NULs
    removed, name [libxrender1] and [libgl1-mesa-glx]. *)
Theorem check_lib_wsl_result st :
  let out1 := shell_stdout (grep_cmd "libxrender1") (denv st) in
  let out2 := shell_stdout (grep_cmd "libgl1-mesa-glx") (denv st) in
  ascii_only out1 = true -> ascii_only out2 = true ->
  check_lib_wsl st =
    Ok (contains "libxrender1" (remove_nul out1) && contains "libgl1-mesa-glx" (remove_nul out2))
       (mkW (denv st) (calls st ++ [Shell (grep_cmd "libxrender1"); Shell (grep_cmd "libgl1-mesa-glx")])
            (messages st) (apply_visible st) (pst st)).
Proof.
  intros out1 out2 H1 H2. rewrite check_lib_wsl_eq. unfold lib_outcome, record_call. fold out1 out2.
  rewrite H1, H2. cbn. by rewrite <- app_assoc.
Qed.

End LibCheck.

(** A manager whose [dpkg] output is French: ["résumé"] holds the
    Latin-1 character U+00E9. *)
Definition latin1_conda : CondaWSL := {|
  cenv := scripted;
  testWslAvailable := s_wsl;
  getCondaExecutable _ := "/home/user/miniconda3/bin/conda";
  getCondaPath _ := "/home/user/miniconda3";
  condaRunCommand := scripted_run;
  condaTestEnv n e := bool_decide (n ∈ s_envs e);
  condaCreateEnv n _ e := e;
  shell_stdout cmd e := "ii  libxrender1  r" +:+ String (ascii_of_nat 233) "sum"
|}.

Lemma check_lib_wsl_decode_error_witness :
  let st := @mkW latin1_conda (mkScripted true true true true [] false) [] [] true
              (mkP 0 0 0 false 0 "" "" false 0 "" false false) in
  @check_lib_wsl latin1_conda st =
    Err UnicodeDecodeError (@mkW latin1_conda (denv st) [Shell (grep_cmd "libxrender1")]
                                 (messages st) (apply_visible st) (pst st)).
Proof.
  cbv zeta. rewrite (@check_lib_wsl_decode_error latin1_conda) by (left; vm_compute; reflexivity).
  vm_compute. reflexivity.
Defined.

Lemma check_lib_wsl_result_witness :
  let st := @mkW scripted_conda (mkScripted true true true true [] false) [] [] true
              (mkP 0 0 0 false 0 "" "" false 0 "" false false) in
  check_lib_wsl st =
    Ok true (mkW (denv st) (calls st ++ [Shell (grep_cmd "libxrender1");
                                         Shell (grep_cmd "libgl1-mesa-glx")])
                 (messages st) (apply_visible st) (pst st)).
Proof. cbv zeta. rewrite check_lib_wsl_result by (vm_compute; reflexivity). vm_compute. reflexivity. Defined.

Lemma process_wsl_no_launch_witness :
  exists st', @process_wsl scripted_conda ["C:\Slicer"] []
      (@mkW scripted_conda (mkScripted true true true true [] false) [] [] true
            (mkP 0 0 0 false 0 "" "" false 0 "" false false)) = Ok tt st' /\ length (calls st') = 3.
Proof.
  destruct (@process_wsl_no_launch scripted_conda ["C:\Slicer"] []
    (@mkW scripted_conda (mkScripted true true true true [] false) [] [] true
          (mkP 0 0 0 false 0 "" "" false 0 "" false false)))
    as (st' & Hrun & Hcalls); [reflexivity|reflexivity|].
  exists st'. split; [exact Hrun|]. rewrite Hcalls. reflexivity.
Defined.

End Bridge.
