(* ===== verification/Dispatcher.v ===== *)
(** * The Apply button: dispatching the worker

    [replaceAllWidget.onApplyButton] (src/replaceAll/replaceAll.py, lines
    303-422) builds the parameter dictionary from the form and then
    - on Windows hides the button, checks that WSL and its libraries are
      there and that conda answers, offers to create the [replaceAll]
      environment when it is missing, launches the worker in it
      ([process_wsl]), and polls the log file until the thread ends;
    - elsewhere validates the form ([_checkIO], lines 264-283), builds a
      [replaceAllLogic] (lines 648-658) and runs the CLI module
      ([process], lines 660-672), whose completion [onProcessUpdate]
      observes.
    The worker's entry point (replaceAll_WSL.py, lines 62-73) parses six
    positional arguments.

    The host's inputs (operating system, file system, the module search
    paths, the user's answer to the confirmation box, and the file systems
    the polling loop observes while the worker thread runs) are a record
    [host]; the threads the code starts are joined before the code goes on
    (its [while process.is_alive()] loops), so they run in sequence here. *)

From stdpp Require Import base list strings gmap pretty.
From Stdlib Require Import Ascii ZArith.
From S2P Require Import Prelude PyStr PosixPath FileSystem BatchTransformer Progress WslBridge.

Module Dispatch.
Import Str Path FS Worker Progress Bridge.

(** The form's fields ([lineEdit_inputFolder] and so on). *)
Record form : Type := mkForm {
  input_text : string;
  replace_text : string;
  by_text : string;
  output_text : string;
  overwrite_checked : bool
}.

Record host : Type := mkHost {
  system : string;
  host_fs : fs;
  search_paths : list string;
  user_yes : bool;
  wsl_polls : list (fs * Z);    (** what each pass of the WSL loop observes, and when *)
  log_path_str : string;        (** [self.log_path] *)
  start_time : Z                (** [time.time()] when the run starts, in milliseconds *)
}.

(** A path string as the host resolves it. *)
Definition host_path (s : string) : path := join_path [] s.

Definition nl : string := String (ascii_of_nat 10) EmptyString.

Definition param_of (f : form) (log_path : string) : list (string * pyval) :=
  [("input_folder", VStr (input_text f)); ("replace", VStr (replace_text f));
   ("by", VStr (by_text f)); ("output_folder", VStr (output_text f));
   ("overwrite", VBool (overwrite_checked f)); ("log_path", VStr log_path)].

(** ** The worker's command line (replaceAll_WSL.py, lines 62-73) *)

(** [argparse] of the worker's interpreter (Python 3.9, the version
    [creation_env_wsl] pins) with the six positional arguments and the
    [-h]/[--help] option every parser has.  Each argument string is
    classified as [_parse_optional] does: a positional, the help option
    (also abbreviated, [--h], [--he], [--hel], or repeated, [-hh]), an
    option given an argument it cannot take ([--help=x], [-hx]), raised
    at once, or an unknown option, reported once the line is read. *)
Inductive arg_class : Type :=
| APositional
| AHelp
| AErrorNow
| AUnknown.

Definition is_digit (c : ascii) : bool :=
  (48 <=? Ascii.nat_of_ascii c) && (Ascii.nat_of_ascii c <=? 57).

Definition all_chars (p : ascii -> bool) (s : string) : bool :=
  forallb p (String.list_ascii_of_string s).

(** [_negative_number_matcher]: [^-\d+$|^-\d*\.\d+$], after the dash. *)
Definition negative_number_tail (r : string) : bool :=
  match Str.split1 "." r with
  | [x] => negb (String.eqb x "") && all_chars is_digit x
  | [x; y] => all_chars is_digit x && negb (String.eqb y "") && all_chars is_digit y
  | _ => false
  end.

(** [parser._parse_optional(arg_string)] and, for the help option, the
    explicit-argument check of [consume_optional]. *)
Definition classify (a : string) : arg_class :=
  match a with
  | String c r =>
      if negb (Ascii.eqb c "-") then APositional
      else if String.eqb a "-h" || String.eqb a "--help" then AHelp
      else match r with
      | EmptyString => APositional
      | String d r' =>
          let opt := hd "" (Str.split1 "=" a) in
          if Ascii.eqb d "-" && String.prefix opt "--help" then
            (if Str.contains "=" a then AErrorNow else AHelp)
          else if Ascii.eqb d "h" then
            (let explicit := if String.prefix "-h=" a then Str.drop 3 a else r' in
             if negb (String.eqb explicit "") && all_chars (Ascii.eqb "h") explicit
             then AHelp else AErrorNow)
          else if negative_number_tail r then APositional
          else if Str.contains " " a then APositional
          else AUnknown
      end
  | EmptyString => APositional
  end.

(** What [parse_args] does with the command line. *)
Inductive parsed : Type :=
| Parsed (a : args)
| ArgHelp          (** prints the usage and exits with status 0 *)
| ArgError.        (** prints the usage and an error, exits with status 2 *)

(** The strings left to right: ["--"] makes every later one positional
    (the first ["--"] is dropped); help and explicit-argument errors act
    where they stand; the positionals and the unknown options are counted. *)
Fixpoint scan_args (argv : list string) (pos : list string) (unknown : bool)
    : parsed + (list string * bool) :=
  match argv with
  | [] => inr (pos, unknown)
  | a :: rest =>
      if String.eqb a "--" then inr (pos ++ rest, unknown)
      else match classify a with
           | APositional => scan_args rest (pos ++ [a]) unknown
           | AHelp => inl ArgHelp
           | AErrorNow => inl ArgError
           | AUnknown => scan_args rest pos true
           end
  end.

(** [parser.parse_args()]: the six positionals bound in order, each as
    [str]; missing or extra arguments and unknown options are errors. *)
Definition parse_args (argv : list string) : parsed :=
  match scan_args argv [] false with
  | inl p => p
  | inr ([i; r; b; o; ov; l], false) => Parsed (mkArgs (host_path i) r b (host_path o) ov (host_path l))
  | inr _ => ArgError
  end.

(** ** The replaceAllLogic class *)

Record logic : Type := mkLogic {
  l_input_folder : pyval;
  l_replace : pyval;
  l_by : pyval;
  l_output_folder : pyval;
  l_overwrite : pyval;
  l_log_path : pyval
}.

(** [replaceAllLogic(...)]: positional arguments bind in order, the
    missing ones default to [None]. *)
Definition replaceAllLogic (args : list pyval) : logic :=
  mkLogic (nth 0 args VNone) (nth 1 args VNone) (nth 2 args VNone)
          (nth 3 args VNone) (nth 4 args VNone) (nth 5 args VNone).

(** The parameters [process] hands to [slicer.cli.run]. *)
Definition cli_parameters (lg : logic) : list (string * pyval) :=
  [("input_folder", l_input_folder lg); ("replace", l_replace lg); ("by", l_by lg);
   ("output_folder", l_output_folder lg); ("overwrite", VStr (py_str (l_overwrite lg)));
   ("log_path", l_log_path lg)].

Section Apply.
Context `{CondaWSL} `{Listing}.

Definition process (lg : logic) : wio unit :=
  io_modify (record_call (CliRun (cli_parameters lg))).

(** [_checkIO()] *)
Definition checkIO (f : form) (w : fs) : wio bool :=
  let exists_input := bool_decide (is_Some (nodes w !! host_path (input_text f))) in
  let warning_text :=
    (if negb exists_input || String.eqb (input_text f) ""
     then "Please enter a valid input path" +:+ nl else "") +:+
    (if String.eqb (output_text f) "" then "Please enter a valid output path" +:+ nl else "") +:+
    (if String.eqb (by_text f) "" then "Please enter the word to replace" +:+ nl else "") +:+
    (if String.eqb (replace_text f) "" then "Please enter the word to be replaced" +:+ nl else "") in
  if String.eqb warning_text "" then io_ret true
  else show_message warning_text ;; io_ret false.

Definition installer_url : string :=
  "https://github.com/DCBIA-OrthoLab/SlicerAutomatedDentalTools/releases/download/wsl2_windows/installer_wsl2.zip".

Definition lib_text : string :=
  "Code can't be launch. " +:+ nl +:+
  "WSL doen't have all the necessary libraries, please download the installer and follow the instructin here : "
  +:+ installer_url +:+ nl +:+ "Downloading may be blocked by Chrome, this is normal, just authorize it.".

Definition wsl_text : string :=
  "Code can't be launch. " +:+ nl +:+
  "WSL is not installed, please download the installer and follow the instructin here : "
  +:+ installer_url +:+ nl +:+ "Downloading may be blocked by Chrome, this is normal, just authorize it.".

Definition conda_text : string :=
  "Code can't be launch. " +:+ nl +:+
  "Conda is not setup in WSL. Please go the extension CondaSetUp in SlicerConda to do it.".

Definition hide_apply : wio unit :=
  io_modify (fun st => mkW (denv st) (calls st) (messages st) false (pst st)).

(** Lines 313-327: WSL and its libraries. *)
Definition wsl_ready : wio bool :=
  st <- io_get ;;
  if testWslAvailable (denv st) then
    lib <- check_lib_wsl ;;
    if lib then io_ret true else show_message lib_text ;; io_ret false
  else show_message wsl_text ;; io_ret false.

(** Lines 329-335: conda answers [--version] without an error. *)
Definition conda_ready : wio bool :=
  conda <- conda_exe ;;
  out <- run_command [conda; "--version"] ;;
  if contains "Error" out then show_message conda_text ;; io_ret false else io_ret true.

(** Lines 339-362: the environment exists, or the user agrees to create
    it and [creation_env_wsl] runs (to its end: the loop waits for the
    thread). *)
Definition env_ready (h : host) : wio bool :=
  st <- io_get ;;
  if negb (condaTestEnv name_env (denv st)) then
    if user_yes h then creation_env_wsl (search_paths h) ;; io_ret true
    else io_ret false
  else io_ret true.

(** Lines 364-396: launch, count the entries, poll, then report success. *)
Definition run_wsl (h : host) (f : form) (param : list (string * pyval)) : wio unit :=
  process_wsl (search_paths h) param ;;
  on_pst (onProcessStarted (host_path (input_text f)) (host_fs h) (start_time h)) ;;
  on_pst (for_each (wsl_polls h) (poll_at (host_path (log_path_str h)))) ;;
  on_pst show_success.

(** [onApplyButton()] *)
Definition onApplyButton (h : host) (f : form) : wio unit :=
  let param := param_of f (log_path_str h) in
  if String.eqb (system h) "Windows" then
    hide_apply ;;
    ready <- wsl_ready ;;
    ready <- (if ready then conda_ready else io_ret false) ;;
    if ready then
      ready <- env_ready h ;;
      if ready then run_wsl h f param else io_ret tt
    else io_ret tt
  else
    ok <- checkIO f (host_fs h) ;;
    if ok then
      let lg := replaceAllLogic [VDict param] in
      process lg ;;
      on_pst (onProcessStarted (host_path (input_text f)) (host_fs h) (start_time h))
    else io_ret tt.

End Apply.

(** ** Quote removal by the command runner

    The environment manager passes the command to [bash] in WSL, which
    removes the double quotes [process_wsl] puts around every argument. *)

Fixpoint init (s : string) : string :=
  match s with
  | EmptyString => EmptyString
  | String c r => match r with EmptyString => EmptyString | _ => String c (init r) end
  end.

(** Inside double quotes bash keeps every character but [$] and the
    backquote, which start expansions, the double quote, which ends the
    quoted text, and the backslash, which escapes a following [$],
    backquote, double quote, backslash or newline and is kept before any
    other character.  [None]: the word holds an expansion or a quote the
    model does not follow. *)
Definition escapable (d : ascii) : bool :=
  Ascii.eqb d "$" || Ascii.eqb d "`" || Ascii.eqb d (ascii_of_nat 34) ||
  Ascii.eqb d "\" || Ascii.eqb d (ascii_of_nat 10).

Fixpoint dq_body (s : string) : option string :=
  match s with
  | EmptyString => Some EmptyString
  | String c r =>
      if Ascii.eqb c "\" then
        match r with
        | EmptyString => None
        | String d r' => if escapable d then String d <$> dq_body r' else String c <$> dq_body r
        end
      else if Ascii.eqb c "$" || Ascii.eqb c "`" || Ascii.eqb c (ascii_of_nat 34) then None
      else String c <$> dq_body r
  end.

(** Quote removal of a word written ["..."]. *)
Definition unquote (w : string) : option string :=
  match w with
  | String q r =>
      if Ascii.eqb q (ascii_of_nat 34) && negb (String.eqb r "") &&
         String.eqb (Str.drop (pred (String.length r)) r) dq
      then dq_body (init r) else None
  | EmptyString => None
  end.

(** Whether a trace launched the worker module. *)
Definition launched_worker (cs : list call) : bool :=
  existsb (fun c => match c with
                    | RunCommand argv => bool_decide (worker_module ∈ argv)
                    | _ => false
                    end) cs.

(** A Windows host with the input folder [C:\data\in] holding one image. *)
Definition demo_host (yes : bool) : host :=
  mkHost "Windows"
    {| nodes := list_to_map [([], Dir); (["C:\data\in"], Dir);
                             (["C:\data\in"; "scan.nii"], File "ITKimg" 1)];
       clock := 1; writes := []; FS.tick := fun n => n |}
    ["C:\Slicer\lib"] yes [] "C:\Temp\process.log" 0.

(** The same host under Linux. *)
Definition linux_host : host :=
  mkHost "Linux" (host_fs (demo_host false)) [] false [] "/tmp/process.log" 0.

Definition demo_state (e : scripted) : wstate :=
  @mkW scripted_conda e [] [] true (mkP 0 0 0 false 0 "" "" false 0 "" false false).

(** ** Lemmas on the handler's pieces *)

Section Lemmas.
Context `{CondaWSL} `{Listing}.

Lemma on_pst_calls {A} (m : uio A) st :
  calls (final_state (on_pst m st)) = calls st /\ messages (final_state (on_pst m st)) = messages st.
Proof. unfold on_pst. by destruct (m (pst st)). Qed.

Lemma eqb_empty_false (x : string) : x <> "" -> String.eqb x "" = false.
Proof. intros Hx. by apply String.eqb_neq. Qed.

Lemma checkIO_ok f w st :
  is_Some (nodes w !! host_path (input_text f)) ->
  input_text f <> "" -> output_text f <> "" -> replace_text f <> "" -> by_text f <> "" ->
  checkIO f w st = Ok true st.
Proof.
  intros Hin Hi Ho Hr Hb. unfold checkIO.
  rewrite bool_decide_true by done. rewrite (eqb_empty_false (input_text f)), (eqb_empty_false (output_text f)), (eqb_empty_false (by_text f)), (eqb_empty_false (replace_text f)) by done.
  reflexivity.
Qed.
End Lemmas.

(** ** The Linux and macOS branch *)

(** The parameters the CLI module receives when the form is [f]. *)
Definition linux_cli_parameters (f : form) (log_path : string) : list (string * pyval) :=
  [("input_folder", VDict (param_of f log_path)); ("replace", VNone); ("by", VNone);
   ("output_folder", VNone); ("overwrite", VStr "None"); ("log_path", VNone)].

(** C4: Off Windows, a valid form runs the CLI module once, but
    [replaceAllLogic(param,)] binds the whole dictionary to [input_folder]
    and leaves the other five fields at [None]: the CLI receives the
    dictionary as its input folder, [None] as the strings and the folders,
    and ["None"] as the overwrite flag, which is never ["False"], so the
    worker's copy pass is skipped whatever the check box says. *)
Theorem onApplyButton_cli_parameters `{CondaWSL} `{Listing} h f st :
  String.eqb (system h) "Windows" = false ->
  is_Some (nodes (host_fs h) !! host_path (input_text f)) ->
  input_text f <> "" -> output_text f <> "" -> replace_text f <> "" -> by_text f <> "" ->
  calls (final_state (onApplyButton h f st)) =
    calls st ++ [CliRun (linux_cli_parameters f (log_path_str h))] /\
  String.eqb (py_str (VStr "None")) "False" = false.
Proof.
  intros Hsys Hin Hi Ho Hr Hb. split; [|done].
  unfold onApplyButton. rewrite Hsys. unfold io_bind at 1. rewrite checkIO_ok by done.
  unfold io_bind, process, io_modify. by rewrite (proj1 (on_pst_calls _ _)).
Qed.

(** C20: Off Windows, a form whose word to be replaced is empty is refused
    by [_checkIO]: one warning asking for it is shown and nothing is run. *)
Theorem onApplyButton_checkIO_refuses `{CondaWSL} `{Listing} h f st :
  String.eqb (system h) "Windows" = false -> replace_text f = "" ->
  exists txt, onApplyButton h f st =
    Ok tt (mkW (denv st) (calls st) (messages st ++ [txt]) (apply_visible st) (pst st)) /\
    contains "Please enter the word to be replaced" txt = true.
Proof.
  intros Hsys Hr. unfold onApplyButton. rewrite Hsys. unfold checkIO. rewrite Hr, (String.eqb_refl "").
  set (txt := _ +:+ _ +:+ _ +:+ ("Please enter the word to be replaced" +:+ nl)).
  assert (Hc : contains "Please enter the word to be replaced" txt = true).
  { unfold txt. do 3 apply contains_app_r. apply contains_prefix. }
  assert (Hne : String.eqb txt "" = false).
  { apply String.eqb_neq. intros E. rewrite E in Hc. discriminate. }
  exists txt. rewrite Hne. split; [reflexivity|done].
Qed.

(** ** The Windows branch *)

(** A call that creates the environment or launches the worker. *)
Definition launches (c : call) : Prop :=
  match c with
  | CreateEnv _ _ => True
  | RunCommand argv => exists conda p, argv = worker_command conda p
  | _ => False
  end.

Section WindowsLemmas.
Context `{CondaWSL} `{Listing}.

Definition hidden (st : wstate) : wstate :=
  mkW (denv st) (calls st) (messages st) false (pst st).

(** [wsl_ready] asks and tells, and launches nothing, whether it answers
    or [check_lib_wsl] raises. *)
Lemma wsl_ready_ok st :
  let st' := final_state (wsl_ready st) in
  denv st' = denv st /\ pst st' = pst st /\
  exists new, calls st' = calls st ++ new /\ Forall (fun c => ¬ launches c) new.
Proof.
  unfold wsl_ready, io_bind, io_get. destruct (testWslAvailable (denv st)).
  - rewrite check_lib_wsl_eq. unfold lib_outcome, record_call.
    destruct (ascii_only _); [destruct (ascii_only _); [destruct (_ && _)|]|]; cbn;
      (split_and!; [done|done|]); eexists; (split; [by rewrite <- ?app_assoc|]);
      repeat constructor; simpl; tauto.
  - cbn. split_and!; [done|done|]. exists []. split; [by rewrite app_nil_r|constructor].
Qed.

Lemma version_not_launch conda : ¬ launches (RunCommand [conda; "--version"]).
Proof. intros (c & p & E). apply (f_equal length) in E. simpl in E. lia. Qed.

Lemma conda_ready_ok st :
  let argv := [getCondaExecutable (denv st); "--version"] in
  exists b st', conda_ready st = Ok b st' /\
    denv st' = (condaRunCommand argv (denv st)).2 /\ pst st' = pst st /\
    calls st' = calls st ++ [RunCommand argv].
Proof.
  unfold conda_ready, io_bind, conda_exe. rewrite run_command_ok.
  destruct (contains "Error" _); do 2 eexists; (split; [reflexivity|]); done.
Qed.
End WindowsLemmas.

(** What [check_lib_wsl] answers on the manager's state [e]; [None] when
    it raises [UnicodeDecodeError]. *)
Definition libs_found `{CondaWSL} (e : cenv) : option bool :=
  let out1 := shell_stdout (grep_cmd "libxrender1") e in
  let out2 := shell_stdout (grep_cmd "libgl1-mesa-glx") e in
  if ascii_only out1 && ascii_only out2
  then Some (contains "libxrender1" (remove_nul out1) && contains "libgl1-mesa-glx" (remove_nul out2))
  else None.

Section Guards.
Context `{CondaWSL} `{Listing}.

Lemma wsl_ready_true st st' :
  wsl_ready st = Ok true st' -> testWslAvailable (denv st) = true /\ libs_found (denv st) = Some true.
Proof.
  unfold wsl_ready, io_bind, io_get. destruct (testWslAvailable (denv st)); [|done].
  rewrite check_lib_wsl_eq. unfold lib_outcome, libs_found.
  destruct (ascii_only _); [|done]. destruct (ascii_only _); [|done]. cbn.
  by destruct (_ && _).
Qed.

Lemma conda_ready_true st st' :
  conda_ready st = Ok true st' ->
  contains "Error" (condaRunCommand [getCondaExecutable (denv st); "--version"] (denv st)).1 = false.
Proof.
  unfold conda_ready, io_bind, conda_exe. rewrite run_command_ok.
  by destruct (contains "Error" _).
Qed.

End Guards.

(** C13: On Windows every readiness check guards the launch: when WSL is
    missing, its libraries are not found, conda answers [--version] with
    an error, or the [replaceAll] environment is missing and the user
    declines to create it, nothing creates the environment or launches the
    worker, and the progress display is left as it was. *)
Theorem onApplyButton_windows_guarded `{CondaWSL} `{Listing} h f st :
  String.eqb (system h) "Windows" = true ->
  let out := condaRunCommand [getCondaExecutable (denv st); "--version"] (denv st) in
  testWslAvailable (denv st) = false \/ libs_found (denv st) <> Some true \/
  contains "Error" out.1 = true \/ (condaTestEnv name_env out.2 = false /\ user_yes h = false) ->
  exists new, calls (final_state (onApplyButton h f st)) = calls st ++ new /\
    Forall (fun c => ¬ launches c) new /\ pst (final_state (onApplyButton h f st)) = pst st.
Proof.
  intros Hsys out Hfail. unfold onApplyButton. rewrite Hsys.
  rewrite (io_bind_ok _ _ st tt (hidden st)) by reflexivity.
  pose proof (wsl_ready_ok (hidden st)) as (Hd2 & Hp2 & new & Hc2 & Hn2).
  destruct (wsl_ready (hidden st)) as [b st2|e st2] eqn:Hw; cbn [final_state] in *.
  2:{ rewrite (io_bind_err _ _ _ _ _ Hw). exists new. unfold hidden in *; simpl in *.
      by rewrite Hc2, Hp2. }
  rewrite (io_bind_ok _ _ _ _ _ Hw). unfold hidden in *; simpl in *.
  destruct b; [|exists new; simpl; by rewrite Hc2, Hp2].
  apply wsl_ready_true in Hw as [Ht Hl]. simpl in Ht, Hl.
  assert (Hv := version_not_launch (getCondaExecutable (denv st))).
  destruct (conda_ready_ok st2) as (b' & st3 & Hc & Hd3 & Hp3 & Hc3).
  rewrite (io_bind_ok _ _ _ _ _ Hc). rewrite Hd2 in Hd3, Hc3.
  exists (new ++ [RunCommand [getCondaExecutable (denv st); "--version"]]).
  assert (Hf : Forall (fun c => ¬ launches c) (new ++ [RunCommand [getCondaExecutable (denv st); "--version"]]))
    by (apply Forall_app; split; [done|by constructor]).
  destruct b'; cbn [io_ret].
  - apply conda_ready_true in Hc. rewrite Hd2 in Hc. fold out in Hc.
    destruct Hfail as [Hf'|[Hf'|[Hf'|[Henv Hno]]]]; try congruence.
    assert (He : env_ready h st3 = Ok false st3)
      by (unfold env_ready, io_bind, io_get; rewrite Hd3; fold out; rewrite Henv, Hno; reflexivity).
    rewrite (io_bind_ok _ _ _ _ _ He). simpl.
    rewrite Hc3, Hc2, <- app_assoc. split_and!; [done|done|by rewrite Hp3].
  - simpl. rewrite Hc3, Hc2, <- app_assoc. split_and!; [done|done|by rewrite Hp3].
Qed.

Lemma onApplyButton_windows_guarded_witness :
  exists new,
    calls (final_state (@onApplyButton scripted_conda map_listing (demo_host false)
             (mkForm "C:\data\in" "scan" "study" "C:\data\out" false)
             (demo_state (mkScripted true true true true [] false)))) = [] ++ new /\
    Forall (fun c => ¬ launches c) new /\
    pst (final_state (@onApplyButton scripted_conda map_listing (demo_host false)
             (mkForm "C:\data\in" "scan" "study" "C:\data\out" false)
             (demo_state (mkScripted true true true true [] false)))) =
      mkP 0 0 0 false 0 "" "" false 0 "" false false.
Proof.
  apply onApplyButton_windows_guarded; [reflexivity|]. right. right. right. split; reflexivity.
Defined.

Lemma init_snoc v : init (v +:+ dq) = v.
Proof.
  induction v as [|a v IH]; [reflexivity|]. rewrite Str.append_cons. cbn [init].
  destruct (v +:+ dq) eqn:E; [destruct v; discriminate|]. by rewrite IH.
Qed.

(** A value bash leaves as it is between double quotes. *)
Definition plain_dq (v : string) : bool :=
  all_chars (fun c => negb (escapable c)) v.

Lemma dq_body_plain v : plain_dq v = true -> dq_body v = Some v.
Proof.
  induction v as [|c v IH]; [done|]. unfold plain_dq, all_chars. cbn.
  intros [Hc Hv]%andb_true_iff. apply negb_true_iff in Hc. unfold escapable in Hc.
  rewrite !orb_false_iff in Hc. destruct Hc as [[[[H1 H2] H3] H4] H5].
  rewrite H4, H1, H2, H3. cbn. fold (all_chars (fun c => negb (escapable c)) v) in Hv.
  by rewrite IH.
Qed.

Lemma drop_last_dq v : Str.drop (pred (String.length (v +:+ dq))) (v +:+ dq) = dq.
Proof. induction v as [|a v IH]; [done|]. rewrite Str.append_cons. cbn [String.length pred Str.drop].
  destruct v; [done|]. exact IH. Qed.

Lemma unquote_quoted v : plain_dq v = true -> unquote (dq +:+ v +:+ dq) = Some v.
Proof.
  intros Hv. unfold dq at 1. rewrite Str.append_cons, Str.append_nil_l. cbn [unquote].
  rewrite drop_last_dq, init_snoc, String.eqb_refl, dq_body_plain by done.
  by destruct v.
Qed.

Lemma eqb_dashdash_false v : v <> "--" -> String.eqb v "--" = false.
Proof. apply String.eqb_neq. Qed.

(** C16: The worker's command line, once bash has removed the quotes
    [process_wsl] puts around each value, holds the three paths translated
    for WSL, the two words and [str(overwrite)], in the order its parser
    reads them.  When the paths and the [by] word are plain, the parse
    depends on the [replace] word alone: a plain word gives the six
    fields, while a word argparse takes for an option, such as [-old],
    makes the worker exit with an error (or print its usage for [-h])
    before any file is touched.  [str(overwrite)] is ["False"] exactly
    when the check box is clear. *)
Theorem wsl_argv_parse conda f log :
  let i := windows_to_linux_path (input_text f) in
  let o := windows_to_linux_path (output_text f) in
  let l := windows_to_linux_path log in
  let ov := if overwrite_checked f then "True" else "False" in
  Forall (fun v => plain_dq v = true /\ v <> "--") [i; replace_text f; by_text f; o; l] ->
  Forall (fun v => classify v = APositional) [i; by_text f; o; l] ->
  map unquote (skipn 7 (worker_command conda (translate_param (param_of f log)))) =
    map Some [i; replace_text f; by_text f; o; ov; l] /\
  parse_args [i; replace_text f; by_text f; o; ov; l] =
    match classify (replace_text f) with
    | APositional => Parsed (mkArgs (host_path i) (replace_text f) (by_text f) (host_path o) ov (host_path l))
    | AHelp => ArgHelp
    | _ => ArgError
    end /\
  String.eqb ov "False" = negb (overwrite_checked f).
Proof.
  intros i o l ov Hq Hc.
  repeat match goal with H : Forall _ (_ :: _) |- _ => apply Forall_cons in H as [? H] end.
  repeat match goal with H : _ /\ _ |- _ => destruct H end.
  split_and!.
  - assert (E : skipn 7 (worker_command conda (translate_param (param_of f log))) =
                 map (fun v => dq +:+ v +:+ dq) [i; replace_text f; by_text f; o; ov; l])
      by (cbn; unfold ov; destruct (overwrite_checked f); reflexivity).
    rewrite E. cbn [map].
    rewrite !unquote_quoted by (done || (unfold ov; by destruct (overwrite_checked f))).
    reflexivity.
  - assert (Hov : classify ov = APositional /\ String.eqb ov "--" = false)
      by (unfold ov; destruct (overwrite_checked f); split; reflexivity).
    destruct Hov as [Hov1 Hov2]. clearbody i o l ov.
    unfold parse_args. destruct (classify (replace_text f)) eqn:Er;
      repeat progress (cbn [scan_args app]; rewrite ?Er, ?Hov2;
        repeat match goal with
               | H : ?v <> "--" |- context [String.eqb ?v "--"] => rewrite (eqb_dashdash_false v H)
               | H : classify ?v = APositional |- context [classify ?v] => rewrite H
               end); reflexivity.
  - unfold ov. by destruct (overwrite_checked f).
Qed.

(** The worker started with the word [-old] to replace: argparse takes
    it for an unknown option and the worker exits with an error. *)
Lemma wsl_argv_parse_witness :
  let f := mkForm "C:\data\in" "-old" "new" "C:\data\out" false in
  map unquote (skipn 7 (worker_command "conda" (translate_param (param_of f "C:\Temp\run.log")))) =
    map Some ["/mnt/c/data/in"; "-old"; "new"; "/mnt/c/data/out"; "False"; "/mnt/c/Temp/run.log"] /\
  parse_args ["/mnt/c/data/in"; "-old"; "new"; "/mnt/c/data/out"; "False"; "/mnt/c/Temp/run.log"] = ArgError.
Proof.
  cbv zeta.
  destruct (wsl_argv_parse "conda" (mkForm "C:\data\in" "-old" "new" "C:\data\out" false) "C:\Temp\run.log")
    as (Hu & Hp & _).
  - repeat constructor; try (vm_compute; reflexivity); intros E; vm_compute in E; discriminate E.
  - repeat constructor; vm_compute; reflexivity.
  - split; [exact Hu|]. etransitivity; [exact Hp|]. vm_compute. reflexivity.
Defined.

(** ** The Windows run, once the checks pass *)

Section WindowsRun.
Context `{CondaWSL} `{Listing}.

Definition no_error (e : ui_error) : Prop := False.

Lemma never_raises_ok {A} (m : wio A) st :
  raises_only no_error m -> exists a st', m st = Ok a st'.
Proof. intros Hm. specialize (Hm st). destruct (m st); [by do 2 eexists|done]. Qed.

Lemma run_command_never argv : raises_only no_error (run_command argv).
Proof. intros st. unfold run_command. by destruct (condaRunCommand argv (denv st)). Qed.

Lemma conda_exe_never : raises_only no_error conda_exe.
Proof. by intros st. Qed.

Lemma on_pst_raises {A} P (m : uio A) : raises_only P m -> raises_only P (on_pst m).
Proof. intros Hm st. unfold on_pst. specialize (Hm (pst st)). by destruct (m (pst st)). Qed.

(** The environment manager's calls never raise in the widget's code. *)
Ltac never_raises :=
  repeat first
    [ apply raises_only_bind; [|intros ?]
    | apply raises_only_ret | apply raises_only_modify | apply raises_only_get
    | apply run_command_never | apply conda_exe_never
    | match goal with |- raises_only _ (if ?b then _ else _) => destruct b end ].

Lemma probe_with_retry_never paths file : raises_only no_error (probe_with_retry paths file).
Proof. unfold probe_with_retry, check_pythonpath_windows, give_pythonpath_windows. never_raises. Qed.

Lemma process_wsl_never paths param : raises_only no_error (process_wsl paths param).
Proof.
  unfold process_wsl. apply raises_only_bind; [apply probe_with_retry_never|intros ?]. never_raises.
Qed.

Lemma creation_env_wsl_never paths : raises_only no_error (creation_env_wsl paths).
Proof.
  unfold creation_env_wsl. apply raises_only_bind; [apply raises_only_modify|intros ?].
  apply raises_only_bind; [apply probe_with_retry_never|intros ?]. never_raises.
Qed.

(** [run_wsl] ends showing success whenever it returns; what it raises
    comes from the progress display. *)
Lemma run_wsl_reports h f param st :
  match run_wsl h f param st with
  | Ok _ st' => label_success (pst st') = true /\ bar_value (pst st') = 10000%Z
  | Err e _ => progress_error e
  end.
Proof.
  destruct (never_raises_ok _ st (process_wsl_never (search_paths h) param)) as ([] & st1 & Hp).
  unfold run_wsl. rewrite (io_bind_ok _ _ _ _ _ Hp). unfold io_bind.
  pose proof (on_pst_raises _ _ (onProcessStarted_raises (host_path (input_text f)) (host_fs h) (start_time h)) st1) as H1.
  destruct (on_pst _ st1) as [[] st2|e st2]; [|exact H1].
  pose proof (on_pst_raises _ _ (raises_only_for_each _ (wsl_polls h) _
    (poll_at_raises (host_path (log_path_str h)))) st2) as H2.
  destruct (on_pst _ st2) as [[] st3|e st3]; [|exact H2].
  unfold on_pst. pose proof (show_success_shows (pst st3)) as H3.
  by destruct (show_success (pst st3)).
Qed.

Lemma wsl_ready_pass st :
  testWslAvailable (denv st) = true -> libs_found (denv st) = Some true ->
  wsl_ready st = Ok true (record_call (Shell (grep_cmd "libgl1-mesa-glx"))
                           (record_call (Shell (grep_cmd "libxrender1")) st)).
Proof.
  intros Ht Hl. unfold wsl_ready, io_bind, io_get. rewrite Ht, check_lib_wsl_eq.
  unfold libs_found in Hl. unfold lib_outcome.
  destruct (ascii_only _), (ascii_only _); try done. cbn in Hl. injection Hl as ->. reflexivity.
Qed.

Lemma conda_ready_pass st :
  let argv := [getCondaExecutable (denv st); "--version"] in
  contains "Error" (condaRunCommand argv (denv st)).1 = false ->
  conda_ready st = Ok true (after_run argv st).
Proof. intros argv Hc. unfold argv in *. unfold conda_ready, io_bind, conda_exe. rewrite run_command_ok. by rewrite Hc. Qed.

(** The three checks pass: [onApplyButton] runs [run_wsl] on the state
    they leave. *)
Lemma onApplyButton_checks_pass h f st :
  String.eqb (system h) "Windows" = true ->
  let argv := [getCondaExecutable (denv st); "--version"] in
  testWslAvailable (denv st) = true -> libs_found (denv st) = Some true ->
  contains "Error" (condaRunCommand argv (denv st)).1 = false ->
  let st2 := after_run argv (record_call (Shell (grep_cmd "libgl1-mesa-glx"))
               (record_call (Shell (grep_cmd "libxrender1")) (hidden st))) in
  onApplyButton h f st =
    (ready <- env_ready h ;; if ready then run_wsl h f (param_of f (log_path_str h)) else io_ret tt) st2.
Proof.
  intros Hsys argv Ht Hl Hc st2. unfold onApplyButton. rewrite Hsys.
  rewrite (io_bind_ok _ _ st tt (hidden st)) by reflexivity.
  rewrite (io_bind_ok _ _ _ _ _ (wsl_ready_pass (hidden st) Ht Hl)). cbv beta iota.
  rewrite (io_bind_ok _ _ _ _ _ (conda_ready_pass (record_call (Shell (grep_cmd "libgl1-mesa-glx"))
    (record_call (Shell (grep_cmd "libxrender1")) (hidden st))) Hc)). reflexivity.
Qed.

(** Two widget states with the same calls and the same messages. *)
Definition same_log (st st' : wstate) : Prop := calls st' = calls st /\ messages st' = messages st.

#[local] Instance same_log_preorder : PreOrder same_log.
Proof. split; [by intros ?|intros ??? [??] [??]; split; congruence]. Qed.

Lemma on_pst_same_log {A} (m : uio A) : within same_log (on_pst m).
Proof. intros st. unfold on_pst. by destruct (m (pst st)). Qed.

(** The steps after the launch only touch the progress fields. *)
Lemma run_wsl_after_process h f param st st1 :
  process_wsl (search_paths h) param st = Ok tt st1 ->
  same_log st1 (final_state (run_wsl h f param st)).
Proof.
  intros Hp. unfold run_wsl. rewrite (io_bind_ok _ _ _ _ _ Hp). clear Hp. cbv beta. revert st1.
  apply (within_bind same_log); [apply on_pst_same_log|intros _].
  apply (within_bind same_log); [apply on_pst_same_log|intros _]. apply on_pst_same_log.
Qed.

(** The package answers the first probe: the worker is launched with the
    environment's executable after the probe. *)
Lemma process_wsl_launch paths param st :
  let p0 := probe_command (getCondaExecutable (denv st)) name_env worker_module in
  contains "True" (condaRunCommand p0 (denv st)).1 = true ->
  process_wsl paths param st =
    Ok tt (after_run (worker_command (getCondaExecutable (condaRunCommand p0 (denv st)).2)
                        (translate_param param)) (after_run p0 st)).
Proof.
  intros p0 Hp. unfold process_wsl, probe_with_retry, io_bind.
  rewrite check_pythonpath_ok. fold p0. rewrite Hp. cbn [io_ret]. unfold conda_exe.
  by rewrite run_command_ok.
Qed.

End WindowsRun.

(** C14: On Windows nothing but the progress display is reported once the
    checks pass: whatever creating the environment, the probes and the
    worker do (a failed creation, a worker never launched), a run that
    returns shows the success label and a full bar, and the only
    exceptions are those of the progress display. *)
Theorem windows_run_reports_success `{CondaWSL} `{Listing} h f st :
  String.eqb (system h) "Windows" = true ->
  let out := condaRunCommand [getCondaExecutable (denv st); "--version"] (denv st) in
  testWslAvailable (denv st) = true -> libs_found (denv st) = Some true ->
  contains "Error" out.1 = false ->
  condaTestEnv name_env out.2 = true \/ user_yes h = true ->
  match onApplyButton h f st with
  | Ok _ st' => label_success (pst st') = true /\ bar_value (pst st') = 10000%Z
  | Err e _ => progress_error e
  end.
Proof.
  intros Hsys out Ht Hl Hc Henv. rewrite onApplyButton_checks_pass by done.
  set (st2 := after_run _ _). unfold io_bind at 1, env_ready, io_bind at 1, io_get.
  replace (denv st2) with out.2 by reflexivity.
  destruct (condaTestEnv name_env out.2) eqn:He; cbn [negb].
  - apply run_wsl_reports.
  - destruct Henv as [?|Hy]; [congruence|]. rewrite Hy.
    destruct (never_raises_ok _ st2 (creation_env_wsl_never (search_paths h))) as ([] & st3 & Hcr).
    unfold io_bind. rewrite Hcr. apply run_wsl_reports.
Qed.

(** C15: On Windows the form is not validated: once the checks pass, the
    environment exists and the worker's package answers the probe, the
    worker is launched with the form's fields as they are, empty words
    or output folder included, and no warning is shown. *)
Theorem windows_launch_without_validation `{CondaWSL} `{Listing} h f st :
  String.eqb (system h) "Windows" = true ->
  let out := condaRunCommand [getCondaExecutable (denv st); "--version"] (denv st) in
  let p0 := probe_command (getCondaExecutable out.2) name_env worker_module in
  let e3 := (condaRunCommand p0 out.2).2 in
  testWslAvailable (denv st) = true -> libs_found (denv st) = Some true ->
  contains "Error" out.1 = false -> condaTestEnv name_env out.2 = true ->
  contains "True" (condaRunCommand p0 out.2).1 = true ->
  RunCommand (worker_command (getCondaExecutable e3) (translate_param (param_of f (log_path_str h))))
    ∈ calls (final_state (onApplyButton h f st)) /\
  messages (final_state (onApplyButton h f st)) = messages st.
Proof.
  intros Hsys out p0 e3 Ht Hl Hc He Hp. rewrite onApplyButton_checks_pass by done.
  set (st2 := after_run _ _).
  assert (E : (ready <- env_ready h ;;
               if ready then run_wsl h f (param_of f (log_path_str h)) else io_ret tt) st2 =
              run_wsl h f (param_of f (log_path_str h)) st2).
  { unfold io_bind at 1, env_ready, io_bind at 1, io_get.
    replace (denv st2) with out.2 by reflexivity. by rewrite He. }
  rewrite E. destruct (run_wsl_after_process h f (param_of f (log_path_str h)) st2 _
              (process_wsl_launch (search_paths h) _ st2 Hp)) as [Hc1 Hm1].
  rewrite Hc1, Hm1.
  split; [|reflexivity]. cbn [after_run calls].
  apply elem_of_app. right. by apply list_elem_of_singleton.
Qed.

(** A failed creation of the environment: the worker is never launched,
    and the run still ends as the progress display ends. *)
Lemma windows_run_reports_success_witness :
  let st := demo_state (mkScripted true true true false [] false) in
  let f := mkForm "C:\data\in" "scan" "study" "C:\data\out" false in
  match @onApplyButton scripted_conda map_listing (demo_host true) f st with
  | Ok _ st' => label_success (pst st') = true /\ bar_value (pst st') = 10000%Z
  | Err e _ => progress_error e
  end /\
  launched_worker (calls (final_state (@onApplyButton scripted_conda map_listing (demo_host true) f st))) = false.
Proof.
  intros st f. split.
  - apply (windows_run_reports_success (demo_host true) f st); try reflexivity. by right.
  - vm_compute. reflexivity.
Defined.

(** An empty word to replace and an empty output folder are passed to the
    worker as they are. *)
Lemma windows_launch_without_validation_witness :
  let st := demo_state (mkScripted true true true true [name_env] true) in
  let f := mkForm "C:\data\in" "" "study" "" false in
  let h := demo_host false in
  RunCommand (worker_command "/home/user/miniconda3/bin/conda"
                (translate_param (param_of f (log_path_str h))))
    ∈ calls (final_state (@onApplyButton scripted_conda map_listing h f st)) /\
  messages (final_state (@onApplyButton scripted_conda map_listing h f st)) = [].
Proof. intros st f h. apply (windows_launch_without_validation h f st); reflexivity. Defined.

Lemma onApplyButton_cli_parameters_witness :
  let h := mkHost "Linux" {| nodes := {[ ["data"; "in"] := Dir ]}; clock := 1; writes := []; FS.tick := fun n => n |}
                  [] false [] "/tmp/process.log" 0 in
  let f := mkForm "/data/in" "scan" "study" "/data/out" false in
  calls (final_state (@onApplyButton scripted_conda map_listing h f
                        (demo_state (mkScripted false false false false [] false)))) =
    [] ++ [CliRun (linux_cli_parameters f "/tmp/process.log")] /\
  String.eqb (py_str (VStr "None")) "False" = false.
Proof.
  apply onApplyButton_cli_parameters; try reflexivity; try discriminate.
  by eexists.
Defined.

Lemma onApplyButton_checkIO_refuses_witness :
  exists txt,
    @onApplyButton scripted_conda map_listing linux_host
      (mkForm "C:\data\in" "" "study" "C:\data\out" false)
      (demo_state (mkScripted false false false false [] false)) =
    Ok tt (@mkW scripted_conda (mkScripted false false false false [] false) [] ([] ++ [txt]) true
                (mkP 0 0 0 false 0 "" "" false 0 "" false false)) /\
    contains "Please enter the word to be replaced" txt = true.
Proof.
  apply (onApplyButton_checkIO_refuses linux_host _
           (demo_state (mkScripted false false false false [] false))).
  - reflexivity.
  - reflexivity.
Defined.

End Dispatch.
