(* ===== verification/Panel.v ===== *)
(** * The widget's panel: its lifecycle and its form

    [replaceAllWidget] (src/replaceAll/replaceAll.py) outside the Apply
    button: [setup] (lines 152-196) hides the progress widgets, records the
    log path and observes the scene; [cleanup], [enter], [exit] and the
    scene-close handlers (lines 198-224) manage the parameter node through
    [initializeParameterNode], [setParameterNode] and [_checkCanApply]
    (lines 226-262); [openFinder] (lines 285-291) fills a folder field from
    a dialog; [overwrite] (lines 293-301) aliases the output folder to the
    input folder while the check box is ticked.

    The user's actions are events ([event]); [handle] runs the handler Qt
    or Slicer calls for each, the Apply button through
    [Dispatch.onApplyButton] on the form the panel holds.  The reachable
    panels are an inductive relation from [setup]. *)

From stdpp Require Import base list strings gmap.
From S2P Require Import Prelude PyStr PosixPath FileSystem Progress WslBridge Dispatcher.

Module Panel.
Import Path FS Progress Bridge Dispatch.

(** ** Data *)

(** [replaceAllParameterNode]'s node references (lines 114-131), by the
    name of the node they point to. *)
Record pnode : Type := mkPNode {
  inputVolume : option string;
  thresholdedVolume : option string
}.

#[export] Instance pnode_eq_dec : EqDecision pnode.
Proof. solve_decision. Defined.

(** What an observer of [VTKObservationMixin] watches. *)
Inductive source : Type :=
| Scene
| ParamNode (n : pnode).

Inductive vtk_event : Type :=
| StartCloseEvent
| EndCloseEvent
| ModifiedEvent.

#[export] Instance source_eq_dec : EqDecision source.
Proof. solve_decision. Defined.
#[export] Instance vtk_event_eq_dec : EqDecision vtk_event.
Proof. solve_decision. Defined.

Section Widget.
Context `{CondaWSL}.

Record panel : Type := mkPanel {
  form_of : form;                    (** the line edits and the check box *)
  output_edit_enabled : bool;        (** [lineEdit_outputFolder.enabled] *)
  output_button_enabled : bool;      (** [pushButton_outputFolder.enabled] *)
  apply_enabled : bool;              (** [applyButton.enabled] *)
  apply_tooltip : string;
  log_path : string;                 (** [self.log_path] *)
  param_node : option pnode;         (** [self._parameterNode] *)
  gui_tagged : bool;                 (** [self._parameterNodeGuiTag is not None] *)
  observers : list (source * vtk_event);
  entered : bool;                    (** [self.parent.isEntered] *)
  wst : wstate                       (** what [onApplyButton] acts on *)
}.

(** Record updates, one field at a time. *)
Definition set_form (f : form) (p : panel) : panel :=
  mkPanel f (output_edit_enabled p) (output_button_enabled p) (apply_enabled p)
    (apply_tooltip p) (log_path p)
    (param_node p) (gui_tagged p) (observers p) (entered p) (wst p).

Definition set_output_widgets (b : bool) (p : panel) : panel :=
  mkPanel (form_of p) b b (apply_enabled p)
    (apply_tooltip p) (log_path p)
    (param_node p) (gui_tagged p) (observers p) (entered p) (wst p).

Definition set_apply (b : bool) (tip : string) (p : panel) : panel :=
  mkPanel (form_of p) (output_edit_enabled p) (output_button_enabled p) b
    tip (log_path p)
    (param_node p) (gui_tagged p) (observers p) (entered p) (wst p).

Definition set_node (n : option pnode) (tag : bool) (obs : list (source * vtk_event))
    (p : panel) : panel :=
  mkPanel (form_of p) (output_edit_enabled p) (output_button_enabled p) (apply_enabled p)
    (apply_tooltip p) (log_path p)
    n tag obs (entered p) (wst p).

Definition set_entered (b : bool) (p : panel) : panel :=
  mkPanel (form_of p) (output_edit_enabled p) (output_button_enabled p) (apply_enabled p)
    (apply_tooltip p) (log_path p)
    (param_node p) (gui_tagged p) (observers p) b (wst p).

Definition set_wst (st : wstate) (p : panel) : panel :=
  mkPanel (form_of p) (output_edit_enabled p) (output_button_enabled p) (apply_enabled p)
    (apply_tooltip p) (log_path p)
    (param_node p) (gui_tagged p) (observers p) (entered p) st.

End Widget.

Definition with_input (s : string) (f : form) : form :=
  mkForm s (replace_text f) (by_text f) (output_text f) (overwrite_checked f).
Definition with_output (s : string) (f : form) : form :=
  mkForm (input_text f) (replace_text f) (by_text f) s (overwrite_checked f).
Definition with_replace (s : string) (f : form) : form :=
  mkForm (input_text f) s (by_text f) (output_text f) (overwrite_checked f).
Definition with_by (s : string) (f : form) : form :=
  mkForm (input_text f) (replace_text f) s (output_text f) (overwrite_checked f).
Definition toggled (f : form) : form :=
  mkForm (input_text f) (replace_text f) (by_text f) (output_text f) (negb (overwrite_checked f)).

(** [VTKObservationMixin.removeObserver]: every matching observation goes. *)
Definition remove_observer (o : source * vtk_event) (obs : list (source * vtk_event)) :=
  filter (fun o' => o' <> o) obs.

(** ** The handlers *)

Section Handlers.
Context `{CondaWSL} `{Listing}.

(** [__init__] and [setup] (lines 144-196): the form as the .ui file
    builds it, the environment manager's state and Slicer's temporary
    directory are inputs; the time label, the progress bar, the success
    and files labels are hidden, [time_log] is 0, the log path is
    [tempDirectory/process.log], the scene's close events are observed and
    Apply is enabled.  Qt widgets start enabled with no tool tip. *)
Definition setup (f0 : form) (tmp : string) (st0 : wstate) : panel :=
  let ps := pst st0 in
  let ps' := mkP (nbFiles ps) (progress ps) 0 false (bar_value ps) (bar_format ps)
                 (label_files ps) false
                 (universal_time ps) (label_time ps) false false in
  mkPanel f0 true true true "" (join2 tmp "process.log") None false
    [(Scene, StartCloseEvent); (Scene, EndCloseEvent)] false
    (mkW (denv st0) (calls st0) (messages st0) (apply_visible st0) ps').

(** [_checkCanApply] (lines 256-262). *)
Definition checkCanApply (p : panel) : panel :=
  match param_node p with
  | Some n =>
      if bool_decide (is_Some (inputVolume n)) && bool_decide (is_Some (thresholdedVolume n))
      then set_apply true "Compute output volume" p
      else set_apply false "Select input and output volume nodes" p
  | None => set_apply false "Select input and output volume nodes" p
  end.

(** [setParameterNode] (lines 239-254): the old node's GUI is
    disconnected (the tag is kept) and its observer removed; a new node is
    connected, observed and checked. *)
Definition setParameterNode (n : option pnode) (p : panel) : panel :=
  let obs := match param_node p with
             | Some old => remove_observer (ParamNode old, ModifiedEvent) (observers p)
             | None => observers p
             end in
  match n with
  | Some nn => checkCanApply (set_node (Some nn) true (obs ++ [(ParamNode nn, ModifiedEvent)]) p)
  | None => set_node None (gui_tagged p) obs p
  end.

(** [initializeParameterNode] (lines 226-237): its body is commented out. *)
Definition initializeParameterNode (p : panel) : panel := p.

(** [cleanup] (lines 198-200): [removeObservers()]. *)
Definition cleanup (p : panel) : panel := set_node (param_node p) (gui_tagged p) [] p.

(** [enter] (lines 202-205). *)
Definition enter (p : panel) : panel := initializeParameterNode p.

(** [exit] (lines 207-213). *)
Definition exit (p : panel) : panel :=
  match param_node p with
  | Some n => set_node (Some n) false (remove_observer (ParamNode n, ModifiedEvent) (observers p)) p
  | None => p
  end.

(** [onSceneStartClose] and [onSceneEndClose] (lines 215-224). *)
Definition onSceneStartClose (p : panel) : panel := setParameterNode None p.

Definition onSceneEndClose (p : panel) : panel :=
  if entered p then initializeParameterNode p else p.

(** [openFinder(nom)] (lines 285-291) with the folder the dialog returns. *)
Definition openFinder (nom folder : string) (p : panel) : panel :=
  if String.eqb nom "input" then set_form (with_input folder (form_of p)) p
  else if String.eqb nom "output" then set_form (with_output folder (form_of p)) p
  else p.

(** [overwrite] (lines 293-301), run after the check box has toggled. *)
Definition overwrite (p : panel) : panel :=
  if overwrite_checked (form_of p)
  then set_output_widgets false (set_form (with_output (input_text (form_of p)) (form_of p)) p)
  else set_output_widgets true (set_form (with_output "" (form_of p)) p).

(** [condaCreateEnv] (lines 424-441): its first statement calls
    [self.getUser()], a method of the environment manager that
    [replaceAllWidget] does not have. *)
Definition condaCreateEnv (name python_version : string) (list_lib : list string)
    (tempo_file : string) (writeProgress : bool) : wio unit :=
  io_raise (AttributeError "getUser").

(** [condaInstallLibEnv] (lines 443-469): after printing the requirements
    it calls [self.getActivateExecutable()], which the widget does not have
    either. *)
Definition condaInstallLibEnv (name : string) (requirements : list string) : wio string :=
  io_raise (AttributeError "getActivateExecutable").

(** The host as the widget sees it: its log path is [self.log_path]. *)
Definition with_log (h : host) (lp : string) : host :=
  mkHost (system h) (host_fs h) (search_paths h) (user_yes h) (wsl_polls h) lp (start_time h).

(** ** Events

    What the user or Slicer does to the panel.  A disabled widget takes
    no input: typing in the output folder or clicking its button does
    nothing while they are disabled. *)
Inductive event : Type :=
| EditInput (s : string)
| EditReplace (s : string)
| EditBy (s : string)
| EditOutput (s : string)
| FinderClicked (nom folder : string)
| OverwriteClicked
| Enter
| Exit
| SceneStartClose
| SceneEndClose
| Cleanup
| ApplyClicked (h : host).

Definition handle (e : event) (p : panel) : panel :=
  match e with
  | EditInput s => set_form (with_input s (form_of p)) p
  | EditReplace s => set_form (with_replace s (form_of p)) p
  | EditBy s => set_form (with_by s (form_of p)) p
  | EditOutput s => if output_edit_enabled p then set_form (with_output s (form_of p)) p else p
  | FinderClicked nom folder =>
      if String.eqb nom "output" && negb (output_button_enabled p) then p
      else openFinder nom folder p
  | OverwriteClicked => overwrite (set_form (toggled (form_of p)) p)
  | Enter => enter (set_entered true p)
  | Exit => set_entered false (exit p)
  | SceneStartClose => onSceneStartClose p
  | SceneEndClose => onSceneEndClose p
  | Cleanup => cleanup p
  | ApplyClicked h =>
      set_wst (final_state (onApplyButton (with_log h (log_path p)) (form_of p) (wst p))) p
  end.

Definition run_events (evs : list event) (p : panel) : panel :=
  fold_left (fun q e => handle e q) evs p.

(** The panels a session reaches: [setup] on a form whose check box is
    clear, then any events. *)
Inductive reachable : panel -> Prop :=
| reach_setup f0 tmp st0 : overwrite_checked f0 = false -> reachable (setup f0 tmp st0)
| reach_step e p : reachable p -> reachable (handle e p).

End Handlers.

(** ** The panel's invariant *)

Section Invariant.
Context `{CondaWSL} `{Listing}.

(** The output folder's widgets are disabled exactly while the check box
    is ticked; no parameter node is ever set, so Apply stays enabled and
    only the scene is observed. *)
Definition panel_inv (p : panel) : Prop :=
  output_edit_enabled p = negb (overwrite_checked (form_of p)) /\
  output_button_enabled p = negb (overwrite_checked (form_of p)) /\
  param_node p = None /\ apply_enabled p = true /\
  Forall (fun o => o.1 = Scene) (observers p).

Lemma handle_inv e p : panel_inv p -> panel_inv (handle e p).
Proof.
  intros (H1 & H2 & H3 & H4 & H5).
  destruct (overwrite_checked (form_of p)) eqn:Hc;
  destruct e; cbn [handle];
    unfold overwrite, openFinder, onSceneStartClose, onSceneEndClose, setParameterNode,
      cleanup, enter, exit, initializeParameterNode; rewrite ?H1, ?H2, ?H3; cbn; rewrite ?Hc; cbn;
    repeat case_match; unfold panel_inv; cbn; rewrite ?H1, ?H2, ?H3, ?Hc;
    split_and!; auto.
Qed.

(** The output folder is the input folder while the check box is ticked. *)
Definition aligned (p : panel) : Prop :=
  overwrite_checked (form_of p) = true -> output_text (form_of p) = input_text (form_of p).

(** The events that write the input folder's field. *)
Definition touches_input (e : event) : bool :=
  match e with
  | EditInput _ => true
  | FinderClicked nom _ => String.eqb nom "input"
  | _ => false
  end.

Lemma overwrite_aligned p : aligned (handle OverwriteClicked p).
Proof. cbn [handle]. unfold aligned, overwrite, toggled, with_output. cbn. destruct (overwrite_checked (form_of p)); cbn; intros; congruence. Qed.

Lemma handle_aligned e p :
  panel_inv p -> touches_input e = false -> aligned p -> aligned (handle e p).
Proof.
  intros (H1 & H2 & _) Ht Ha. destruct e; try discriminate Ht; cbn [handle];
    try apply overwrite_aligned;
    unfold aligned, openFinder, enter, exit, initializeParameterNode, onSceneStartClose,
      onSceneEndClose, setParameterNode, cleanup, with_output, with_replace, with_by,
      set_form, set_entered, set_node, set_wst in *; cbn in Ht; rewrite ?H1, ?H2, ?Ht;
    destruct (overwrite_checked (form_of p)) eqn:Hc; cbn;
    repeat (case_match; cbn); unfold initializeParameterNode in *; intros; cbn in *; try congruence; auto.
Qed.

Lemma setup_inv f0 tmp st0 : overwrite_checked f0 = false -> panel_inv (setup f0 tmp st0).
Proof. intros Hf. unfold panel_inv. cbn. rewrite Hf. split_and!; repeat constructor. Qed.

Lemma run_aligned evs p :
  panel_inv p -> Forall (fun e => touches_input e = false) evs -> aligned p ->
  aligned (run_events evs p).
Proof.
  revert p. induction evs as [|e evs IH]; intros p Hi Hf Ha; [done|].
  apply Forall_cons in Hf as [He Hf]. cbn. apply IH; [by apply handle_inv|done|].
  by apply handle_aligned.
Qed.

Lemma reachable_run evs p : reachable p -> reachable (run_events evs p).
Proof.
  revert p. induction evs as [|e evs IH]; intros p Hp; [done|]. cbn. apply IH. by constructor.
Qed.

End Invariant.

(** ** Properties of a session *)

Section Session.
Context `{CondaWSL} `{Listing}.

(** C25: In every panel a session reaches, the output folder's field and
    button are disabled exactly while "overwrite" is ticked, the parameter
    node is never set (so [_checkCanApply] never runs and Apply stays
    enabled), and only the scene's close events are observed. *)
Theorem reachable_panel_inv p : reachable p -> panel_inv p.
Proof. induction 1 as [f0 tmp st0 Hf|e p _ IH]; [by apply setup_inv|by apply handle_inv]. Qed.

(** C26: Ticking "overwrite" copies the input folder into the output
    folder, and the two stay equal while the box is ticked, whatever the
    user does next, as long as the input folder's field is not written. *)
Theorem overwrite_keeps_alias p evs :
  reachable p -> Forall (fun e => touches_input e = false) evs ->
  aligned (run_events (OverwriteClicked :: evs) p).
Proof.
  intros Hp Hf. change (aligned (run_events evs (handle OverwriteClicked p))).
  apply run_aligned; [|done|apply overwrite_aligned].
  apply handle_inv. induction Hp as [f0 tmp st0 Hf0|e q _ IH]; [by apply setup_inv|by apply handle_inv].
Qed.

End Session.

(** ** A session on Windows *)

Definition empty_form : form := mkForm "" "" "" "" false.

(** An environment manager with WSL, its libraries, conda and the
    [replaceAll] environment all in place. *)
Definition session_state : wstate :=
  @mkW scripted_conda (mkScripted true true true true [name_env] true) [] [] true
    (mkP 0 0 0 false 0 "" "" false 0 "" false false).

(** A Windows host with the folders [C:\data\in] and [C:\data\new]. *)
Definition session_host : host :=
  mkHost "Windows"
    {| nodes := list_to_map [([], Dir); (["C:\data\in"], Dir); (["C:\data\new"], Dir)];
       clock := 1; writes := []; FS.tick := fun n => n |}
    ["C:\Slicer\lib"] true [] "" 0.

(** C27: The alias is made once, when the box is clicked: ticking
    "overwrite" on a panel whose box is clear and then choosing another
    input folder [d] with the finder leaves the old input folder in the
    output field, with the output field and its button disabled, so the
    worker the next Apply launches renames in a folder other than the one
    the user chose. *)
Theorem overwrite_stale_alias `{CondaWSL} `{Listing} p d :
  overwrite_checked (form_of p) = false ->
  let q := run_events [OverwriteClicked; FinderClicked "input" d] p in
  form_of q = mkForm d (replace_text (form_of p)) (by_text (form_of p)) (input_text (form_of p)) true /\
  output_edit_enabled q = false /\ output_button_enabled q = false.
Proof.
  intros Hc q. unfold q, run_events. cbn [fold_left handle]. unfold overwrite, toggled.
  cbn [form_of set_form overwrite_checked]. rewrite Hc. cbn. split_and!; reflexivity.
Qed.

(** The session of [session_host]: [C:\data\in] chosen, "overwrite"
    ticked, [C:\data\new] chosen, and Apply: the worker renames in
    [/mnt/c/data/in]. *)
Lemma overwrite_stale_alias_witness :
  let p := run_events [FinderClicked "input" "C:\data\in"] (setup empty_form "C:\Temp" session_state) in
  (form_of (run_events [OverwriteClicked; FinderClicked "input" "C:\data\new"] p) =
     mkForm "C:\data\new" "" "" "C:\data\in" true /\
   output_edit_enabled (run_events [OverwriteClicked; FinderClicked "input" "C:\data\new"] p) = false /\
   output_button_enabled (run_events [OverwriteClicked; FinderClicked "input" "C:\data\new"] p) = false) /\
  last (calls (wst (run_events [OverwriteClicked; FinderClicked "input" "C:\data\new";
                                EditReplace "scan"; EditBy "study"; ApplyClicked session_host] p))) =
    Some (RunCommand (["/home/user/miniconda3/bin/conda"; "run"; "-n"; "replaceAll";
                       "python"; "-m"; worker_module] ++
                      map (fun x => dq +:+ x +:+ dq)
                        ["/mnt/c/data/new"; "scan"; "study"; "/mnt/c/data/in"; "True";
                         "/mnt/c/Temp/process.log"])).
Proof.
  intros p. split.
  - apply (overwrite_stale_alias p "C:\data\new"). reflexivity.
  - vm_compute. reflexivity.
Defined.

(** A session: ticking "overwrite" on the form of [setup]. *)
Lemma reachable_panel_inv_witness :
  panel_inv (handle OverwriteClicked (setup empty_form "/tmp" session_state)).
Proof.
  apply reachable_panel_inv. apply reach_step. apply reach_setup. reflexivity.
Defined.

Lemma overwrite_keeps_alias_witness :
  aligned (run_events [OverwriteClicked; EditOutput "/elsewhere"; FinderClicked "output" "/x"]
             (setup (mkForm "/data/in" "" "" "" false) "/tmp" session_state)).
Proof.
  apply overwrite_keeps_alias.
  - apply reach_setup. reflexivity.
  - repeat constructor.
Defined.

End Panel.
