(* ===== verification/Registration.v ===== *)
(** * Module registration and its sample data

    [replaceAll.__init__] (src/replaceAll/replaceAll.py, lines 37-57) fills
    the module's descriptor for Slicer's module list and connects
    [registerSampleData] to the application's [startupCompleted()] signal;
    [registerSampleData] (lines 65-107) registers the two sample volumes
    with the SampleData module.  SampleData is Slicer's library: its
    registry is the class [SampleDataLogic], with the two laws the code
    relies on (a registered source is listed in its category, and
    registering keeps what was listed).  The translation functions [_] and
    [translate] are the identity (no translation loaded).

    The theorem: once Slicer has started, both samples are listed under
    "replaceAll", each with a checksum naming the hash its download URI
    ends with, so that SampleData's integrity check of the downloaded file
    accepts what the URI serves, with its file, node and thumbnail names
    derived from its sample name. *)

From Stdlib Require Import Ascii.
From stdpp Require Import base list strings.
From S2P Require Import Prelude PyStr PosixPath.

Module Registration.
Import Str Path.

(** ** Data *)

(** The keyword arguments of [SampleDataLogic.registerCustomSampleDataSource]
    the code passes. *)
Record sample_source : Type := mkSource {
  category : string;
  sampleName : string;
  thumbnailFileName : string;
  uris : string;
  fileNames : string;
  checksums : string;
  nodeNames : string
}.

(** Slicer's SampleData registry, [slicer.modules.sampleDataSources]. *)
Class SampleDataLogic : Type := {
  sd_registry : Type;
  registerCustomSampleDataSource : sample_source -> sd_registry -> sd_registry;
  sources : sd_registry -> string -> list sample_source;
  register_listed : forall s r, s ∈ sources (registerCustomSampleDataSource s r) (category s);
  register_keeps : forall s r c t,
    t ∈ sources r c -> t ∈ sources (registerCustomSampleDataSource s r) c
}.

(** The fields of [self.parent] that [__init__] sets. *)
Record module_parent : Type := mkParent {
  title : string;
  categories : list string;
  dependencies : list string;
  contributors : list string;
  helpText : string;
  acknowledgementText : string
}.

(** The slots connected to [startupCompleted()]: [registerSampleData] of
    a module file ([__file__]). *)
Inductive slot : Type :=
| RegisterSampleData (module_file : string).

Section WithSampleData.
Context `{SampleDataLogic}.

(** The application: the modules' descriptors, the slots of
    [startupCompleted()] in connection order, the SampleData registry. *)
Record app : Type := mkApp {
  parents : list module_parent;
  startup_slots : list slot;
  registry : sd_registry
}.

(** ** [registerSampleData] *)

(** [iconsPath = os.path.join(os.path.dirname(__file__), "Resources/Icons")] *)
Definition iconsPath (module_file : string) : string :=
  join2 (dirname module_file) "Resources/Icons".

Definition replaceAll1_source (module_file : string) : sample_source := {|
  category := "replaceAll";
  sampleName := "replaceAll1";
  thumbnailFileName := join2 (iconsPath module_file) "replaceAll1.png";
  uris := "https://github.com/Slicer/SlicerTestingData/releases/download/SHA256/998cb522173839c78657f4bc0ea907cea09fd04e44601f17c82ea27927937b95";
  fileNames := "replaceAll1.nrrd";
  checksums := "SHA256:998cb522173839c78657f4bc0ea907cea09fd04e44601f17c82ea27927937b95";
  nodeNames := "replaceAll1" |}.

Definition replaceAll2_source (module_file : string) : sample_source := {|
  category := "replaceAll";
  sampleName := "replaceAll2";
  thumbnailFileName := join2 (iconsPath module_file) "replaceAll2.png";
  uris := "https://github.com/Slicer/SlicerTestingData/releases/download/SHA256/1a64f3f422eb3d1c9b093d1a18da354b13bcf307907c66317e2463ee530b7a97";
  fileNames := "replaceAll2.nrrd";
  checksums := "SHA256:1a64f3f422eb3d1c9b093d1a18da354b13bcf307907c66317e2463ee530b7a97";
  nodeNames := "replaceAll2" |}.

Definition registerSampleData (module_file : string) (r : sd_registry) : sd_registry :=
  registerCustomSampleDataSource (replaceAll2_source module_file)
    (registerCustomSampleDataSource (replaceAll1_source module_file) r).

(** ** [replaceAll.__init__] and the startup signal *)

Definition nl : string := String (ascii_of_nat 10) EmptyString.
Definition dq : string := String (ascii_of_nat 34) EmptyString.

Definition replaceAll_parent : module_parent := {|
  title := "replaceAll";
  categories := ["Tutorials"];
  dependencies := [];
  contributors := ["John Doe (AnyWare Corp.)"];
  helpText := nl +:+
    "This is an example of scripted loadable module bundled in an extension." +:+ nl +:+
    "See more information in <a href=" +:+ dq +:+
    "https://github.com/organization/projectname#replaceAll" +:+ dq +:+
    ">module documentation</a>." +:+ nl;
  acknowledgementText := nl +:+
    "This file was originally developed by Jean-Christophe Fillion-Robin, Kitware Inc., Andras Lasso, PerkLab," +:+ nl +:+
    "and Steve Pieper, Isomics, Inc. and was partially funded by NIH grant 3P41RR013218-12S1." +:+ nl |}.

(** [replaceAll(parent)]: the descriptor is filled and the slot connected
    ([slicer.app.connect] appends it after the slots already there). *)
Definition replaceAll_init (module_file : string) (a : app) : app :=
  mkApp (parents a ++ [replaceAll_parent])
        (startup_slots a ++ [RegisterSampleData module_file])
        (registry a).

Definition run_slot (a : app) (sl : slot) : app :=
  match sl with
  | RegisterSampleData f => mkApp (parents a) (startup_slots a) (registerSampleData f (registry a))
  end.

(** The application emits [startupCompleted()]: each slot runs once, in
    connection order. *)
Definition startupCompleted (a : app) : app :=
  fold_left run_slot (startup_slots a) a.

(** ** What a registered source promises *)

(** The download is checked against the hash the URI ends with (the
    SlicerTestingData release names each file by its SHA256); the file,
    node and thumbnail are named after the sample. *)
Definition source_ok (icons : string) (s : sample_source) : bool :=
  String.eqb (category s) "replaceAll" &&
  String.eqb (checksums s) ("SHA256:" +:+ basename (uris s)) &&
  String.eqb (fileNames s) (sampleName s +:+ ".nrrd") &&
  String.eqb (nodeNames s) (sampleName s) &&
  String.eqb (thumbnailFileName s) (join2 icons (sampleName s +:+ ".png")).

(** ** Properties *)

Lemma registerSampleData_lists f r :
  replaceAll1_source f ∈ sources (registerSampleData f r) "replaceAll" /\
  replaceAll2_source f ∈ sources (registerSampleData f r) "replaceAll".
Proof.
  split.
  - apply register_keeps, (register_listed (replaceAll1_source f)).
  - apply (register_listed (replaceAll2_source f)).
Qed.

Lemma replaceAll_sources_ok f :
  source_ok (iconsPath f) (replaceAll1_source f) = true /\
  source_ok (iconsPath f) (replaceAll2_source f) = true.
Proof. split; unfold source_ok; cbn -[join2 iconsPath]; by rewrite String.eqb_refl. Qed.

(** The slots only act on the registry: the registry they leave depends
    on the one they start from alone. *)
Lemma run_slots_registry sl a b :
  registry a = registry b ->
  registry (fold_left run_slot sl a) = registry (fold_left run_slot sl b).
Proof.
  revert a b. induction sl as [|[f] sl IH]; intros a b Hab; [done|].
  apply IH. cbn. by rewrite Hab.
Qed.

(** The slot [__init__] connects runs last: the registry it sees is the
    one the earlier slots left. *)
Lemma startupCompleted_init_registry f a :
  registry (startupCompleted (replaceAll_init f a)) =
    registerSampleData f (registry (startupCompleted a)).
Proof.
  unfold startupCompleted, replaceAll_init. cbn [startup_slots].
  rewrite fold_left_app. cbn [fold_left run_slot registry].
  f_equal. by apply run_slots_registry.
Qed.

(** C19: Once Slicer has started, the module's two samples are listed
    under the category "replaceAll", whatever the registry held and
    whatever slots ran before, and each of them carries the SHA256
    checksum its download URI names, the file name [<sample>.nrrd], the
    node name [<sample>] and the thumbnail [Resources/Icons/<sample>.png]
    beside the module file. *)
Theorem startup_registers_samples f a :
  Forall (fun s => s ∈ sources (registry (startupCompleted (replaceAll_init f a))) "replaceAll" /\
                   source_ok (iconsPath f) s = true)
    [replaceAll1_source f; replaceAll2_source f].
Proof.
  rewrite startupCompleted_init_registry.
  destruct (registerSampleData_lists f (registry (startupCompleted a))) as [H1 H2].
  destruct (replaceAll_sources_ok f) as [O1 O2]. by repeat constructor.
Qed.

End WithSampleData.

(** ** A registry

    [slicer.modules.sampleDataSources] as a list of sources, a new source
    appended, a category listing its sources in registration order. *)
#[export] Program Instance list_sample_data : SampleDataLogic := {|
  sd_registry := list sample_source;
  registerCustomSampleDataSource s r := r ++ [s];
  sources r c := filter (fun s => category s = c) r
|}.
Next Obligation.
  intros s r. apply list_elem_of_filter. split; [done|]. apply elem_of_app. right. by left.
Qed.
Next Obligation.
  intros s r c t. rewrite !list_elem_of_filter. intros [Hc Ht]. split; [done|]. apply elem_of_app. by left.
Qed.

Example startup_lists_samples :
  map sampleName (sources (registry (startupCompleted
    (replaceAll_init "/ext/replaceAll/replaceAll.py" (mkApp [] [] [])))) "replaceAll") =
    ["replaceAll1"; "replaceAll2"] /\
  thumbnailFileName (replaceAll1_source "/ext/replaceAll/replaceAll.py") =
    "/ext/replaceAll/Resources/Icons/replaceAll1.png".
Proof. vm_compute. split; reflexivity. Qed.

End Registration.
