(* ===== verification/ModuleTest.v ===== *)
(** * The module's test case

    [replaceAllTest] (src/replaceAll/replaceAll.py, lines 720-781) is the
    scripted-module template's test: [setUp] clears the scene, [runTest]
    runs [test_replaceAll1], which registers and downloads the sample
    "replaceAll1", checks its scalar range, adds an output volume and calls
    [replaceAllLogic().process] twice with the template's thresholding
    arguments, checking the output's range after each call.

    The test runs here over the scene, the SampleData registry and the
    widget state [Dispatch.process] acts on; the failures it can meet are
    the values of [terr].  A Python call binds its positional arguments
    first: [replaceAllLogic.process] (lines 660-672) takes [self] alone,
    so the call with four arguments raises [TypeError] before the body
    runs.  The theorem: the test never passes, and never reaches the CLI. *)

From Stdlib Require Import ZArith.
From stdpp Require Import base list strings pretty.
From S2P Require Import Prelude PosixPath Progress WslBridge Dispatcher Registration.

Module ModuleTest.
Import Progress Bridge Dispatch Registration.

(** ** Data *)

(** A volume node of the scene: its class and the scalar range of its
    image data ([None] while it has none). *)
Record mrml_node : Type := mkNode {
  node_class : string;
  image_range : option (Z * Z)
}.

(** The arguments the test passes: node references (an index of the
    scene, or [None]), integers and booleans. *)
Inductive targ : Type :=
| ANode (n : option nat)
| AInt (z : Z)
| ABool (b : bool).

Inductive terr : Type :=
| TAttributeError (obj attr : string)
| AssertionError (msg : string)
| TypeError (msg : string)
| Widget (e : ui_error).

(** SampleData's [downloadSample]: the image range of the volume it loads
    from the sample registered under that name, [None] when it loads
    nothing. *)
Class SampleDownload `{SampleDataLogic} : Type := {
  downloadSample : sd_registry -> string -> option (Z * Z)
}.

Section Test.
Context `{SampleDataLogic} `{!SampleDownload} `{CondaWSL}.

Record tstate : Type := mkT {
  scene : list mrml_node;
  test_registry : sd_registry;
  displayed : list string;
  wst : wstate
}.

Abbreviation tio := (io tstate terr).

(** ** The calls the test makes *)

Definition set_scene (l : list mrml_node) (t : tstate) : tstate :=
  mkT l (test_registry t) (displayed t) (wst t).

(** [self.delayDisplay(msg)] *)
Definition delayDisplay (msg : string) : tio unit :=
  io_modify (fun t => mkT (scene t) (test_registry t) (displayed t ++ [msg]) (wst t)).

(** [slicer.mrmlScene.Clear()] *)
Definition setUp : tio unit := io_modify (set_scene []).

(** [registerSampleData()] of the module file. *)
Definition registerSampleData_call (module_file : string) : tio unit :=
  io_modify (fun t => mkT (scene t) (registerSampleData module_file (test_registry t))
                          (displayed t) (wst t)).

(** [SampleData.downloadSample(name)]: the loaded volume is added to the
    scene; [None] when nothing was loaded. *)
Definition downloadSample_call (name : string) : tio (option nat) :=
  fun t => match downloadSample (test_registry t) name with
           | Some rng =>
               Ok (Some (length (scene t)))
                  (set_scene (scene t ++ [mkNode "vtkMRMLScalarVolumeNode" (Some rng)]) t)
           | None => Ok None t
           end.

(** [node.GetImageData().GetScalarRange()] *)
Definition GetScalarRange (n : option nat) : tio (Z * Z) :=
  fun t => match n with
           | None => Err (TAttributeError "NoneType" "GetImageData") t
           | Some i => match scene t !! i with
                       | Some (mkNode _ (Some rng)) => Ok rng t
                       | _ => Err (TAttributeError "NoneType" "GetScalarRange") t
                       end
           end.

(** [self.assertEqual(first, second)] *)
Definition assertEqual (first second : Z) : tio unit :=
  if Z.eqb first second then io_ret tt
  else io_raise (AssertionError (pretty first +:+ " != " +:+ pretty second)).

(** [slicer.mrmlScene.AddNewNodeByClass(cls)]: a node without image data. *)
Definition AddNewNodeByClass (cls : string) : tio (option nat) :=
  fun t => Ok (Some (length (scene t))) (set_scene (scene t ++ [mkNode cls None]) t).

(** A widget action run on the widget's part of the state. *)
Definition lift_w {A} (m : wio A) : tio A :=
  fun t => match m (wst t) with
           | Ok a w => Ok a (mkT (scene t) (test_registry t) (displayed t) w)
           | Err e w => Err (Widget e) (mkT (scene t) (test_registry t) (displayed t) w)
           end.

Definition process_arity_msg (given : nat) : string :=
  "replaceAllLogic.process() takes 1 positional argument but " +:+ pretty given +:+
  " were given".

(** [logic.process(...)]: the bound method takes [self] alone. *)
Definition process_call (lg : logic) (args : list targ) : tio unit :=
  match args with
  | [] => lift_w (process lg)
  | _ => io_raise (TypeError (process_arity_msg (S (length args))))
  end.

(** ** The test *)

Definition test_replaceAll1 (module_file : string) : tio unit :=
  delayDisplay "Starting the test" ;;
  registerSampleData_call module_file ;;
  inputVolume <- downloadSample_call "replaceAll1" ;;
  delayDisplay "Loaded test data set" ;;
  inputScalarRange <- GetScalarRange inputVolume ;;
  assertEqual inputScalarRange.1 0 ;;
  assertEqual inputScalarRange.2 695 ;;
  outputVolume <- AddNewNodeByClass "vtkMRMLScalarVolumeNode" ;;
  let threshold := 100%Z in
  let lg := replaceAllLogic [] in
  process_call lg [ANode inputVolume; ANode outputVolume; AInt threshold; ABool true] ;;
  outputScalarRange <- GetScalarRange outputVolume ;;
  assertEqual outputScalarRange.1 inputScalarRange.1 ;;
  assertEqual outputScalarRange.2 threshold ;;
  process_call lg [ANode inputVolume; ANode outputVolume; AInt threshold; ABool false] ;;
  outputScalarRange <- GetScalarRange outputVolume ;;
  assertEqual outputScalarRange.1 inputScalarRange.1 ;;
  assertEqual outputScalarRange.2 inputScalarRange.2 ;;
  delayDisplay "Test passed".

Definition runTest (module_file : string) : tio unit :=
  setUp ;; test_replaceAll1 module_file.

(** ** Properties *)

(** C21: [runTest] never passes, and never runs the CLI.  When the sample
    cannot be loaded, [GetImageData] is looked up on [None]; when its
    range is not the expected [0..695], an [assertEqual] fails; otherwise
    the first [logic.process] call, with four arguments, raises
    [TypeError] before [process] runs.  The widget's call trace is the one
    the test started from. *)
Theorem runTest_never_passes f t :
  match runTest f t with
  | Ok _ _ => False
  | Err e t' => calls (wst t') = calls (wst t) /\
      match downloadSample (registerSampleData f (test_registry t)) "replaceAll1" with
      | None => e = TAttributeError "NoneType" "GetImageData"
      | Some (lo, hi) =>
          if Z.eqb lo 0 && Z.eqb hi 695 then e = TypeError (process_arity_msg 5)
          else exists m, e = AssertionError m
      end
  end.
Proof.
  unfold runTest, test_replaceAll1, setUp, delayDisplay, registerSampleData_call,
    downloadSample_call, GetScalarRange, assertEqual, AddNewNodeByClass, process_call,
    io_bind, io_modify, io_ret, io_raise.
  cbn. destruct (downloadSample _ _) as [[lo hi]|]; cbn; [|done].
  destruct (Z.eqb_spec lo 0), (Z.eqb_spec hi 695); cbn; eauto.
Qed.

End Test.

(** ** A run with the published sample

    The sample "replaceAll1" loads, once registered, as the volume whose
    range the test expects. *)
#[export] Instance published_sample : SampleDownload := {|
  downloadSample r n :=
    if bool_decide (n ∈ map sampleName (sources r "replaceAll")) then Some (0, 695)%Z else None
|}.

Example runTest_published_sample :
  match runTest "/ext/replaceAll/replaceAll.py"
          (mkT [] [] [] (demo_state (mkScripted true true true true [] false))) with
  | Ok _ _ => False
  | Err e t' => e = TypeError "replaceAllLogic.process() takes 1 positional argument but 5 were given" /\
                map node_class (scene t') = ["vtkMRMLScalarVolumeNode"; "vtkMRMLScalarVolumeNode"] /\
                displayed t' = ["Starting the test"; "Loaded test data set"]
  end.
Proof. vm_compute. split; [|split]; reflexivity. Qed.

End ModuleTest.
